(** * Instagram export pre-processing: flattening, cleaning and link tables

    A shallow embedding of [preprocess.py] and [preprocess11.py].

    Python text is a [string] whose characters are the code points below
    256; [lower], [strip], [repr] and the UTF-8 encoding treat them as
    Python does.  Numbers are integers in the range of int64, numbers
    with a fractional part are left out; a float64 cell only ever holds
    an integer, rounded as float64 rounds it (pandas stores an integer
    column that has missing values as float64).  Text columns are object columns, as in pandas
    before version 3.  What [pd.to_datetime] and [pd.to_numeric] make of
    a column is a parameter of the development. *)

From Stdlib Require Import ZArith List String Ascii Bool Lia Arith.
From Stdlib Require Import DecimalString.
Import ListNotations.

Local Open Scope string_scope.
Local Open Scope Z_scope.

(* ------------------------------------------------------------------ *)
(** ** Python [str] operations *)

Module PyStr.

Definition code (c : ascii) : Z := Z.of_N (N_of_ascii c).

Definition chr (z : Z) : ascii := ascii_of_N (Z.to_N z).

(** [c.isspace()] for the code points below 256. *)
Definition isspace (c : ascii) : bool :=
  let n := code c in
  ((9 <=? n) && (n <=? 13)) || ((28 <=? n) && (n <=? 32))
  || (n =? 133) || (n =? 160).

(** [c.isprintable()] for the code points below 256. *)
Definition isprintable (c : ascii) : bool :=
  let n := code c in
  negb ((n <? 32) || ((127 <=? n) && (n <=? 160)) || (n =? 173)).

(** [c.lower()]: the ASCII capitals and the Latin-1 capitals except the
    multiplication sign. *)
Definition lower_char (c : ascii) : ascii :=
  let n := code c in
  if ((65 <=? n) && (n <=? 90))
     || ((192 <=? n) && (n <=? 222) && negb (n =? 215))
  then chr (n + 32) else c.

Fixpoint lower (s : string) : string :=
  match s with
  | EmptyString => EmptyString
  | String c r => String (lower_char c) (lower r)
  end.

Fixpoint lstrip (s : string) : string :=
  match s with
  | EmptyString => EmptyString
  | String c r => if isspace c then lstrip r else s
  end.

(** [rstrip] keeps a character when it is not a space or when something
    is kept after it. *)
Fixpoint rstrip (s : string) : string :=
  match s with
  | EmptyString => EmptyString
  | String c r =>
      match rstrip r with
      | EmptyString => if isspace c then EmptyString else String c EmptyString
      | r' => String c r'
      end
  end.

Definition strip (s : string) : string := rstrip (lstrip s).

Fixpoint startswith (p s : string) : bool :=
  match p, s with
  | EmptyString, _ => true
  | String a p', String b s' => Ascii.eqb a b && startswith p' s'
  | String _ _, EmptyString => false
  end.

Fixpoint rev_acc (s acc : string) : string :=
  match s with
  | EmptyString => acc
  | String c r => rev_acc r (String c acc)
  end.

Definition rev (s : string) : string := rev_acc s EmptyString.

Definition endswith (suffix s : string) : bool :=
  startswith (rev suffix) (rev s).

(** [sub in s] *)
Fixpoint contains (sub s : string) : bool :=
  startswith sub s
  || match s with
     | EmptyString => false
     | String _ r => contains sub r
     end.

(** [s[:-1]] *)
Fixpoint drop_last (s : string) : string :=
  match s with
  | EmptyString => EmptyString
  | String c EmptyString => EmptyString
  | String c r => String c (drop_last r)
  end.

(** [s.split(c)] for a one-character separator: never the empty list. *)
Fixpoint split (sep : ascii) (s : string) : list string :=
  match s with
  | EmptyString => [EmptyString]
  | String c r =>
      if Ascii.eqb c sep then EmptyString :: split sep r
      else match split sep r with
           | [] => [String c EmptyString]
           | x :: xs => String c x :: xs
           end
  end.

(** [sep.join(l)] *)
Fixpoint join (sep : string) (l : list string) : string :=
  match l with
  | [] => EmptyString
  | [x] => x
  | x :: r => x ++ sep ++ join sep r
  end.

(** [s.replace(old, new)] for a non-empty [old]: matches are taken from
    the left and do not overlap; [skip] counts the characters of a match
    still to be passed over. *)
Fixpoint replace_from (old new : string) (skip : nat) (s : string) : string :=
  match s with
  | EmptyString => EmptyString
  | String c r =>
      match skip with
      | S k => replace_from old new k r
      | O => if startswith old s
             then new ++ replace_from old new (String.length old - 1) r
             else String c (replace_from old new O r)
      end
  end.

Definition replace (old new s : string) : string := replace_from old new O s.

(** [str(n)] for an integer. *)
Definition of_Z (z : Z) : string := NilZero.string_of_int (Z.to_int z).

(** [str(i)] for a list position. *)
Definition of_nat (n : nat) : string := of_Z (Z.of_nat n).

Definition hex_digit (n : Z) : ascii :=
  if n <? 10 then chr (48 + n) else chr (87 + n).

(** Two lower-case hexadecimal digits of a byte. *)
Definition hex_byte (b : Z) : string :=
  String (hex_digit (b / 16)) (String (hex_digit (b mod 16)) EmptyString).

(** Decimal rendering of [z] on at least [w] digits. *)
Fixpoint pad_digits (w : nat) (z : Z) : string :=
  match w with
  | O => EmptyString
  | S k => pad_digits k (z / 10) ++ String (chr (48 + z mod 10)) EmptyString
  end.

(** [s.encode('utf-8')] *)
Fixpoint encode_utf8 (s : string) : list Z :=
  match s with
  | EmptyString => []
  | String c r =>
      let n := code c in
      if n <? 128 then n :: encode_utf8 r
      else (192 + n / 64) :: (128 + n mod 64) :: encode_utf8 r
  end.

(** The escape of one character inside [repr(s)] quoted with [q]. *)
Definition repr_char (q : ascii) (c : ascii) : string :=
  let n := code c in
  if Ascii.eqb c q then String "\" (String c EmptyString)
  else if n =? 92 then "\\"
  else if n =? 9 then "\t"
  else if n =? 10 then "\n"
  else if n =? 13 then "\r"
  else if isprintable c then String c EmptyString
  else "\x" ++ hex_byte n.

Fixpoint repr_body (q : ascii) (s : string) : string :=
  match s with
  | EmptyString => EmptyString
  | String c r => repr_char q c ++ repr_body q r
  end.

(** [repr(s)]: double quotes only when [s] has a single quote and no
    double quote. *)
Definition repr (s : string) : string :=
  let q := if contains "'" s && negb (contains (String (chr 34) EmptyString) s)
           then chr 34 else "'"%char in
  String q (repr_body q s ++ String q EmptyString).

End PyStr.

(* ------------------------------------------------------------------ *)
(** ** [hashlib.md5], after RFC 1321 *)

Module MD5.

Definition w32 (x : Z) : Z := x mod 2 ^ 32.

Definition add32 (x y : Z) : Z := w32 (x + y).

Definition not32 (x : Z) : Z := 2 ^ 32 - 1 - x.

Definition rotl32 (x n : Z) : Z :=
  Z.lor (w32 (Z.shiftl x n)) (Z.shiftr x (32 - n)).

Definition shifts : list Z :=
  [7; 12; 17; 22; 7; 12; 17; 22; 7; 12; 17; 22; 7; 12; 17; 22;
   5; 9; 14; 20; 5; 9; 14; 20; 5; 9; 14; 20; 5; 9; 14; 20;
   4; 11; 16; 23; 4; 11; 16; 23; 4; 11; 16; 23; 4; 11; 16; 23;
   6; 10; 15; 21; 6; 10; 15; 21; 6; 10; 15; 21; 6; 10; 15; 21].

(** [floor (2^32 * abs (sin (i + 1)))] *)
Definition sines : list Z :=
  [0xd76aa478; 0xe8c7b756; 0x242070db; 0xc1bdceee; 0xf57c0faf; 0x4787c62a;
   0xa8304613; 0xfd469501; 0x698098d8; 0x8b44f7af; 0xffff5bb1; 0x895cd7be;
   0x6b901122; 0xfd987193; 0xa679438e; 0x49b40821; 0xf61e2562; 0xc040b340;
   0x265e5a51; 0xe9b6c7aa; 0xd62f105d; 0x02441453; 0xd8a1e681; 0xe7d3fbc8;
   0x21e1cde6; 0xc33707d6; 0xf4d50d87; 0x455a14ed; 0xa9e3e905; 0xfcefa3f8;
   0x676f02d9; 0x8d2a4c8a; 0xfffa3942; 0x8771f681; 0x6d9d6122; 0xfde5380c;
   0xa4beea44; 0x4bdecfa9; 0xf6bb4b60; 0xbebfbc70; 0x289b7ec6; 0xeaa127fa;
   0xd4ef3085; 0x04881d05; 0xd9d4d039; 0xe6db99e5; 0x1fa27cf8; 0xc4ac5665;
   0xf4292244; 0x432aff97; 0xab9423a7; 0xfc93a039; 0x655b59c3; 0x8f0ccc92;
   0xffeff47d; 0x85845dd1; 0x6fa87e4f; 0xfe2ce6e0; 0xa3014314; 0x4e0811a1;
   0xf7537e82; 0xbd3af235; 0x2ad7d2bb; 0xeb86d391].

Record state := mk_state { sa : Z; sb : Z; sc : Z; sd : Z }.

Definition init : state :=
  mk_state 0x67452301 0xefcdab89 0x98badcfe 0x10325476.

(** The message length in bits on eight bytes, least significant first. *)
Fixpoint le_bytes (n : nat) (x : Z) : list Z :=
  match n with
  | O => []
  | S k => x mod 256 :: le_bytes k (x / 256)
  end.

Definition pad (msg : list Z) : list Z :=
  let len := Z.of_nat (List.length msg) in
  let zeros := Z.to_nat ((55 - len) mod 64) in
  msg ++ 128 :: repeat 0 zeros ++ le_bytes 8 (len * 8 mod 2 ^ 64).

Fixpoint le_word (bs : list Z) : Z :=
  match bs with
  | [] => 0
  | b :: r => b + 256 * le_word r
  end.

Fixpoint words (n : nat) (bs : list Z) : list Z :=
  match n with
  | O => []
  | S k => le_word (firstn 4 bs) :: words k (skipn 4 bs)
  end.

Definition round (m : list Z) (st : state) (i : Z) : state :=
  let '(mk_state a b c d) := st in
  let '(f, g) :=
    if i <? 16 then (Z.lor (Z.land b c) (Z.land (not32 b) d), i)
    else if i <? 32
         then (Z.lor (Z.land d b) (Z.land (not32 d) c), (5 * i + 1) mod 16)
    else if i <? 48 then (Z.lxor b (Z.lxor c d), (3 * i + 5) mod 16)
    else (Z.lxor c (Z.lor b (not32 d)), (7 * i) mod 16) in
  let k := nth (Z.to_nat i) sines 0 in
  let s := nth (Z.to_nat i) shifts 0 in
  let f' := add32 (add32 (add32 f a) k) (nth (Z.to_nat g) m 0) in
  mk_state d (add32 b (rotl32 f' s)) b c.

Definition chunk (st : state) (bs : list Z) : state :=
  let m := words 16 bs in
  let r := fold_left (round m) (map Z.of_nat (seq 0 64)) st in
  mk_state (add32 (sa st) (sa r)) (add32 (sb st) (sb r))
           (add32 (sc st) (sc r)) (add32 (sd st) (sd r)).

Fixpoint chunks (fuel : nat) (st : state) (bs : list Z) : state :=
  match fuel, bs with
  | S k, _ :: _ => chunks k (chunk st (firstn 64 bs)) (skipn 64 bs)
  | _, _ => st
  end.

Definition digest (msg : list Z) : list Z :=
  let p := pad msg in
  let st := chunks (List.length p) init p in
  le_bytes 4 (sa st) ++ le_bytes 4 (sb st)
  ++ le_bytes 4 (sc st) ++ le_bytes 4 (sd st).

(** [hashlib.md5(s.encode('utf-8')).hexdigest()] *)
Definition hexdigest (s : string) : string :=
  String.concat "" (map PyStr.hex_byte (digest (PyStr.encode_utf8 s))).

End MD5.

(* ------------------------------------------------------------------ *)
(** ** Python values and [str()] *)

(** The scalars a cell of a table can hold: [None], the float [nan], the
    pandas [NaT], booleans, integers, float64 cells holding an integer,
    text, and UTC instants in nanoseconds since the epoch. *)
Inductive value :=
| VNone
| VNaN
| VNaT
| VBool (b : bool)
| VInt (z : Z)
| VFloat (z : Z)
| VStr (s : string)
| VTime (ns : Z).

Module Calendar.

Definition ns_per_day : Z := 86400 * 10 ^ 9.

Definition days (ns : Z) : Z := ns / ns_per_day.

(** Year, month and day of the proleptic Gregorian calendar for a day
    count since 1970-01-01. *)
Definition civil (d : Z) : Z * Z * Z :=
  let z := d + 719468 in
  let era := z / 146097 in
  let doe := z - era * 146097 in
  let yoe := (doe - doe / 1460 + doe / 36524 - doe / 146096) / 365 in
  let doy := doe - (365 * yoe + yoe / 4 - yoe / 100) in
  let mp := (5 * doy + 2) / 153 in
  let dd := doy - (153 * mp + 2) / 5 + 1 in
  let m := if mp <? 10 then mp + 3 else mp - 9 in
  let y := yoe + era * 400 + (if m <=? 2 then 1 else 0) in
  (y, m, dd).

Definition year (ns : Z) : Z := fst (fst (civil (days ns))).
Definition month (ns : Z) : Z := snd (fst (civil (days ns))).
Definition day (ns : Z) : Z := snd (civil (days ns)).
(** Monday is 0. *)
Definition weekday (ns : Z) : Z := (days ns + 3) mod 7.
Definition hour (ns : Z) : Z := (ns mod ns_per_day) / (3600 * 10 ^ 9).
Definition minute (ns : Z) : Z := (ns mod (3600 * 10 ^ 9)) / (60 * 10 ^ 9).
Definition second (ns : Z) : Z := (ns mod (60 * 10 ^ 9)) / 10 ^ 9.

(** [str(ts)] of a UTC [Timestamp]. *)
Definition to_string (ns : Z) : string :=
  let us := (ns mod 10 ^ 9) / 1000 in
  let nano := ns mod 1000 in
  let frac :=
    if us =? 0 then
      if nano =? 0 then "" else "." ++ PyStr.pad_digits 9 nano
    else "." ++ PyStr.pad_digits 6 us
         ++ (if nano =? 0 then "" else PyStr.pad_digits 3 nano) in
  PyStr.pad_digits 4 (year ns) ++ "-" ++ PyStr.pad_digits 2 (month ns)
  ++ "-" ++ PyStr.pad_digits 2 (day ns) ++ " "
  ++ PyStr.pad_digits 2 (hour ns) ++ ":" ++ PyStr.pad_digits 2 (minute ns)
  ++ ":" ++ PyStr.pad_digits 2 (second ns) ++ frac ++ "+00:00".

End Calendar.

(** float64 cells that hold an integer. *)
Module PyFloat.

(** [float(z)]: round to nearest with 53 significant bits, ties to even. *)
Definition of_int (z : Z) : Z :=
  let a := Z.abs z in
  if a <? 2 ^ 53 then z
  else
    let e := Z.log2 a - 52 in
    let q := Z.shiftr a e in
    let r := a - Z.shiftl q e in
    let half := 2 ^ (e - 1) in
    let q' := if (half <? r) || ((r =? half) && Z.odd q) then q + 1 else q in
    Z.sgn z * Z.shiftl q' e.

(** The number of decimal digits of a positive integer, at most [fuel]. *)
Fixpoint count_digits (fuel : nat) (a : Z) : Z :=
  match fuel with
  | O => 0
  | S k => if a <? 10 then 1 else 1 + count_digits k (a / 10)
  end.

(** [m] without its trailing zeros. *)
Fixpoint drop_zeros (fuel : nat) (m : Z) : Z :=
  match fuel with
  | O => m
  | S k => if (m mod 10 =? 0) && negb (m =? 0) then drop_zeros k (m / 10)
           else m
  end.

(** The [n]-digit decimal that [float] takes back to [a], if there is
    one: of the two next to [a], the nearer one first. *)
Definition with_digits (a nd n : Z) : option Z :=
  let scale := 10 ^ (nd - n) in
  let lo := (a / scale) * scale in
  let hi := lo + scale in
  let near := if a - lo <=? hi - a then (lo, hi) else (hi, lo) in
  if of_int (fst near) =? a then Some (fst near)
  else if of_int (snd near) =? a then Some (snd near)
  else None.

(** The shortest decimal that [float] takes back to [a], trying [fuel]
    lengths from [n] on. *)
Fixpoint shortest (fuel : nat) (a nd n : Z) : Z :=
  match fuel with
  | O => a
  | S k => match with_digits a nd n with
           | Some d => d
           | None => shortest k a nd (n + 1)
           end
  end.

(** [repr(x)] for a float64 [x] that holds the integer [z]: plain digits
    below 10^16, the shortest digits that give [x] back and an exponent
    from there on. *)
Definition repr (z : Z) : string :=
  let a := Z.abs z in
  if a <? 10 ^ 16 then PyStr.of_Z z ++ ".0"
  else
    let nd := count_digits 400 a in
    let d := shortest 17 a nd 1 in
    let exponent := count_digits 400 d - 1 in
    let digits := PyStr.of_Z (drop_zeros 400 d) in
    let mantissa :=
      match digits with
      | String c EmptyString => digits
      | String c r => String c (String "." r)
      | EmptyString => digits
      end in
    (if z <? 0 then "-" else "") ++ mantissa ++ "e+"
    ++ (if exponent <? 10 then "0" else "") ++ PyStr.of_Z exponent.

End PyFloat.

(** [str(v)] *)
Definition py_str (v : value) : string :=
  match v with
  | VNone => "None"
  | VNaN => "nan"
  | VNaT => "NaT"
  | VBool true => "True"
  | VBool false => "False"
  | VInt z => PyStr.of_Z z
  | VFloat z => PyFloat.repr z
  | VStr s => s
  | VTime ns => Calendar.to_string ns
  end.

(** [pd.isna(v)] *)
Definition isna (v : value) : bool :=
  match v with
  | VNone | VNaN | VNaT => true
  | _ => false
  end.

(** [isinstance(v, str)] *)
Definition is_str (v : value) : bool :=
  match v with
  | VStr _ => true
  | _ => false
  end.

(* ------------------------------------------------------------------ *)
(** ** Python dictionaries: insertion-ordered, one entry per key *)

Definition pydict (A : Type) : Type := list (string * A).

Fixpoint dict_get {A} (d : pydict A) (k : string) : option A :=
  match d with
  | [] => None
  | (k', v) :: r => if String.eqb k' k then Some v else dict_get r k
  end.

(** [d[k] = v]: an existing key keeps its place. *)
Fixpoint dict_set {A} (d : pydict A) (k : string) (v : A) : pydict A :=
  match d with
  | [] => [(k, v)]
  | (k', v') :: r =>
      if String.eqb k' k then (k', v) :: r else (k', v') :: dict_set r k v
  end.

Definition dict_keys {A} (d : pydict A) : list string := map fst d.

(** A dictionary display [{k1: v1, k2: v2, ...}]. *)
Definition dict_of {A} (l : list (string * A)) : pydict A :=
  fold_left (fun d kv => dict_set d (fst kv) (snd kv)) l [].

(* ------------------------------------------------------------------ *)
(** ** Parsed JSON documents *)

#[warnings="-register-all"]
Inductive json :=
| JNull
| JBool (b : bool)
| JNum (z : Z)
| JStr (s : string)
| JArr (items : list json)
| JObj (members : list (string * json)).

(** [isinstance(x, dict)] *)
Definition is_dict (x : json) : bool :=
  match x with
  | JObj _ => true
  | _ => false
  end.

(** [repr(x)] of a value loaded by [json.load]. *)
Fixpoint json_repr (x : json) : string :=
  match x with
  | JNull => "None"
  | JBool true => "True"
  | JBool false => "False"
  | JNum z => PyStr.of_Z z
  | JStr s => PyStr.repr s
  | JArr l => "[" ++ PyStr.join ", " (map json_repr l) ++ "]"
  | JObj kvs =>
      "{" ++ PyStr.join ", "
               (map (fun kv => PyStr.repr (fst kv) ++ ": " ++ json_repr (snd kv))
                    kvs)
      ++ "}"
  end.

(** [str(x)]: text is not quoted at the top. *)
Definition json_str (x : json) : string :=
  match x with
  | JStr s => s
  | _ => json_repr x
  end.

(** The Python object a scalar leaf is stored as. *)
Definition leaf (x : json) : value :=
  match x with
  | JBool b => VBool b
  | JNum z => VInt z
  | JStr s => VStr s
  | _ => VNone
  end.

(** The inner [flatten(x, name)] of [flatten_json], with the dictionary
    [out] it writes to passed along. *)
Fixpoint flatten (sep : string) (x : json) (name : string)
         (out : pydict value) {struct x} : pydict value :=
  match x with
  | JObj kvs =>
      (fix each (kvs : list (string * json)) (out : pydict value) :=
         match kvs with
         | [] => out
         | (a, v) :: r => each r (flatten sep v (name ++ a ++ sep) out)
         end) kvs out
  | JArr l =>
      if forallb is_dict l then
        (fix each (l : list json) (idx : nat) (out : pydict value) :=
           match l with
           | [] => out
           | a :: r =>
               each r (S idx)
                    (flatten sep a (name ++ PyStr.of_nat idx ++ sep) out)
           end) l O out
      else dict_set out (PyStr.drop_last name)
                    (VStr (PyStr.join ", " (map json_str l)))
  | _ => dict_set out (PyStr.drop_last name) (leaf x)
  end.

Definition flatten_json (y : json) (parent_key sep : string) : pydict value :=
  flatten sep y parent_key [].

(** The first of [keys] that is present with a list value. *)
Fixpoint first_list_key (keys : list string) (data : pydict json)
  : option (list json) :=
  match keys with
  | [] => None
  | k :: r =>
      match dict_get data k with
      | Some (JArr l) => Some l
      | _ => first_list_key r data
      end
  end.

(** The part of [json_file_to_flat_records] after [json.load]. *)
Definition flat_records_with (try_keys : list string) (data : json)
  : list (pydict value) :=
  let data :=
    match data with
    | JObj kvs =>
        match first_list_key try_keys kvs with
        | Some l => l
        | None => [data]
        end
    | JArr l => l
    | _ => [data]
    end in
  map (fun record => flatten_json record "" "_") data.

Definition try_keys : list string :=
  ["list"; "messages"; "media"; "connections"; "string_list_data";
   "profile_changes"; "followers"; "following"; "ads"; "ads_information";
   "items"].

Definition flat_records : json -> list (pydict value) :=
  flat_records_with try_keys.

(* ------------------------------------------------------------------ *)
(** ** Tables: the pandas [DataFrame] *)

Inductive dtype := DObject | DInt | DFloat | DBool | DDatetime.

Definition dtype_eqb (a b : dtype) : bool :=
  match a, b with
  | DObject, DObject | DInt, DInt | DFloat, DFloat
  | DBool, DBool | DDatetime, DDatetime => true
  | _, _ => false
  end.

(** A column: its label, its dtype and one cell per row. *)
Record column := mk_column {
  cname : string;
  cdtype : dtype;
  cvalues : list value
}.

(** A table has [nrows] rows; every column holds [nrows] cells. *)
Record DataFrame := mk_df {
  nrows : nat;
  columns : list column
}.

(** [df.columns] *)
Definition names (df : DataFrame) : list string := map cname (columns df).

(** [df.empty] *)
Definition df_empty (df : DataFrame) : bool :=
  (nrows df =? 0)%nat
  || match columns df with
     | [] => true
     | _ => false
     end.

Definition count_name (df : DataFrame) (name : string) : nat :=
  List.length (filter (fun c => String.eqb (cname c) name) (columns df)).

(** [name in df.columns] *)
Definition has_column (df : DataFrame) (name : string) : bool :=
  existsb (fun c => String.eqb (cname c) name) (columns df).

(** [df[name]] is a [Series] only when one column carries the label; with
    several it is a [DataFrame]. *)
Definition unique_column (df : DataFrame) (name : string) : bool :=
  (count_name df name =? 1)%nat.

Definition get_column (df : DataFrame) (name : string) : option column :=
  find (fun c => String.eqb (cname c) name) (columns df).

(** Rebuilds the columns labelled [name] with [f]. *)
Definition update_column (df : DataFrame) (name : string)
           (f : column -> dtype * list value) : DataFrame :=
  mk_df (nrows df)
        (map (fun c =>
                if String.eqb (cname c) name
                then mk_column (cname c) (fst (f c)) (snd (f c))
                else c)
             (columns df)).

(** [df[name] = values]: an existing label keeps its place, a new one is
    added last. *)
Definition set_column (df : DataFrame) (name : string) (dt : dtype)
           (vs : list value) : DataFrame :=
  if has_column df name then update_column df name (fun _ => (dt, vs))
  else mk_df (nrows df) (columns df ++ [mk_column name dt vs])%list.

Definition to_float (v : value) : value :=
  match v with
  | VInt z => VFloat (PyFloat.of_int z)
  | VNone => VNaN
  | _ => v
  end.

Definition is_int (v : value) : bool :=
  match v with
  | VInt _ => true
  | _ => false
  end.

Definition is_bool (v : value) : bool :=
  match v with
  | VBool _ => true
  | _ => false
  end.

Definition is_none (v : value) : bool :=
  match v with
  | VNone => true
  | _ => false
  end.

Definition is_number_or_na (v : value) : bool :=
  match v with
  | VInt _ | VFloat _ | VNone | VNaN => true
  | _ => false
  end.

(** The dtype pandas infers for a column of Python objects, and the cells
    as it stores them: integers next to missing values become float64. *)
Definition infer_column (vs : list value) : dtype * list value :=
  match vs with
  | [] => (DObject, vs)
  | _ =>
      if forallb is_int vs then (DInt, vs)
      else if forallb is_bool vs then (DBool, vs)
      else if forallb is_number_or_na vs && negb (forallb is_none vs)
           then (DFloat, map to_float vs)
      else (DObject, vs)
  end.

(** The labels of all records, each at its first appearance. *)
Definition all_keys (records : list (pydict value)) : list string :=
  fold_left
    (fun acc record =>
       fold_left
         (fun acc k => if existsb (String.eqb k) acc then acc else (acc ++ [k])%list)
         (dict_keys record) acc)
    records [].

(** [pd.DataFrame(records)]: a key a record lacks gives [nan]. *)
Definition DataFrame_of_records (records : list (pydict value)) : DataFrame :=
  mk_df (List.length records)
        (map (fun k =>
                let raw := map (fun record =>
                                  match dict_get record k with
                                  | Some v => v
                                  | None => VNaN
                                  end) records in
                mk_column k (fst (infer_column raw)) (snd (infer_column raw)))
             (all_keys records)).

(** The cells of row [i], column by column. *)
Definition row_cells (cols : list column) (i : nat) : list value :=
  map (fun c => nth i (cvalues c) VNaN) cols.

Definition is_numeric_dtype (d : dtype) : bool :=
  match d with
  | DInt | DFloat => true
  | _ => false
  end.

(** [df.iterrows()]: each row as a [Series] labelled by the columns.  A
    row of integer and float64 columns only is a float64 [Series]. *)
Definition iterrows (df : DataFrame) : list (list (string * value)) :=
  let dts := map cdtype (columns df) in
  let as_float := forallb is_numeric_dtype dts
                  && existsb (dtype_eqb DFloat) dts in
  map (fun i =>
         map (fun c =>
                let v := nth i (cvalues c) VNaN in
                (cname c, if as_float then to_float v else v))
             (columns df))
      (seq 0 (nrows df)).

(** The number a cell compares as, if any ([True == 1 == 1.0]). *)
Definition as_number (v : value) : option Z :=
  match v with
  | VBool true => Some 1
  | VBool false => Some 0
  | VInt z | VFloat z => Some z
  | _ => None
  end.

(** Cells that count as equal when the rows of a table of several
    columns are compared for duplicates: missing values are all alike. *)
Definition same_cell (a b : value) : bool :=
  if isna a then isna b
  else match as_number a, as_number b with
       | Some x, Some y => x =? y
       | _, _ =>
           match a, b with
           | VStr s, VStr t => String.eqb s t
           | VTime x, VTime y => x =? y
           | _, _ => false
           end
       end.

Fixpoint same_row (r1 r2 : list value) : bool :=
  match r1, r2 with
  | [], [] => true
  | a :: r1', b :: r2' => same_cell a b && same_row r1' r2'
  | _, _ => false
  end.

(** In a table of one column pandas compares the cells themselves:
    [None], [nan] and [NaT] are then each equal to itself only. *)
Definition same_only_cell (a b : value) : bool :=
  match a, b with
  | VNone, VNone | VNaN, VNaN | VNaT, VNaT => true
  | _, _ => if isna a || isna b then false else same_cell a b
  end.

Definition same_only_row (r1 r2 : list value) : bool :=
  match r1, r2 with
  | [a], [b] => same_only_cell a b
  | _, _ => false
  end.

(** For each row, whether it is the first of its kind under [same]. *)
Fixpoint first_occurrences (same : list value -> list value -> bool)
         (seen rows : list (list value)) : list bool :=
  match rows with
  | [] => []
  | r :: rest =>
      if existsb (same r) seen
      then false :: first_occurrences same seen rest
      else true :: first_occurrences same (seen ++ [r])%list rest
  end.

Fixpoint keep (mask : list bool) {A} (l : list A) : list A :=
  match mask, l with
  | true :: m, x :: r => x :: keep m r
  | false :: m, _ :: r => keep m r
  | _, _ => []
  end.

(** [df.drop_duplicates()] *)
Definition drop_duplicates (df : DataFrame) : DataFrame :=
  if df_empty df then df
  else
    let rows := map (row_cells (columns df)) (seq 0 (nrows df)) in
    let same := match columns df with
                | [_] => same_only_row
                | _ => same_row
                end in
    let mask := first_occurrences same [] rows in
    mk_df (List.length (filter (fun b => b) mask))
          (map (fun c => mk_column (cname c) (cdtype c) (keep mask (cvalues c)))
               (columns df)).

(** [df.dropna(axis=1, how='all')] *)
Definition dropna_columns (df : DataFrame) : DataFrame :=
  mk_df (nrows df)
        (filter (fun c => negb (forallb isna (cvalues c))) (columns df)).

Definition fill_empty (v : value) : value :=
  if isna v then VStr "" else v.

(** [df.fillna('')]: a column that had a missing value now holds text and
    is an object column. *)
Definition fillna (df : DataFrame) : DataFrame :=
  mk_df (nrows df)
        (map (fun c =>
                mk_column (cname c)
                          (if existsb isna (cvalues c) then DObject
                           else cdtype c)
                          (map fill_empty (cvalues c)))
             (columns df)).

(** [df.columns = [f(c) for c in df.columns]] *)
Definition rename_columns (f : string -> string) (df : DataFrame) : DataFrame :=
  mk_df (nrows df)
        (map (fun c => mk_column (f (cname c)) (cdtype c) (cvalues c))
             (columns df)).

(** [df.select_dtypes(include=['object']).columns] *)
Definition object_columns (df : DataFrame) : list string :=
  map cname (filter (fun c => dtype_eqb (cdtype c) DObject) (columns df)).

(* ------------------------------------------------------------------ *)
(** ** Exceptions and results *)

Inductive exn :=
| KeyError (what : string)
| AttributeError (what : string)
| TypeError (what : string)
| OSError (what : string)
| JSONDecodeError (what : string).

Inductive result (A : Type) :=
| Ok (a : A)
| Raise (e : exn).

Arguments Ok {A} a.
Arguments Raise {A} e.

Definition bind {A B} (r : result A) (k : A -> result B) : result B :=
  match r with
  | Ok a => k a
  | Raise e => Raise e
  end.

Notation "x <- r ;; k" := (bind r (fun x => k))
  (at level 61, r at next level, right associativity).

(** A loop whose body may raise. *)
Fixpoint for_each {A S} (l : list A) (body : S -> A -> result S) (s : S)
  : result S :=
  match l with
  | [] => Ok s
  | a :: r => s' <- body s a ;; for_each r body s'
  end.

(* ------------------------------------------------------------------ *)
(** ** The pandas parsers

    What [pd.to_datetime] and [pd.to_numeric] make of a column is pandas'
    business; the development is parameterised by it.  [None] stands for
    a call that raises. *)

Class Pandas := {
  (** [pd.to_datetime(s, errors='coerce', utc=True)]: UTC instants in
      nanoseconds, [None] for [NaT]. *)
  to_datetime_utc : dtype -> list value -> option (list (option Z));
  (** [pd.to_datetime(s, errors='ignore')] *)
  to_datetime_ignore : dtype -> list value -> option (dtype * list value);
  (** [pd.to_numeric(s, errors='coerce').fillna(0).astype(int)] *)
  to_numeric_int : dtype -> list value -> option (list Z)
}.

(* ------------------------------------------------------------------ *)
(** ** [preprocess.py] *)

(** The configuration constants at the top of the file. *)
Record Config := mk_config {
  REMOVE_EMOJIS : bool;
  GENERATE_UNIQUE_IDS : bool;
  DATE_FEATURES_EXTRACTION : bool
}.

Definition config : Config := mk_config false true true.

(** No emoji range of the pattern reaches below code point 256, so on the
    text modelled here only the control characters go. *)
Fixpoint remove_controls (s : string) : string :=
  match s with
  | EmptyString => EmptyString
  | String c r =>
      if (PyStr.code c <=? 31) || (PyStr.code c =? 127) then remove_controls r
      else String c (remove_controls r)
  end.

Definition remove_emojis_and_specials (text : value) : value :=
  match text with
  | VStr s => VStr (PyStr.strip (remove_controls s))
  | _ => text
  end.

(** [c.strip().replace(' ', '_').replace('.', '_').replace('-', '_').lower()] *)
Definition clean_name (c : string) : string :=
  PyStr.lower
    (PyStr.replace "-" "_"
       (PyStr.replace "." "_" (PyStr.replace " " "_" (PyStr.strip c)))).

Definition date_keywords : list string := ["date"; "time"; "timestamp"].

Definition metric_keywords : list string :=
  ["count"; "likes"; "comments"; "engagement"; "views"; "followers";
   "following"].

(** [any(k in col for k in keywords)] *)
Definition has_keyword (keywords : list string) (col : string) : bool :=
  existsb (fun k => PyStr.contains k col) keywords.

(** [media_map] *)
Definition media_map (v : value) : option string :=
  match v with
  | VInt 1 | VFloat 1 => Some "photo"
  | VInt 2 | VFloat 2 => Some "video"
  | VInt 8 | VFloat 8 => Some "carousel"
  | _ => None
  end.

(** [s.dt.year] and the like: float64 as soon as one instant is [NaT]. *)
Definition date_part (f : Z -> Z) (vs : list value) : dtype * list value :=
  if existsb isna vs
  then (DFloat, map (fun v => match v with
                              | VTime ns => VFloat (f ns)
                              | _ => VNaN
                              end) vs)
  else (DInt, map (fun v => match v with
                            | VTime ns => VInt (f ns)
                            | _ => VNaN
                            end) vs).

Section Preprocess.

Context {pandas : Pandas}.
Variable cfg : Config.

(** [df[c] = df[c].apply(remove_emojis_and_specials)] *)
Definition strip_emojis (df : DataFrame) (c : string) : DataFrame :=
  if unique_column df c
  then update_column df c
         (fun s => (DObject, map remove_emojis_and_specials (cvalues s)))
  else df.

(** The body of the date loop; a call that raises leaves the column as it
    is, and so does a label that several columns carry, since
    [pd.to_datetime] refuses the [DataFrame] it is then given. *)
Definition parse_date (df : DataFrame) (col : string) : DataFrame :=
  if unique_column df col then
    match get_column df col with
    | Some s =>
        match to_datetime_utc (cdtype s) (cvalues s) with
        | Some ts =>
            update_column df col
              (fun _ => (DDatetime,
                         map (fun t => match t with
                                       | Some ns => VTime ns
                                       | None => VNaT
                                       end) ts))
        | None => df
        end
    | None => df
    end
  else df.

Definition set_date_part (col suffix : string) (f : Z -> Z)
           (vs : list value) (df : DataFrame) : DataFrame :=
  set_column df (col ++ suffix) (fst (date_part f vs)) (snd (date_part f vs)).

(** The body of the date-feature loop. *)
Definition date_features (df : DataFrame) (col : string) : DataFrame :=
  if unique_column df col then
    match get_column df col with
    | Some s =>
        if dtype_eqb (cdtype s) DDatetime then
          let vs := cvalues s in
          set_date_part col "_hour" Calendar.hour vs
            (set_date_part col "_weekday" Calendar.weekday vs
               (set_date_part col "_day" Calendar.day vs
                  (set_date_part col "_month" Calendar.month vs
                     (set_date_part col "_year" Calendar.year vs df))))
        else df
    | None => df
    end
  else df.

(** The body of the metric loop; on an exception the loop goes on. *)
Definition coerce_metric (df : DataFrame) (col : string) : DataFrame :=
  if unique_column df col then
    match get_column df col with
    | Some s =>
        match to_numeric_int (cdtype s) (cvalues s) with
        | Some zs => update_column df col (fun _ => (DInt, map VInt zs))
        | None => df
        end
    | None => df
    end
  else df.

(** [df['media_type'].map(media_map).fillna(df['media_type'])]: a column
    in which no code is known comes back as it was, dtype and cells. *)
Definition map_media_type (s : column) : dtype * list value :=
  let vs := cvalues s in
  if existsb (fun v => match media_map v with
                       | Some _ => true
                       | None => false
                       end) vs
  then (DObject, map (fun v => match media_map v with
                               | Some label => VStr label
                               | None => v
                               end) vs)
  else (cdtype s, vs).

(** With several columns labelled [media_type], [df['media_type']] is a
    [DataFrame], whose [map] refuses the dictionary with a [TypeError]. *)
Definition remap_media_type (df : DataFrame) : result DataFrame :=
  if has_column df "media_type" then
    if unique_column df "media_type"
    then Ok (update_column df "media_type" map_media_type)
    else Raise (TypeError "map")
  else Ok df.

(** [df[col] = df[col].astype(str).str.strip()] *)
Definition strip_column (df : DataFrame) (col : string) : result DataFrame :=
  if unique_column df col
  then Ok (update_column df col
             (fun s => (DObject,
                        map (fun v => VStr (PyStr.strip (py_str v)))
                            (cvalues s))))
  else Raise (AttributeError "str").

Definition clean_and_standardize (df : DataFrame) : result DataFrame :=
  let df := drop_duplicates df in
  let df := dropna_columns df in
  let df := fillna df in
  let df := rename_columns clean_name df in
  let df := if REMOVE_EMOJIS cfg
            then fold_left strip_emojis (object_columns df) df
            else df in
  let date_cols := filter (has_keyword date_keywords) (names df) in
  let df := fold_left parse_date date_cols df in
  let df := if DATE_FEATURES_EXTRACTION cfg
            then fold_left date_features date_cols df
            else df in
  let metric_like_cols := filter (has_keyword metric_keywords) (names df) in
  let df := fold_left coerce_metric metric_like_cols df in
  df <- remap_media_type df ;;
  for_each (object_columns df) strip_column df.

(** [create_unique_id(row, keys)]: [row] is a [Series], its labels paired
    with its values. *)
Definition create_unique_id (row : list (string * value)) (keys : list string)
  : string :=
  let key_str :=
    match keys with
    | [] => PyStr.join "||" (map (fun lv => py_str (snd lv)) row)
    | _ =>
        PyStr.join "||"
          (flat_map (fun k => match dict_get row k with
                              | Some v => if isna v then [] else [py_str v]
                              | None => []
                              end) keys)
    end in
  MD5.hexdigest key_str.

(** One link-table row. *)
Definition link_record (key_name col : string) (main_id : value)
           (item : string) (i : nat) : pydict value :=
  dict_of [(key_name, main_id); (col ++ "_item", VStr item);
           ("index", VInt (Z.of_nat i))].

(** [for i, item in enumerate(items): if item: records.append(...)] *)
Fixpoint item_records (key_name col : string) (main_id : value)
         (items : list string) (i : nat) : list (pydict value) :=
  match items with
  | [] => []
  | item :: r =>
      match item with
      | EmptyString => item_records key_name col main_id r (S i)
      | _ => link_record key_name col main_id item i
             :: item_records key_name col main_id r (S i)
      end
  end.

(** The records one row of [df[[key_name, col]].dropna()] adds. *)
Definition row_records (key_name col : string) (kv : value * value)
  : list (pydict value) :=
  let '(main_id, v) := kv in
  if isna main_id || isna v then []
  else match v with
       | VStr s =>
           item_records key_name col main_id
                        (map PyStr.strip (PyStr.split "," s)) O
       | _ => []
       end.

Definition is_int_or_float (v : value) : bool :=
  match v with
  | VInt _ | VFloat _ => true
  | _ => false
  end.

Definition is_time (v : value) : bool :=
  match v with
  | VTime _ => true
  | _ => false
  end.

(** Whether [.str] accepts an object column: not when its values, the
    missing ones apart, are all numbers, all booleans or all instants. *)
Definition str_accessor_ok (vs : list value) : bool :=
  match filter (fun v => negb (isna v)) vs with
  | [] => true
  | xs => negb (forallb is_int_or_float xs || forallb is_bool xs
                || forallb is_time xs)
  end.

(** [s.str.contains(',')] on one cell. *)
Definition has_comma (v : value) : bool :=
  match v with
  | VStr s => PyStr.contains "," s
  | _ => false
  end.

(** [lambda s: '' if isinstance(s, str) else s] *)
Definition clear_text (v : value) : value :=
  match v with
  | VStr _ => VStr ""
  | _ => v
  end.

Definition table_name (original_prefix col : string) : string :=
  original_prefix ++ "_" ++ col ++ "_table".

(** [df[col]] read as a [Series]. *)
Definition series (df : DataFrame) (col : string) : result column :=
  match get_column df col with
  | None => Raise (KeyError col)
  | Some s => if unique_column df col then Ok s
              else Raise (AttributeError col)
  end.

(** [records] for one column.  [df[[key_name, col]]] raises [KeyError]
    when no column is labelled [key_name]; when several are, the key of a
    row is a [Series] and the loop ends in the [AttributeError] of
    reaching that label, raised here at once.  With [key_name] itself as
    the column, [val[col]] is a two-element [Series], never text, and no
    record is made. *)
Definition column_records (df : DataFrame) (key_name col : string)
           (s : column) : result (list (pydict value)) :=
  k <- series df key_name ;;
  Ok (if String.eqb key_name col then []
      else flat_map (row_records key_name col)
                    (combine (cvalues k) (cvalues s))).

(** The body of the loop over [df.columns]: the table and the link tables
    after it. *)
Definition extract_column (original_prefix key_name : string)
           (st : DataFrame * pydict DataFrame) (col : string)
  : result (DataFrame * pydict DataFrame) :=
  let '(df, tables) := st in
  s <- series df col ;;
  if dtype_eqb (cdtype s) DObject then
    if negb (str_accessor_ok (cvalues s)) then Raise (AttributeError "str")
    else if existsb has_comma (cvalues s) then
      records <- column_records df key_name col s ;;
      match records with
      | [] => Ok (df, tables)
      | _ =>
          Ok (update_column df col
                (fun c => (DObject, map clear_text (cvalues c))),
              dict_set tables (table_name original_prefix col)
                       (DataFrame_of_records records))
      end
    else Ok (df, tables)
  else Ok (df, tables).

(** The loop; [df] is changed in place, so the caller sees the table as
    the last completed iteration left it even when a later one raises. *)
Fixpoint extract_loop (original_prefix key_name : string) (cols : list string)
         (df : DataFrame) (tables : pydict DataFrame)
  : DataFrame * result (pydict DataFrame) :=
  match cols with
  | [] => (df, Ok tables)
  | col :: rest =>
      match extract_column original_prefix key_name (df, tables) col with
      | Ok (df', tables') =>
          extract_loop original_prefix key_name rest df' tables'
      | Raise e => (df, Raise e)
      end
  end.

Definition extract_one_to_many_tables (df : DataFrame)
           (original_prefix key_name : string)
  : DataFrame * result (pydict DataFrame) :=
  extract_loop original_prefix key_name (names df) df [].

(** [os.path.splitext(filename)[0]] for a name without directory part: the
    text before the last dot, unless only dots come before it. *)
Fixpoint before_last_dot (s : string) : option string :=
  match s with
  | EmptyString => None
  | String c r =>
      match before_last_dot r with
      | Some root => Some (String c root)
      | None => if Ascii.eqb c "." then Some EmptyString else None
      end
  end.

Fixpoint only_dots (s : string) : bool :=
  match s with
  | EmptyString => true
  | String c r => Ascii.eqb c "." && only_dots r
  end.

Definition splitext_root (filename : string) : string :=
  match before_last_dot filename with
  | Some root => if only_dots root then filename else root
  | None => filename
  end.

(** What the [try] block makes of the records of one file. *)
Inductive file_outcome :=
| Empty
| Tables (main : DataFrame) (aux_tables : pydict DataFrame)
| Failed (e : exn).

(** The table [clean_and_standardize] is given, and [id_cols]. *)
Definition assign_ids (df : DataFrame) : DataFrame * list string :=
  let id_cols := filter (PyStr.endswith "_id") (names df) in
  match id_cols with
  | [] =>
      if GENERATE_UNIQUE_IDS cfg
      then (set_column df "unique_id" DObject
                       (map (fun row => VStr (create_unique_id row []))
                            (iterrows df)),
            ["unique_id"])
      else (df, id_cols)
  | _ => (df, id_cols)
  end.

(** The [try] block of [process_all_jsons] from the records on, up to the
    tables it is about to save. *)
Definition process_records (filename : string) (records : list (pydict value))
  : file_outcome :=
  match records with
  | [] => Empty
  | _ =>
      let df := DataFrame_of_records records in
      if df_empty df then Empty
      else
        let '(df, id_cols) := assign_ids df in
        match clean_and_standardize df with
        | Raise e => Failed e
        | Ok df =>
            match id_cols with
            | [] => Tables df []
            | key_col :: _ =>
                match extract_one_to_many_tables
                        df (splitext_root filename) key_col with
                | (df', Ok aux_tables) => Tables df' aux_tables
                | (_, Raise e) => Failed e
                end
            end
        end
  end.

End Preprocess.

(* ------------------------------------------------------------------ *)
(** ** [process_all_jsons] of [preprocess.py] *)

(** The run summary. *)
Record Summary := mk_summary {
  processed_files : list string;
  errors : list (string * exn);
  empty_files : list string;
  tables_created : list string
}.

(** The summary and the writes made so far: every [to_csv] call that
    returned, in order, with its path and its table. *)
Record RunState := mk_run {
  summary : Summary;
  written : list (string * DataFrame)
}.

Definition initial : RunState := mk_run (mk_summary [] [] [] []) [].

(** The operating system, as the run meets it.  What a call answers may
    depend on what the run has done so far; [Some e] is a call raising. *)
Record Env := mk_env {
  (** [os.walk(input_root)]: each folder with its files *)
  walk : string -> list (string * list string);
  path_join : string -> string -> string;
  relpath : string -> string -> string;
  (** [os.makedirs(path, exist_ok=True)] *)
  makedirs : RunState -> string -> option exn;
  (** [open] and [json.load] *)
  load_json : RunState -> string -> result json;
  (** [df.to_csv(path, index=False)] *)
  to_csv : RunState -> string -> DataFrame -> option exn
}.

Definition add_processed (st : RunState) (path : string) (df : DataFrame)
  : RunState :=
  let s := summary st in
  mk_run (mk_summary (processed_files s ++ [path]) (errors s)
                     (empty_files s) (tables_created s))
         (written st ++ [(path, df)]).

Definition add_table (st : RunState) (path : string) (df : DataFrame)
  : RunState :=
  let s := summary st in
  mk_run (mk_summary (processed_files s) (errors s) (empty_files s)
                     (tables_created s ++ [path]))
         (written st ++ [(path, df)]).

Definition add_empty (st : RunState) (path : string) : RunState :=
  let s := summary st in
  mk_run (mk_summary (processed_files s) (errors s)
                     (empty_files s ++ [path]) (tables_created s))
         (written st).

Definition add_error (st : RunState) (path : string) (e : exn) : RunState :=
  let s := summary st in
  mk_run (mk_summary (processed_files s) (errors s ++ [(path, e)])
                     (empty_files s) (tables_created s))
         (written st).

(** The files these writes have left, each under its path: a later
    write under a path replaces the file an earlier one left there. *)
Definition written_files (st : RunState) : pydict DataFrame :=
  dict_of (written st).

(** [filename.lower().endswith('.json')] *)
Definition is_json (filename : string) : bool :=
  PyStr.endswith ".json" (PyStr.lower filename).

Section Run.

Context {pandas : Pandas}.
Variable cfg : Config.
Variable env : Env.

(** The loop that saves the auxiliary tables: the state it reached and
    the exception that ended it, if any. *)
Fixpoint save_tables (out_dir : string) (aux : pydict DataFrame)
         (st : RunState) : RunState * option exn :=
  match aux with
  | [] => (st, None)
  | (tbl_name, tbl_df) :: rest =>
      let aux_path := path_join env out_dir (tbl_name ++ ".csv") in
      match to_csv env st aux_path tbl_df with
      | Some e => (st, Some e)
      | None => save_tables out_dir rest (add_table st aux_path tbl_df)
      end
  end.

(** [json_file_to_flat_records(json_path)]: reading or parsing may raise. *)
Definition json_file_to_flat_records (st : RunState) (json_path : string)
  : result (list (pydict value)) :=
  data <- load_json env st json_path ;;
  Ok (flat_records data).

(** The [try] block for one file. *)
Definition try_file (st : RunState) (json_path out_dir csv_out filename : string)
  : RunState * option exn :=
  match json_file_to_flat_records st json_path with
  | Raise e => (st, Some e)
  | Ok records =>
      match process_records cfg filename records with
      | Empty => (add_empty st json_path, None)
      | Failed e => (st, Some e)
      | Tables df aux_tables =>
          match to_csv env st csv_out df with
          | Some e => (st, Some e)
          | None => save_tables out_dir aux_tables (add_processed st csv_out df)
          end
      end
  end.

(** One turn of the inner loop: [Raise] is an exception that no handler
    catches. *)
Definition process_file (input_root output_root : string) (st : RunState)
           (file : string * string) : result RunState :=
  let '(folder, filename) := file in
  if negb (is_json filename) then Ok st
  else
    let json_path := path_join env folder filename in
    let rel_folder := relpath env folder input_root in
    let out_dir := path_join env output_root rel_folder in
    match makedirs env st out_dir with
    | Some e => Raise e
    | None =>
        let csv_out_base := PyStr.replace ".json" "_cleaned.csv" filename in
        let csv_out := path_join env out_dir csv_out_base in
        match try_file st json_path out_dir csv_out filename with
        | (st', None) => Ok st'
        | (st', Some e) => Ok (add_error st' json_path e)
        end
    end.

(** The files in the order the two loops visit them. *)
Definition walk_files (input_root : string) : list (string * string) :=
  flat_map (fun ff => map (fun filename => (fst ff, filename)) (snd ff))
           (walk env input_root).

(** The counts the summary report prints. *)
Definition report (s : Summary) : nat * nat * nat * nat :=
  (List.length (processed_files s), List.length (tables_created s),
   List.length (empty_files s), List.length (errors s)).

(** The run: the state at the end and the report, or the exception that
    ended it. *)
Definition process_all_jsons (input_root output_root : string)
  : result (RunState * (nat * nat * nat * nat)) :=
  st <- for_each (walk_files input_root)
                 (process_file input_root output_root) initial ;;
  Ok (st, report (summary st)).

End Run.

(* ------------------------------------------------------------------ *)
(** ** [preprocess11.py] *)

Module Preprocess11.

Definition try_keys : list string :=
  ["list"; "messages"; "media"; "connections"; "string_list_data";
   "profile_changes"; "followers"; "following"].

Definition flat_records : json -> list (pydict value) :=
  flat_records_with try_keys.

(** [c.strip().replace(' ', '_').replace('.', '_').replace('-', '_')] *)
Definition clean_name (c : string) : string :=
  PyStr.replace "-" "_"
    (PyStr.replace "." "_" (PyStr.replace " " "_" (PyStr.strip c))).

Section Clean.

Context {pandas : Pandas}.

(** The body of the date loop. *)
Definition parse_date (df : DataFrame) (col : string) : DataFrame :=
  if has_keyword date_keywords (PyStr.lower col) then
    if unique_column df col then
      match get_column df col with
      | Some s =>
          match to_datetime_ignore (cdtype s) (cvalues s) with
          | Some parsed => update_column df col (fun _ => parsed)
          | None => df
          end
      | None => df
      end
    else df
  else df.

Definition clean_and_standardize (df : DataFrame) : DataFrame :=
  let df := drop_duplicates df in
  let df := dropna_columns df in
  let df := fillna df in
  let df := fold_left parse_date (names df) df in
  rename_columns clean_name df.

End Clean.

End Preprocess11.

(* ------------------------------------------------------------------ *)
(** ** A pandas to run the examples with

    Exact on the cells the examples hold.  Numbers are integers,
    booleans, instants, and text that holds, between blanks, a decimal
    number with an optional sign and fraction, of which [astype(int)]
    keeps the integral part; integers are instants.  Any other cell
    counts as unparseable. *)

Fixpoint digits_value (s : string) (acc : Z) : option Z :=
  match s with
  | EmptyString => Some acc
  | String c r =>
      let n := PyStr.code c in
      if (48 <=? n) && (n <=? 57) then digits_value r (10 * acc + (n - 48))
      else None
  end.

(** The digits before the first dot, and what follows the dot. *)
Fixpoint at_dot (s : string) : string * option string :=
  match s with
  | EmptyString => (EmptyString, None)
  | String c r =>
      if Ascii.eqb c "." then (EmptyString, Some r)
      else (String c (fst (at_dot r)), snd (at_dot r))
  end.

(** The integral part of unsigned decimal digits with an optional
    fraction; one of the two parts may be empty. *)
Definition unsigned_value (s : string) : option Z :=
  match at_dot s with
  | (EmptyString, None) | (EmptyString, Some EmptyString) => None
  | (whole, None) => digits_value whole 0
  | (whole, Some fraction) =>
      match digits_value fraction 0 with
      | Some _ => digits_value whole 0
      | None => None
      end
  end.

(** White space as the number parser skips it. *)
Definition is_blank (c : ascii) : bool :=
  let n := PyStr.code c in
  ((9 <=? n) && (n <=? 13)) || (n =? 32).

Fixpoint skip_blanks (s : string) : string :=
  match s with
  | EmptyString => EmptyString
  | String c r => if is_blank c then skip_blanks r else s
  end.

Definition decimal_value (s : string) : option Z :=
  let s := PyStr.rev (skip_blanks (PyStr.rev (skip_blanks s))) in
  match s with
  | EmptyString => None
  | String "-" r => option_map Z.opp (unsigned_value r)
  | String "+" r => unsigned_value r
  | _ => unsigned_value s
  end.

Definition number_of (v : value) : Z :=
  match v with
  | VInt z | VFloat z | VTime z => z
  | VBool true => 1
  | VStr s => match decimal_value s with
              | Some z => z
              | None => 0
              end
  | _ => 0
  end.

Definition instant_of (v : value) : option Z :=
  match v with
  | VInt z | VTime z => Some z
  | _ => None
  end.

#[export] Instance example_pandas : Pandas := {
  to_datetime_utc := fun _ vs => Some (map instant_of vs);
  to_datetime_ignore := fun d vs => Some (d, vs);
  to_numeric_int := fun _ vs => Some (map number_of vs)
}.

(* ------------------------------------------------------------------ *)
(** ** Inputs used in the statements *)

(** [isinstance(x, (dict, list))] does not hold. *)
Definition is_scalar (x : json) : bool :=
  match x with
  | JArr _ | JObj _ => false
  | _ => true
  end.

(** The document that holds [x] under the keys of [path], one object
    inside the other. *)
Definition nest (path : list string) (x : json) : json :=
  fold_right (fun a v => JObj [(a, v)]) x path.

(** The content of [posts.json] in the first end-to-end scenario. *)
Definition posts_json : json :=
  JObj [("media", JArr [JObj [("id", JNum 1); ("likes_count", JStr "12");
                              ("hashtags", JStr "sun, beach")]])].

(** The cleared form of a column whose lists were split out. *)
Definition cleared (c : column) : column :=
  mk_column (cname c) DObject (map clear_text (cvalues c)).

(** How the extraction may leave a column [c0] of the table it is given:
    as it was, or cleared when it is one of the columns [done], is not
    the key column, and is an object column with a comma in a value. *)
Definition kept_or_cleared (key_name : string) (done : list string)
           (c0 c : column) : Prop :=
  c = c0
  \/ (In (cname c0) done /\ cname c0 <> key_name /\ cdtype c0 = DObject
      /\ existsb has_comma (cvalues c0) = true /\ c = cleared c0).




(** The identifier the pipeline generates for the row of [posts.json]. *)
Definition posts_unique_id : string := "48da9d58026bc74e999653f2124e1213".

(** The main table the scenario ends with. *)
Definition posts_main : DataFrame :=
  mk_df 1 [mk_column "id" DInt [VInt 1];
           mk_column "likes_count" DInt [VInt 12];
           mk_column "hashtags" DObject [VStr ""];
           mk_column "unique_id" DObject [VStr posts_unique_id]].

(** Its only link table. *)
Definition posts_hashtags_table : DataFrame :=
  mk_df 2 [mk_column "unique_id" DObject
                     [VStr posts_unique_id; VStr posts_unique_id];
           mk_column "hashtags_item" DObject [VStr "sun"; VStr "beach"];
           mk_column "index" DInt [VInt 0; VInt 1]].

(** A table with an identifier column and a column of joined lists. *)
Definition tagged_posts : DataFrame :=
  mk_df 2 [mk_column "post_id" DInt [VInt 7; VInt 8];
           mk_column "tags" DObject [VStr "x"; VStr "a, b, c"];
           mk_column "note" DObject [VStr ""; VStr "hi"]].

(** Two rows that differ in both values. *)
Definition row_left : list (string * value) :=
  [("x", VStr "a||"); ("y", VStr "b")].

Definition row_right : list (string * value) :=
  [("x", VStr "a"); ("y", VStr "||b")].

(** The records of a file whose only element has a null field. *)
Definition null_field_records : list (pydict value) :=
  flat_records (JArr [JObj [("a", JNull); ("b", JStr "x")]]).

(** The [str] of the cells of a row, joined as [create_unique_id] joins
    them. *)
Definition key_str (row : list (string * value)) : string :=
  PyStr.join "||" (map (fun lv => py_str (snd lv)) row).

(** The table [clean_and_standardize] is given when no column is an
    identifier: the table built from the records, and last the column of
    the hashes of its rows. *)
Definition with_unique_ids (df : DataFrame) : DataFrame :=
  mk_df (nrows df)
        (columns df
         ++ [mk_column "unique_id" DObject
                       (map (fun row => VStr (MD5.hexdigest (key_str row)))
                            (iterrows df))])%list.

(** A table whose column label and text the two files clean differently. *)
Definition padded_names : DataFrame :=
  mk_df 1 [mk_column "Name" DObject [VStr " x "]].

(** A table on which the two files agree. *)
Definition plain_table : DataFrame :=
  mk_df 2 [mk_column "name" DObject [VStr "x"; VNaN];
           mk_column "n" DInt [VInt 1; VInt 2]].

(** An operating system with one JSON file whose output directory cannot
    be created. *)
Definition read_only_output : Env :=
  mk_env (fun _ => [("in", ["a.json"])])
         (fun a b => a ++ "/" ++ b)
         (fun folder _ => folder)
         (fun _ _ => Some (OSError "Permission denied"))
         (fun _ _ => Ok (JArr []))
         (fun _ _ _ => None).

(** An operating system with a malformed file between two readable ones;
    everything else works. *)
Definition one_bad_file : Env :=
  mk_env (fun _ => [("in", ["a.json"; "bad.json"; "notes.txt"; "c.json"])])
         (fun a b => a ++ "/" ++ b)
         (fun folder _ => folder)
         (fun _ _ => None)
         (fun _ path =>
            if String.eqb path "in/bad.json"
            then Raise (JSONDecodeError "Expecting value")
            else Ok posts_json)
         (fun _ _ _ => None).

(** A label both files leave alike and neither takes for a date, a metric
    or the media type. *)
Definition plain_label (n : string) : Prop :=
  clean_name n = Preprocess11.clean_name n
  /\ has_keyword date_keywords (clean_name n) = false
  /\ has_keyword date_keywords (PyStr.lower n) = false
  /\ has_keyword metric_keywords (clean_name n) = false
  /\ clean_name n <> "media_type".

(** Text without surrounding white space. *)
Definition trimmed_text (v : value) : Prop :=
  exists s, v = VStr s /\ PyStr.strip s = s.

(** A column on which the steps only [preprocess.py] has do nothing: a
    plain label; in an object column trimmed text or missing values; in
    any other column no missing value. *)
Definition plain_column (c : column) : Prop :=
  plain_label (cname c)
  /\ match cdtype c with
     | DObject => forall v, In v (cvalues c) -> isna v = true \/ trimmed_text v
     | _ => forall v, In v (cvalues c) -> isna v = false
     end.

(** The three steps with which both files start. *)
Definition shared_steps (df : DataFrame) : DataFrame :=
  fillna (dropna_columns (drop_duplicates df)).

(** Whether every character of [s] passes [p]. *)
Fixpoint all_chars (p : ascii -> bool) (s : string) : bool :=
  match s with
  | EmptyString => true
  | String c r => p c && all_chars p r
  end.

(** The characters of a hexadecimal digest. *)
Definition hex_char (c : ascii) : bool :=
  let n := PyStr.code c in
  ((48 <=? n) && (n <=? 57)) || ((97 <=? n) && (n <=? 102)).

(** A cell that is the identifier generated for a row of [raw]: the
    digest of all the cells of that row. *)
Definition digest_cell (raw : DataFrame) (v : value) : Prop :=
  exists row, In row (iterrows raw)
              /\ v = VStr (MD5.hexdigest (key_str row)).

(** A column that holds generated identifiers of [raw], as text. *)
Definition digest_column (raw : DataFrame) (c : column) : Prop :=
  cdtype c = DObject /\ forall v, In v (cvalues c) -> digest_cell raw v.

(** A table in which some column labelled [unique_id] does. *)
Definition carries_ids (raw df : DataFrame) : Prop :=
  exists c, In c (columns df) /\ cname c = "unique_id"
            /\ digest_column raw c.

(* ------------------------------------------------------------------ *)
(** ** Further notions for the properties of the code *)

(** The loop of [flatten] over a list of objects, from position [idx] on. *)
Fixpoint flatten_each (sep name : string) (l : list json) (idx : nat)
         (out : pydict value) : pydict value :=
  match l with
  | [] => out
  | a :: r =>
      flatten_each sep name r (S idx)
                   (flatten sep a (name ++ PyStr.of_nat idx ++ sep) out)
  end.

(** Whether flattening [x] writes anything: it holds a scalar, or a list
    that is joined into text. *)
Fixpoint has_leaf (x : json) : bool :=
  match x with
  | JObj kvs => existsb (fun kv => has_leaf (snd kv)) kvs
  | JArr l => if forallb is_dict l then existsb has_leaf l else true
  | _ => true
  end.

(** A dictionary with [p] put before every key. *)
Definition prefix_keys {A} (p : string) (d : pydict A) : pydict A :=
  map (fun kv => (p ++ fst kv, snd kv)) d.

(** [s] with every character replaced by its image under [f]. *)
Fixpoint map_chars (f : ascii -> ascii) (s : string) : string :=
  match s with
  | EmptyString => EmptyString
  | String c r => String (f c) (map_chars f r)
  end.

(** The characters [re.sub(r'[\x00-\x1F\x7F]', '', ...)] removes. *)
Definition is_control (c : ascii) : bool :=
  (PyStr.code c <=? 31) || (PyStr.code c =? 127).

(** The characters a cleaned label never has: the three separators that
    become underscores, and capital letters. *)
Definition label_char (c : ascii) : bool :=
  negb (Ascii.eqb c " ") && negb (Ascii.eqb c ".") && negb (Ascii.eqb c "-")
  && Ascii.eqb (PyStr.lower_char c) c.

(** The keys only [preprocess.py] tries. *)
Definition later_keys : list string := ["ads"; "ads_information"; "items"].

(** A key under which the document holds no list. *)
Definition no_list_under (data : pydict json) (k : string) : Prop :=
  forall l, dict_get data k <> Some (JArr l).

(** A key the row lacks, or under which it holds a missing value. *)
Definition absent_or_missing (row : list (string * value)) (k : string) : Prop :=
  match dict_get row k with
  | Some v => isna v = true
  | None => True
  end.

(* ------------------------------------------------------------------ *)
(** ** [process_all_jsons] of [preprocess11.py]

    The file keeps no summary; the run state holds the writes made
    and, in place of the summary, what is printed: the paths after
    ["Processed:"], ["Skipped empty:"] and ["Error processing"]. *)

Module Preprocess11Run.

Section Run.

Context {pandas : Pandas}.
Variable env : Env.

(** The [try] block for one file. *)
Definition try_file (st : RunState) (json_path csv_out : string)
  : RunState * option exn :=
  match load_json env st json_path with
  | Raise e => (st, Some e)
  | Ok data =>
      match Preprocess11.flat_records data with
      | [] => (add_empty st json_path, None)
      | records =>
          let df := Preprocess11.clean_and_standardize
                      (DataFrame_of_records records) in
          match to_csv env st csv_out df with
          | Some e => (st, Some e)
          | None => (add_processed st csv_out df, None)
          end
      end
  end.

Definition process_file (input_root output_root : string) (st : RunState)
           (file : string * string) : result RunState :=
  let '(folder, filename) := file in
  if negb (is_json filename) then Ok st
  else
    let json_path := path_join env folder filename in
    let rel_folder := relpath env folder input_root in
    let out_dir := path_join env output_root rel_folder in
    match makedirs env st out_dir with
    | Some e => Raise e
    | None =>
        let csv_out :=
          path_join env out_dir
                    (PyStr.replace ".json" "_cleaned.csv" filename) in
        match try_file st json_path csv_out with
        | (st', None) => Ok st'
        | (st', Some e) => Ok (add_error st' json_path e)
        end
    end.

Definition process_all_jsons (input_root output_root : string)
  : result RunState :=
  for_each (walk_files env input_root)
           (process_file input_root output_root) initial.

End Run.

End Preprocess11Run.

(** An operating system with one file, a list of two empty objects. *)
Definition valueless_file : Env :=
  mk_env (fun _ => [("in", ["a.json"])])
         (fun a b => a ++ "/" ++ b)
         (fun folder _ => folder)
         (fun _ _ => None)
         (fun _ _ => Ok (JArr [JObj []; JObj []]))
         (fun _ _ _ => None).

(** One of the three replacements of the label cleanup. *)
Definition underscore (a c : ascii) : ascii :=
  if Ascii.eqb a c then "_"%char else c.

(** What the label cleanup of [preprocess11.py] makes of a character that
    [strip] left, and what the one of [preprocess.py] makes of it. *)
Definition label11_of (c : ascii) : ascii :=
  underscore "-" (underscore "." (underscore " " c)).

Definition label_of (c : ascii) : ascii := PyStr.lower_char (label11_of c).

(** A column after [df[col] = df[col].astype(str).str.strip()]. *)
Definition stripped (c : column) : column :=
  mk_column (cname c) DObject
            (map (fun v => VStr (PyStr.strip (py_str v))) (cvalues c)).

(** The link table with the given rows, each a key, an item and the
    position of the item in its list. *)
Definition link_table (key_name col : string)
           (rows : list (value * string * nat)) : DataFrame :=
  let ids := map (fun r => fst (fst r)) rows in
  mk_df (List.length rows)
        [mk_column key_name (fst (infer_column ids)) (snd (infer_column ids));
         mk_column (col ++ "_item") DObject
                   (map (fun r => VStr (snd (fst r))) rows);
         mk_column "index" DInt (map (fun r => VInt (Z.of_nat (snd r))) rows)].

(** An entry of the returned dictionary that is such a table, with at
    least one row, no missing key and no empty item. *)
Definition shaped_link_table (original_prefix key_name : string)
           (entry : string * DataFrame) : Prop :=
  exists col rows,
    rows <> []
    /\ fst entry = table_name original_prefix col
    /\ snd entry = link_table key_name col rows
    /\ Forall (fun r => isna (fst (fst r)) = false /\ snd (fst r) <> "") rows.

(** A column the extraction looks into: an object column with a comma in
    one of its values. *)
Definition comma_column (c : column) : bool :=
  dtype_eqb (cdtype c) DObject && existsb has_comma (cvalues c).

(** A table the extraction accepts: no label twice, and [.str] works on
    every object column. *)
Definition accepted_table (df : DataFrame) : Prop :=
  NoDup (names df)
  /\ forall c, In c (columns df) -> cdtype c = DObject ->
               str_accessor_ok (cvalues c) = true.

(** A file of the tree the summary at [st] accounts for: its cleaned
    table is among the processed files, or it is among the empty files,
    or it is among the errors. *)
Definition accounted (env : Env) (input_root output_root : string)
           (st : RunState) (file : string * string) : Prop :=
  let json_path := path_join env (fst file) (snd file) in
  let out_dir :=
    path_join env output_root (relpath env (fst file) input_root) in
  In (path_join env out_dir
                (PyStr.replace ".json" "_cleaned.csv" (snd file)))
     (processed_files (summary st))
  \/ In json_path (empty_files (summary st))
  \/ exists e, In (json_path, e) (errors (summary st)).

(** The summary at [st'] holds what the summary at [st] held. *)
Definition grows (st st' : RunState) : Prop :=
  (forall x, In x (processed_files (summary st)) ->
             In x (processed_files (summary st')))
  /\ (forall x, In x (empty_files (summary st)) ->
                In x (empty_files (summary st')))
  /\ (forall x, In x (errors (summary st)) -> In x (errors (summary st'))).

(** The writes made are the entries the summary lists as processed or
    as tables created, one write each. *)
Definition written_is_recorded (st : RunState) : Prop :=
  List.length (written st)
  = (List.length (processed_files (summary st))
     + List.length (tables_created (summary st)))%nat
  /\ forall p, In p (map fst (written st))
               <-> In p (processed_files (summary st))
                   \/ In p (tables_created (summary st)).

(** The state the run over the tree of [one_bad_file] ends in. *)
Definition one_bad_file_final : RunState :=
  Eval vm_compute in
    match process_all_jsons config one_bad_file "in" "out" with
    | Ok (st, _) => st
    | Raise _ => initial
    end.

(** A column from which the extraction takes nothing, read against the
    key column [kcol]: it is no object column with a comma, or it is the
    key column itself, or none of its rows yields an item. *)
Definition barren (key_name : string) (kcol c : column) : bool :=
  negb (comma_column c)
  || String.eqb key_name (cname c)
  || match flat_map (row_records key_name (cname c))
                    (combine (cvalues kcol) (cvalues c)) with
     | [] => true
     | _ => false
     end.

(** A table whose only text is commas and blanks, next to its key. *)
Definition blank_lists : DataFrame :=
  mk_df 2 [mk_column "post_id" DInt [VInt 7; VInt 8];
           mk_column "tags" DObject [VStr ", ,"; VStr " , "]].

(** A table whose labels are all made of label characters. *)
Definition clean_labels (df : DataFrame) : Prop :=
  Forall (fun n => all_chars label_char n = true) (names df).

(** An operating system whose tree holds no JSON file and where every
    other call fails. *)
Definition no_json_files : Env :=
  mk_env (fun _ => [("in", ["notes.txt"; "a.csv"])])
         (fun a b => a ++ "/" ++ b)
         (fun folder _ => folder)
         (fun _ _ => Some (OSError "Permission denied"))
         (fun _ _ => Raise (OSError "Permission denied"))
         (fun _ _ _ => Some (OSError "Permission denied")).

(** One record whose identifier key has a capital letter. *)
Definition capital_key_records : list (pydict value) :=
  [[("Post_id", VInt 1); ("tags", VStr "a, b")]].

(** An operating system with one file, [posts.json], on which link
    tables cannot be written. *)
Definition link_tables_unwritable : Env :=
  mk_env (fun _ => [("in", ["posts.json"])])
         (fun a b => a ++ "/" ++ b)
         (fun folder _ => folder)
         (fun _ _ => None)
         (fun _ _ => Ok posts_json)
         (fun _ path _ =>
            if PyStr.endswith "_table.csv" path
            then Some (OSError "No space left on device")
            else None).

(* ------------------------------------------------------------------ *)
(** ** Values inside a document and the keys they flatten to *)

(** [at_path y path x]: the value [x] is met in [y] by going down
    [path], through a member of an object under its key, or through an
    element of a list of objects under its position.  The elements of a
    list that is joined into text are not met: the list is a leaf. *)
Inductive at_path : json -> list string -> json -> Prop :=
| at_here (y : json) : at_path y [] y
| at_member (kvs : list (string * json)) (a : string) (v : json)
            (path : list string) (x : json) :
    In (a, v) kvs -> at_path v path x -> at_path (JObj kvs) (a :: path) x
| at_index (l : list json) (i : nat) (v : json) (path : list string)
           (x : json) :
    forallb is_dict l = true -> nth_error l i = Some v ->
    at_path v path x -> at_path (JArr l) (PyStr.of_nat i :: path) x.

(** The name [flatten] has accumulated at the end of [path]. *)
Fixpoint name_of_path (sep : string) (path : list string) : string :=
  match path with
  | [] => EmptyString
  | a :: rest => (a ++ sep) ++ name_of_path sep rest
  end.

(** The assignments [out[key] = value] that [flatten(x, name)] makes, in
    the order in which it makes them. *)
Fixpoint assignments (sep : string) (x : json) (name : string) {struct x}
  : list (string * value) :=
  match x with
  | JObj kvs =>
      (fix each (kvs : list (string * json)) : list (string * value) :=
         match kvs with
         | [] => []
         | (a, v) :: r => (assignments sep v (name ++ a ++ sep) ++ each r)%list
         end) kvs
  | JArr l =>
      if forallb is_dict l then
        (fix each (l : list json) (idx : nat) : list (string * value) :=
           match l with
           | [] => []
           | a :: r =>
               (assignments sep a (name ++ PyStr.of_nat idx ++ sep)
                ++ each r (S idx))%list
           end) l O
      else [(PyStr.drop_last name, VStr (PyStr.join ", " (map json_str l)))]
  | _ => [(PyStr.drop_last name, leaf x)]
  end.

(** The assignments of the elements of a list of objects, from position
    [idx] on. *)
Fixpoint assignments_each (sep name : string) (l : list json) (idx : nat)
  : list (string * value) :=
  match l with
  | [] => []
  | a :: r =>
      (assignments sep a (name ++ PyStr.of_nat idx ++ sep)
       ++ assignments_each sep name r (S idx))%list
  end.

(** A document in which a list and a later scalar flatten to one key. *)
Definition colliding_document : json :=
  JObj [("a", JObj [("b", JArr [JNum 1; JNum 2])]); ("a_b", JNum 5)].

(** A document with a list of scalars inside a list of objects. *)
Definition nested_lists_document : json :=
  JObj [("id", JNum 7);
        ("posts", JArr [JObj [("tags", JArr [JStr "u"; JStr "v"])];
                        JObj [("tags", JArr [JNum 1; JStr "b"; JNull])]])].



(** An operating system with two files in one folder: [a.json] with a
    list under [b_c] and [a_b.json] with a list under [c]. *)
Definition shared_table_path : Env :=
  mk_env (fun _ => [("in", ["a.json"; "a_b.json"])])
         (fun a b => a ++ "/" ++ b)
         (fun folder _ => folder)
         (fun _ _ => None)
         (fun _ path =>
            if String.eqb path "in/a.json"
            then Ok (JArr [JObj [("x_id", JNum 1); ("b_c", JStr "p, q")]])
            else Ok (JArr [JObj [("x_id", JNum 1); ("c", JStr "p, q")]]))
         (fun _ _ _ => None).

(** The state the run over that tree ends in. *)
Definition shared_table_path_final : RunState :=
  Eval vm_compute in
    match process_all_jsons config shared_table_path "in" "out" with
    | Ok (st, _) => st
    | Raise _ => initial
    end.

(* ================================================================== *)
(** * Properties *)

(** ** The hash against known digests *)

Example md5_empty : MD5.hexdigest "" = "d41d8cd98f00b204e9800998ecf8427e".
Proof. vm_compute. reflexivity. Qed.

Example md5_abc : MD5.hexdigest "abc" = "900150983cd24fb0d6963f7d28e17f72".
Proof. vm_compute. reflexivity. Qed.

Example md5_two_chunks :
  MD5.hexdigest "aaaaaaaaaaaaaaaaaaaaaaaaaaaaaaaaaaaaaaaaaaaaaaaaaaaaaaaaaaaaaaaa"
  = "014842d480b571495a4a0363793f7367".
Proof. vm_compute. reflexivity. Qed.

Example strip_spaces : PyStr.strip "  a b  " = "a b".
Proof. reflexivity. Qed.

Example split_commas : PyStr.split "," "a, b,,c" = ["a"; " b"; ""; "c"].
Proof. reflexivity. Qed.

Example replace_all :
  PyStr.replace ".json" "_cleaned.csv" "a.json.json"
  = "a_cleaned.csv_cleaned.csv".
Proof. reflexivity. Qed.

Example endswith_id :
  PyStr.endswith "_id" "user_id" = true /\ PyStr.endswith "_id" "id" = false.
Proof. split; reflexivity. Qed.

Example str_of_list :
  json_str (JArr [JNum 1; JStr "a'b"; JNull; JBool true; JObj [("k", JArr [])]])
  = String.concat "" ["[1, "; String (PyStr.chr 34) "a'b";
                      String (PyStr.chr 34) ", None, True, {'k': []}]"].
Proof. reflexivity. Qed.

Example str_of_timestamp :
  Calendar.to_string 1600000000123456789 = "2020-09-13 12:26:40.123456789+00:00"
  /\ Calendar.weekday 1600000000123456789 = 6.
Proof. split; reflexivity. Qed.

(** ** Text *)

Lemma append_assoc (a b c : string) : (a ++ b) ++ c = a ++ (b ++ c).
Proof. induction a as [|x a IH]; simpl; [reflexivity | now rewrite IH]. Qed.

Lemma append_empty_r (s : string) : s ++ "" = s.
Proof. induction s as [|x s IH]; simpl; [reflexivity | now rewrite IH]. Qed.

Lemma append_snoc_not_empty (s : string) (c : ascii) :
  s ++ String c "" <> "".
Proof. destruct s; discriminate. Qed.

Lemma drop_last_snoc (k : string) (c : ascii) :
  PyStr.drop_last (k ++ String c "") = k.
Proof.
  induction k as [|a k IH]; [reflexivity|].
  change (String a k ++ String c "") with (String a (k ++ String c "")).
  simpl. destruct (k ++ String c "") eqn:E.
  - now apply append_snoc_not_empty in E.
  - now rewrite IH.
Qed.

(** ** Dictionaries *)

Lemma dict_set_fresh {A} (d : pydict A) (k : string) (v : A) :
  ~ In k (dict_keys d) -> dict_set d k v = (d ++ [(k, v)])%list.
Proof.
  induction d as [|[k' v'] d IH]; simpl; intros Hk; [reflexivity|].
  destruct (String.eqb k' k) eqn:E.
  - apply String.eqb_eq in E. tauto.
  - rewrite IH; tauto.
Qed.

Lemma dict_get_set_same {A} (d : pydict A) (k : string) (v : A) :
  dict_get (dict_set d k v) k = Some v.
Proof.
  induction d as [|[k' v'] d IH]; simpl.
  - now rewrite String.eqb_refl.
  - destruct (String.eqb k' k) eqn:E; simpl; now rewrite E.
Qed.

Lemma dict_get_set_other {A} (d : pydict A) (k k' : string) (v : A) :
  k <> k' -> dict_get (dict_set d k v) k' = dict_get d k'.
Proof.
  intros Hk. induction d as [|[k0 v0] d IH]; simpl.
  - destruct (String.eqb k k') eqn:E; [|reflexivity].
    apply String.eqb_eq in E. contradiction.
  - destruct (String.eqb k0 k) eqn:E; simpl.
    + apply String.eqb_eq in E. subst k0.
      destruct (String.eqb k k') eqn:E'; [|reflexivity].
      apply String.eqb_eq in E'. contradiction.
    + now rewrite IH.
Qed.

(** ** Flattening *)

Lemma flatten_object (sep : string) (kvs : list (string * json))
      (name : string) (out : pydict value) :
  flatten sep (JObj kvs) name out
  = fold_left (fun out kv => flatten sep (snd kv) (name ++ fst kv ++ sep) out)
              kvs out.
Proof.
  simpl. revert out.
  induction kvs as [|[a v] kvs IH]; intros out; simpl; [reflexivity|].
  apply IH.
Qed.

Lemma flatten_scalar (sep : string) (x : json) (name : string)
      (out : pydict value) :
  is_scalar x = true ->
  flatten sep x name out = dict_set out (PyStr.drop_last name) (leaf x).
Proof. destruct x; simpl; intros H; try discriminate; reflexivity. Qed.

Lemma not_all_dicts (xs : list json) :
  xs <> [] -> Forall (fun x => is_dict x = false) xs ->
  forallb is_dict xs = false.
Proof.
  intros Hne Hall. destruct xs as [|x xs]; [contradiction|].
  inversion Hall as [|? ? Hx _]; subst. simpl. now rewrite Hx.
Qed.

Lemma flatten_nest (sep : string) (path : list string) (x : json) :
  path <> [] ->
  forall name out,
    flatten sep (nest path x) name out
    = flatten sep x (name ++ PyStr.join sep path ++ sep) out.
Proof.
  induction path as [|a path IH]; intros Hne name out; [contradiction|].
  destruct path as [|b path].
  - reflexivity.
  - change (nest (a :: b :: path) x) with (JObj [(a, nest (b :: path) x)]).
    rewrite flatten_object. cbn [fold_left fst snd].
    rewrite IH by discriminate.
    change (PyStr.join sep (a :: b :: path))
      with (a ++ sep ++ PyStr.join sep (b :: path)).
    now rewrite !append_assoc.
Qed.

Lemma flatten_members_fresh (kvs : list (string * json)) :
  forall out,
    NoDup (dict_keys out ++ map fst kvs) ->
    Forall (fun kv => is_scalar (snd kv) = true) kvs ->
    fold_left (fun out kv => flatten "_" (snd kv) ("" ++ fst kv ++ "_") out)
              kvs out
    = (out ++ map (fun kv => (fst kv, leaf (snd kv))) kvs)%list.
Proof.
  induction kvs as [|[a v] kvs IH]; intros out Hnd Hsc; simpl.
  - now rewrite app_nil_r.
  - inversion Hsc as [|? ? Hv Hrest]; subst. simpl in Hv.
    rewrite flatten_scalar by assumption.
    rewrite drop_last_snoc.
    assert (Hfresh : ~ In a (dict_keys out)).
    { intros Hin. apply NoDup_remove_2 in Hnd. apply Hnd.
      apply in_or_app. now left. }
    rewrite dict_set_fresh by assumption.
    rewrite IH.
    + now rewrite <- app_assoc.
    + unfold dict_keys in *. rewrite map_app. simpl.
      rewrite <- app_assoc. exact Hnd.
    + assumption.
Qed.

(** C5.  An object whose values are all scalars flattens, with the empty
    prefix, to the same keys with the same values in the same order. *)
Theorem flatten_flat_object (kvs : list (string * json)) :
  NoDup (map fst kvs) ->
  Forall (fun kv => is_scalar (snd kv) = true) kvs ->
  flatten_json (JObj kvs) "" "_" = map (fun kv => (fst kv, leaf (snd kv))) kvs.
Proof.
  intros Hnd Hsc. unfold flatten_json. rewrite flatten_object.
  now rewrite flatten_members_fresh.
Qed.

Lemma flatten_flat_object_witness :
  flatten_json (JObj [("id", JNum 1); ("name", JStr "x"); ("ok", JBool true);
                      ("gone", JNull)]) "" "_"
  = [("id", VInt 1); ("name", VStr "x"); ("ok", VBool true); ("gone", VNone)].
Proof.
  apply (flatten_flat_object
           [("id", JNum 1); ("name", JStr "x"); ("ok", JBool true);
            ("gone", JNull)]).
  - repeat constructor; simpl; intuition discriminate.
  - repeat constructor.
Defined.

(** ** Lists *)

Lemma Forall2_map_in {A B} (R : A -> B -> Prop) (g : A -> B) (l : list A) :
  (forall x, In x l -> R x (g x)) -> Forall2 R l (map g l).
Proof.
  induction l as [|x l IH]; intros H; simpl; constructor.
  - apply H. now left.
  - apply IH. intros y Hy. apply H. now right.
Qed.

Lemma Forall2_compose {A} (R1 R2 R3 : A -> A -> Prop) (l1 l2 l3 : list A) :
  (forall x y z, R1 x y -> R2 y z -> R3 x z) ->
  Forall2 R1 l1 l2 -> Forall2 R2 l2 l3 -> Forall2 R3 l1 l3.
Proof.
  intros Hc H12. revert l3.
  induction H12 as [|x y l1 l2 Hxy _ IH]; intros l3 H23;
    inversion H23; subst; constructor; eauto.
Qed.

Lemma Forall2_weaken {A B} (R1 R2 : A -> B -> Prop) (l1 : list A)
      (l2 : list B) :
  (forall x y, R1 x y -> R2 x y) -> Forall2 R1 l1 l2 -> Forall2 R2 l1 l2.
Proof. intros H F. induction F; constructor; auto. Qed.

Lemma Forall2_same {A} (R : A -> A -> Prop) (l : list A) :
  (forall x, R x x) -> Forall2 R l l.
Proof. intros H. induction l; constructor; auto. Qed.

Lemma find_hd_filter {A} (p : A -> bool) (l : list A) :
  find p l = hd_error (filter p l).
Proof.
  induction l as [|x l IH]; simpl; [reflexivity|].
  destruct (p x); simpl; [reflexivity | exact IH].
Qed.

(** ** Columns by label *)

Lemma unique_column_is (df : DataFrame) (col : string) (s c : column) :
  unique_column df col = true ->
  get_column df col = Some s ->
  In c (columns df) -> cname c = col -> c = s.
Proof.
  unfold unique_column, count_name, get_column.
  intros Hu Hg Hin Hn. rewrite find_hd_filter in Hg.
  assert (Hc : In c (filter (fun c => String.eqb (cname c) col) (columns df))).
  { apply filter_In. split; [assumption|]. now apply String.eqb_eq. }
  destruct (filter (fun c => String.eqb (cname c) col) (columns df))
    as [|x [|y r]]; simpl in *; try discriminate.
  injection Hg as <-. destruct Hc as [Hc|[]]. now symmetry.
Qed.

Lemma series_ok (df : DataFrame) (col : string) (s : column) :
  series df col = Ok s ->
  get_column df col = Some s /\ unique_column df col = true.
Proof.
  unfold series. destruct (get_column df col) as [c|]; [|discriminate].
  destruct (unique_column df col); [|discriminate].
  intros H. injection H as <-. now split.
Qed.

Lemma get_column_name (df : DataFrame) (col : string) (s : column) :
  get_column df col = Some s -> In s (columns df) /\ cname s = col.
Proof.
  unfold get_column. intros H. apply find_some in H.
  destruct H as [Hin He]. apply String.eqb_eq in He. now split.
Qed.

(** ** What the extraction leaves of the table *)

Lemma cleared_has_no_comma (vs : list value) :
  existsb has_comma (map clear_text vs) = false.
Proof.
  induction vs as [|v vs IH]; simpl; [reflexivity|].
  rewrite IH. destruct v; reflexivity.
Qed.

Lemma kept_or_cleared_then (key_name : string) (d1 d2 : list string)
      (c0 c1 c2 : column) :
  kept_or_cleared key_name d1 c0 c1 ->
  kept_or_cleared key_name d2 c1 c2 ->
  kept_or_cleared key_name (d1 ++ d2) c0 c2.
Proof.
  intros [->|(Hin & Hk & Hd & Hc & ->)] [->|(Hin' & Hk' & Hd' & Hc' & ->)].
  - now left.
  - right. repeat split; auto. apply in_or_app. now right.
  - right. repeat split; auto. apply in_or_app. now left.
  - simpl in Hc'. now rewrite cleared_has_no_comma in Hc'.
Qed.

Lemma extract_column_frame (original_prefix key_name col : string)
      (df df' : DataFrame) (tables tables' : pydict DataFrame) :
  extract_column original_prefix key_name (df, tables) col = Ok (df', tables') ->
  nrows df' = nrows df
  /\ Forall2 (kept_or_cleared key_name [col]) (columns df) (columns df').
Proof.
  unfold extract_column.
  destruct (series df col) as [s|e] eqn:Hs; simpl; [|discriminate].
  apply series_ok in Hs. destruct Hs as [Hg Hu].
  assert (Hsame : Forall2 (kept_or_cleared key_name [col])
                          (columns df) (columns df))
    by (apply Forall2_same; intros x; now left).
  destruct (dtype_eqb (cdtype s) DObject) eqn:Hd;
    [|intros H; injection H as <- <-; now split].
  destruct (str_accessor_ok (cvalues s)); simpl; [|discriminate].
  destruct (existsb has_comma (cvalues s)) eqn:Hc;
    [|intros H; injection H as <- <-; now split].
  unfold column_records.
  destruct (series df key_name) as [k|e]; simpl; [|discriminate].
  destruct (String.eqb key_name col) eqn:Hk;
    [intros H; injection H as <- <-; now split|].
  destruct (flat_map (row_records key_name col)
                     (combine (cvalues k) (cvalues s)));
    intros H; injection H as <- <-; [now split|].
  split; [reflexivity|]. simpl.
  apply Forall2_map_in. intros c Hin.
  destruct (String.eqb (cname c) col) eqn:Hn; [|now left].
  apply String.eqb_eq in Hn.
  assert (c = s) by (eapply unique_column_is; eauto). subst c.
  right. split; [now left|]. split; [|split; [|split]].
  - intros He. rewrite <- He, Hn in Hk. now rewrite String.eqb_refl in Hk.
  - destruct (cdtype s); try discriminate; reflexivity.
  - exact Hc.
  - reflexivity.
Qed.

Lemma extract_loop_frame (original_prefix key_name : string)
      (cols : list string) :
  forall df tables,
    nrows (fst (extract_loop original_prefix key_name cols df tables))
    = nrows df
    /\ Forall2 (kept_or_cleared key_name cols) (columns df)
         (columns (fst (extract_loop original_prefix key_name cols df tables))).
Proof.
  induction cols as [|col cols IH]; intros df tables; cbn [extract_loop].
  - split; [reflexivity|]. apply Forall2_same. intros x. now left.
  - destruct (extract_column original_prefix key_name (df, tables) col)
      as [[df1 t1]|e] eqn:Hstep; cbn [fst].
    + apply extract_column_frame in Hstep. destruct Hstep as [Hn Hf].
      destruct (IH df1 t1) as [Hn' Hf']. split; [now rewrite Hn'|].
      eapply Forall2_compose; [|exact Hf|exact Hf'].
      intros x y z H1 H2.
      exact (kept_or_cleared_then key_name [col] cols x y z H1 H2).
    + split; [reflexivity|]. apply Forall2_same. intros x. now left.
Qed.

(** C10.  Whatever the table and whether or not the call ends in an
    exception, the table it leaves has the same number of rows and the
    same column labels in the same order; a column none of whose values
    contains a comma is left exactly as it was, and any other column
    either is left as it was or has, row for row, its text values replaced
    by the empty string. *)
Theorem extract_changes_only_comma_columns (df : DataFrame)
        (original_prefix key_name : string) :
  let df' := fst (extract_one_to_many_tables df original_prefix key_name) in
  nrows df' = nrows df
  /\ names df' = names df
  /\ Forall2 (fun c c' =>
                (existsb has_comma (cvalues c) = false -> c' = c)
                /\ (cvalues c' = cvalues c
                    \/ cvalues c' = map clear_text (cvalues c)))
             (columns df) (columns df').
Proof.
  unfold extract_one_to_many_tables. cbn zeta.
  destruct (extract_loop_frame original_prefix key_name (names df) df [])
    as [Hn Hf].
  split; [exact Hn|].
  set (df' := fst (extract_loop original_prefix key_name (names df) df []))
    in *.
  clearbody df'. split.
  - unfold names. clear Hn.
    induction Hf as [|c c' l l' Hc _ IH]; simpl; [reflexivity|].
    f_equal; [|exact IH].
    destruct Hc as [->|(_ & _ & _ & _ & ->)]; reflexivity.
  - eapply Forall2_weaken; [|exact Hf].
    intros c c' [->|(_ & _ & _ & Hc & ->)].
    + split; auto.
    + split; [intros H; congruence|]. now right.
Qed.

(** ** Where link-table rows come from *)






Lemma Forall_dict_set {A} (P : string * A -> Prop) (d : pydict A)
      (k : string) (v : A) :
  Forall P d -> P (k, v) -> Forall P (dict_set d k v).
Proof.
  intros Hd Hkv. induction Hd as [|[k' v'] d Hx Hd IH]; simpl.
  - now constructor.
  - destruct (String.eqb k' k) eqn:E.
    + apply String.eqb_eq in E. subst k'. now constructor.
    + now constructor.
Qed.

Lemma kept_or_cleared_name (key_name : string) (done : list string)
      (c0 c : column) :
  kept_or_cleared key_name done c0 c -> cname c = cname c0.
Proof. intros [->|(_ & _ & _ & _ & ->)]; reflexivity. Qed.


Lemma count_related (key_name : string) (done : list string) (n : string)
      (l0 l : list column) :
  Forall2 (kept_or_cleared key_name done) l0 l ->
  List.length (filter (fun c => String.eqb (cname c) n) l0)
  = List.length (filter (fun c => String.eqb (cname c) n) l).
Proof.
  induction 1 as [|c0 c l0 l Hc _ IH]; simpl; [reflexivity|].
  rewrite <- (kept_or_cleared_name _ _ _ _ Hc).
  destruct (String.eqb (cname c) n); simpl; now rewrite IH.
Qed.




(** ** Suffixes *)

Lemma rev_acc_app (s acc : string) :
  PyStr.rev_acc s acc = PyStr.rev s ++ acc.
Proof.
  unfold PyStr.rev. revert acc.
  induction s as [|c s IH]; intros acc; simpl; [reflexivity|].
  rewrite IH. rewrite (IH (String c "")). now rewrite append_assoc.
Qed.

Lemma rev_app (a b : string) :
  PyStr.rev (a ++ b) = PyStr.rev b ++ PyStr.rev a.
Proof.
  induction a as [|c a IH]; simpl.
  - now rewrite append_empty_r.
  - unfold PyStr.rev at 1 3. simpl. rewrite !rev_acc_app, IH.
    now rewrite append_assoc.
Qed.

Lemma rev_involutive (s : string) : PyStr.rev (PyStr.rev s) = s.
Proof.
  induction s as [|c s IH]; [reflexivity|].
  unfold PyStr.rev at 2. simpl. rewrite rev_acc_app, rev_app, IH.
  reflexivity.
Qed.

Lemma append_inj_l (a b c : string) : a ++ b = a ++ c -> b = c.
Proof.
  induction a as [|x a IH]; simpl; intros H; [exact H|].
  injection H as H. now apply IH.
Qed.

Lemma append_inj_r (a b s : string) : a ++ s = b ++ s -> a = b.
Proof.
  intros H. apply (f_equal PyStr.rev) in H. rewrite !rev_app in H.
  apply append_inj_l in H. apply (f_equal PyStr.rev) in H.
  now rewrite !rev_involutive in H.
Qed.

Lemma table_name_inj (original_prefix c1 c2 : string) :
  table_name original_prefix c1 = table_name original_prefix c2 -> c1 = c2.
Proof.
  unfold table_name. intros H.
  apply append_inj_l in H. apply append_inj_l in H.
  now apply append_inj_r in H.
Qed.

Lemma id_suffix_not_item (key_name col : string) :
  PyStr.endswith "_id" key_name = true -> key_name <> col ++ "_item".
Proof.
  intros H ->. unfold PyStr.endswith in H. rewrite rev_app in H.
  discriminate H.
Qed.


(** ** The pipeline of one file *)

Section Pipeline.

Context {pandas : Pandas}.
Variable cfg : Config.



End Pipeline.


(** ** Splitting a comma-joined list *)







(** ** The extraction on a table that it accepts *)

Lemma find_related_after (key_name : string) (done : list string) (n : string)
      (l0 l : list column) :
  Forall2 (kept_or_cleared key_name done) l0 l ->
  forall s0, find (fun c => String.eqb (cname c) n) l0 = Some s0 ->
  exists s, find (fun c => String.eqb (cname c) n) l = Some s
            /\ kept_or_cleared key_name done s0 s.
Proof.
  induction 1 as [|c0 c l0 l Hc _ IH]; intros s0 Hs; simpl in *;
    [discriminate|].
  rewrite (kept_or_cleared_name _ _ _ _ Hc).
  destruct (String.eqb (cname c0) n).
  - injection Hs as <-. now exists c.
  - now apply IH.
Qed.

(** A column of the starting table is still there, unchanged, as long as
    the loop has not reached it; the key column always is. *)
Lemma series_after (key_name : string) (done : list string)
      (df0 df : DataFrame) (col : string) (s : column) :
  Forall2 (kept_or_cleared key_name done) (columns df0) (columns df) ->
  series df0 col = Ok s ->
  ~ In col done \/ col = key_name ->
  series df col = Ok s.
Proof.
  intros Hf Hs Hor. apply series_ok in Hs. destruct Hs as [Hg Hu].
  destruct (find_related_after _ _ col _ _ Hf s Hg) as (s' & Hg' & Hrel).
  pose proof (get_column_name df0 col s Hg) as [_ Hname].
  assert (s' = s).
  { destruct Hrel as [->|(Hin & Hk & _)]; [reflexivity|].
    rewrite Hname in Hin, Hk. destruct Hor; contradiction. }
  subst s'. unfold series, get_column. rewrite Hg'.
  unfold unique_column, count_name in *.
  rewrite <- (count_related _ _ col _ _ Hf). now rewrite Hu.
Qed.

Lemma series_update (df : DataFrame) (col : string) (s : column)
      (f : column -> dtype * list value) :
  series df col = Ok s ->
  series (update_column df col f) col
  = Ok (mk_column (cname s) (fst (f s)) (snd (f s))).
Proof.
  intros Hs. apply series_ok in Hs. destruct Hs as [Hg Hu].
  unfold series, get_column, unique_column, count_name, update_column in *.
  cbn [columns].
  set (g := fun c => if String.eqb (cname c) col
                     then mk_column (cname c) (fst (f c)) (snd (f c))
                     else c).
  assert (Hp : forall c, String.eqb (cname (g c)) col
                         = String.eqb (cname c) col).
  { intros c. unfold g. destruct (String.eqb (cname c) col) eqn:E; auto. }
  assert (Hfind : find (fun c => String.eqb (cname c) col)
                       (map g (columns df)) = Some (g s)).
  { revert Hg. clear Hu. induction (columns df) as [|c l IH]; simpl;
      [discriminate|].
    rewrite Hp. destruct (String.eqb (cname c) col).
    - intros H. now injection H as ->.
    - exact IH. }
  assert (Hcount : List.length (filter (fun c => String.eqb (cname c) col)
                                       (map g (columns df)))
                   = List.length (filter (fun c => String.eqb (cname c) col)
                                         (columns df))).
  { clear. subst g. induction (columns df) as [|c l IH]; simpl; [reflexivity|].
    destruct (String.eqb (cname c) col) eqn:E; simpl; rewrite E; simpl;
      now rewrite IH. }
  rewrite Hfind, Hcount, Hu.
  unfold g. apply find_some in Hg. destruct Hg as [_ ->]. reflexivity.
Qed.

Lemma series_of_label (df : DataFrame) (col : string) :
  NoDup (names df) -> In col (names df) -> exists s, series df col = Ok s.
Proof.
  unfold series, get_column, unique_column, count_name, names.
  induction (columns df) as [|c l IH]; simpl; intros Hnd Hin; [contradiction|].
  inversion Hnd as [|? ? Hc Hl]; subst.
  destruct (String.eqb (cname c) col) eqn:E.
  - exists c. apply String.eqb_eq in E.
    assert (Hnone : filter (fun c => String.eqb (cname c) col) l = []).
    { clear IH Hnd Hl Hin. induction l as [|x l IHl]; simpl; [reflexivity|].
      destruct (String.eqb (cname x) col) eqn:Ex.
      - apply String.eqb_eq in Ex. exfalso. apply Hc. left. congruence.
      - apply IHl. intros H. apply Hc. now right. }
    simpl. now rewrite Hnone.
  - destruct Hin as [Hin|Hin].
    + apply String.eqb_neq in E. contradiction.
    + exact (IH Hl Hin).
Qed.

Section Accepted.

Variables original_prefix key_name : string.
Variable df0 : DataFrame.
Variable kcol : column.

Hypothesis distinct_labels : NoDup (names df0).
Hypothesis text_columns :
  forall s, In s (columns df0) -> cdtype s = DObject ->
            str_accessor_ok (cvalues s) = true.
Hypothesis key_column : series df0 key_name = Ok kcol.

Lemma extract_column_runs (df : DataFrame) (tables : pydict DataFrame)
      (col : string) (c0 : column) :
  series df col = Ok c0 -> In c0 (columns df0) ->
  series df key_name = Ok kcol ->
  exists df1 t1,
    extract_column original_prefix key_name (df, tables) col = Ok (df1, t1)
    /\ (forall n, n <> table_name original_prefix col ->
                  dict_get t1 n = dict_get tables n)
    /\ (cdtype c0 = DObject -> existsb has_comma (cvalues c0) = true ->
        col <> key_name ->
        flat_map (row_records key_name col)
                 (combine (cvalues kcol) (cvalues c0)) <> [] ->
        dict_get t1 (table_name original_prefix col)
        = Some (DataFrame_of_records
                  (flat_map (row_records key_name col)
                            (combine (cvalues kcol) (cvalues c0))))
        /\ series df1 col = Ok (cleared c0)).
Proof.
  intros Hs Hin Hk. unfold extract_column. rewrite Hs. cbn [bind].
  destruct (dtype_eqb (cdtype c0) DObject) eqn:Hd.
  2: { exists df, tables. split; [reflexivity|]. split; [reflexivity|].
       intros Hd'. rewrite Hd' in Hd. discriminate. }
  assert (Hobj : cdtype c0 = DObject)
    by (destruct (cdtype c0); try discriminate; reflexivity).
  rewrite (text_columns c0 Hin Hobj). cbn [negb].
  destruct (existsb has_comma (cvalues c0)) eqn:Hc.
  2: { exists df, tables. split; [reflexivity|]. split; [reflexivity|].
       intros _ Hc'. discriminate. }
  unfold column_records. rewrite Hk. cbn [bind].
  destruct (String.eqb key_name col) eqn:He.
  { exists df, tables. split; [reflexivity|]. split; [reflexivity|].
    intros _ _ Hne. apply String.eqb_eq in He. congruence. }
  destruct (flat_map (row_records key_name col)
                     (combine (cvalues kcol) (cvalues c0))) as [|r rs] eqn:Hr.
  { exists df, tables. split; [reflexivity|]. split; [reflexivity|].
    intros _ _ _ Hne. contradiction. }
  eexists _, _. split; [reflexivity|]. split.
  - intros n Hn. apply dict_get_set_other. congruence.
  - intros _ _ _ _. split; [apply dict_get_set_same|].
    now rewrite (series_update df col c0 _ Hs).
Qed.

Lemma extract_loop_runs (todo : list string) :
  forall done df (tables : pydict DataFrame),
    names df0 = (done ++ todo)%list ->
    Forall2 (kept_or_cleared key_name done) (columns df0) (columns df) ->
    exists df' tables',
      extract_loop original_prefix key_name todo df tables = (df', Ok tables')
      /\ (forall n, (forall c, In c todo -> n <> table_name original_prefix c) ->
                    dict_get tables' n = dict_get tables n)
      /\ (forall col ccol,
             In col todo -> series df0 col = Ok ccol ->
             cdtype ccol = DObject ->
             existsb has_comma (cvalues ccol) = true ->
             col <> key_name ->
             flat_map (row_records key_name col)
                      (combine (cvalues kcol) (cvalues ccol)) <> [] ->
             dict_get tables' (table_name original_prefix col)
             = Some (DataFrame_of_records
                       (flat_map (row_records key_name col)
                                 (combine (cvalues kcol) (cvalues ccol))))
             /\ series df' col = Ok (cleared ccol)).
Proof.
  induction todo as [|col rest IH]; intros done df tables Hnames Hf.
  - exists df, tables. split; [reflexivity|]. split; [reflexivity|].
    intros col ccol [].
  - assert (Hnd : NoDup (done ++ col :: rest)) by now rewrite <- Hnames.
    pose proof (NoDup_remove_2 _ _ _ Hnd) as Hfresh.
    assert (Hdone : ~ In col done)
      by (intros H; apply Hfresh; apply in_or_app; now left).
    assert (Hrest : ~ In col rest)
      by (intros H; apply Hfresh; apply in_or_app; now right).
    destruct (series_of_label df0 col distinct_labels) as [c0 Hc0].
    { rewrite Hnames. apply in_or_app. right. now left. }
    assert (Hin0 : In c0 (columns df0)).
    { apply series_ok in Hc0. destruct Hc0 as [Hg _].
      now apply get_column_name in Hg. }
    pose proof (series_after _ _ _ _ _ _ Hf Hc0 (or_introl Hdone)) as Hs.
    pose proof (series_after _ _ _ _ _ _ Hf key_column (or_intror eq_refl))
      as Hk.
    destruct (extract_column_runs df tables col c0 Hs Hin0 Hk)
      as (df1 & t1 & Hstep & Hother & Hthis).
    pose proof (extract_column_frame _ _ _ _ _ _ _ Hstep) as [_ Hf1].
    assert (Hf' : Forall2 (kept_or_cleared key_name (done ++ [col]))
                          (columns df0) (columns df1)).
    { eapply Forall2_compose; [|exact Hf|exact Hf1].
      intros x y z. apply kept_or_cleared_then. }
    destruct (IH (done ++ [col])%list df1 t1) as (df' & tables' & Hrun & Ha & Hb).
    { now rewrite <- app_assoc. }
    { exact Hf'. }
    exists df', tables'. cbn [extract_loop]. rewrite Hstep.
    split; [exact Hrun|]. split.
    + intros n Hn. rewrite Ha by (intros c Hc; apply Hn; now right).
      apply Hother. apply Hn. now left.
    + intros col' ccol [<-|Hin] Hser Hd Hc Hne Hrec.
      * assert (ccol = c0) by congruence. subst ccol.
        destruct (Hthis Hd Hc Hne Hrec) as [Ht Hs1]. split.
        -- rewrite Ha; [exact Ht|].
           intros c Hc' E. apply table_name_inj in E. congruence.
        -- pose proof (extract_loop_frame original_prefix key_name rest df1 t1)
             as [_ Hfr].
           rewrite Hrun in Hfr. cbn [fst] in Hfr.
           exact (series_after _ _ _ _ _ _ Hfr Hs1 (or_introl Hrest)).
      * now apply Hb.
Qed.

End Accepted.

(** ** The first end-to-end scenario *)

(** C1, as the claim has it, fails: the link table of [posts.json] has no
    column [id] and no column whose two cells are the number 1; its
    foreign key is the generated [unique_id]. *)
Lemma posts_links_not_keyed_by_id :
  process_records config "posts.json" (flat_records posts_json)
  = Tables posts_main [("posts_hashtags_table", posts_hashtags_table)]
  /\ get_column posts_hashtags_table "id" = None
  /\ ~ (exists c, In c (columns posts_hashtags_table)
                  /\ cvalues c = [VInt 1; VInt 1]).
Proof.
  split; [vm_compute; reflexivity|]. split; [reflexivity|].
  intros (c & [<-|[<-|[<-|[]]]] & H); discriminate H.
Qed.

(** C1, amended.  For [posts.json] the pipeline yields the main table
    with the one row [id = 1], [likes_count = 12] (an integer),
    [hashtags = ""] and the generated [unique_id], the MD5 digest of
    ["1||12||sun, beach"]; and the one link table [posts_hashtags_table],
    whose two rows carry that [unique_id] as foreign key and link it to
    ["sun"] at index 0 and ["beach"] at index 1. *)
Theorem posts_scenario :
  process_records config "posts.json" (flat_records posts_json)
  = Tables posts_main [("posts_hashtags_table", posts_hashtags_table)]
  /\ posts_unique_id = MD5.hexdigest "1||12||sun, beach"
  /\ PyStr.endswith "_id" "id" = false.
Proof. repeat split; vm_compute; reflexivity. Qed.

(** ** Generated identifiers *)

(** C2, as the claim has it, fails: two rows of one table that differ in
    both values get the same identifier. *)
Lemma distinct_rows_same_identifier :
  iterrows (DataFrame_of_records [row_left; row_right])
  = [row_left; row_right]
  /\ map snd row_left <> map snd row_right
  /\ create_unique_id row_left [] = create_unique_id row_right [].
Proof. split; [reflexivity|]. split; [discriminate|reflexivity]. Qed.

(** C2, amended.  The identifier of a row is the MD5 digest of the [str]
    of its values joined by ["||"], nothing else: rows with the same
    sequence of values get the same identifier, and so do any two rows
    whose joined strings coincide. *)
Theorem identifier_of_joined_values (r1 r2 : list (string * value)) :
  create_unique_id r1 [] = MD5.hexdigest (key_str r1)
  /\ (map snd r1 = map snd r2 ->
      create_unique_id r1 [] = create_unique_id r2 [])
  /\ (key_str r1 = key_str r2 ->
      create_unique_id r1 [] = create_unique_id r2 []).
Proof.
  split; [reflexivity|]. split.
  - intros H. unfold create_unique_id.
    rewrite <- !(map_map snd py_str). now rewrite H.
  - intros H. unfold create_unique_id. fold (key_str r1) (key_str r2).
    now rewrite H.
Qed.

Lemma identifier_of_joined_values_witness :
  create_unique_id row_left [] = create_unique_id row_right [].
Proof.
  apply (identifier_of_joined_values row_left row_right). reflexivity.
Defined.

(** C3, as the claim has it, fails: the one row of this file gets the
    digest of ["None||x"], which takes in the column [a] that the cleanup
    then drops as empty, not the digest of the surviving cell ["x"]. *)
Lemma identifier_covers_dropped_column :
  process_records config "f.json" null_field_records
  = Tables (mk_df 1 [mk_column "b" DObject [VStr "x"];
                     mk_column "unique_id" DObject
                               [VStr (MD5.hexdigest "None||x")]])
           []
  /\ MD5.hexdigest "None||x"
     = create_unique_id [("a", VNone); ("b", VStr "x")] []
  /\ MD5.hexdigest "None||x" <> create_unique_id [("b", VStr "x")] [].
Proof.
  split; [vm_compute; reflexivity|]. split; [reflexivity|].
  vm_compute. discriminate.
Qed.


(** ** The run over a directory tree *)

Lemma for_each_app {A S} (l1 l2 : list A) (body : S -> A -> result S) (s : S) :
  for_each (l1 ++ l2) body s
  = (s' <- for_each l1 body s ;; for_each l2 body s').
Proof.
  revert s. induction l1 as [|a l1 IH]; intros s; simpl; [reflexivity|].
  destruct (body s a); simpl; [apply IH | reflexivity].
Qed.

Section RunFacts.

Context {pandas : Pandas}.
Variable cfg : Config.
Variable env : Env.
Variables input_root output_root : string.

Lemma save_tables_errors (out_dir : string) (aux : pydict DataFrame) :
  forall st,
    errors (summary (fst (save_tables env out_dir aux st)))
    = errors (summary st).
Proof.
  induction aux as [|[tbl_name tbl_df] aux IH]; intros st; simpl;
    [reflexivity|].
  destruct (to_csv env st _ tbl_df); simpl; [reflexivity|].
  now rewrite IH.
Qed.

Lemma try_file_errors (st : RunState)
      (json_path out_dir csv_out filename : string) :
  errors (summary (fst (try_file cfg env st json_path out_dir csv_out
                                 filename)))
  = errors (summary st).
Proof.
  unfold try_file.
  destruct (json_file_to_flat_records env st json_path) as [records|e];
    [|reflexivity].
  destruct (process_records cfg filename records); try reflexivity.
  destruct (to_csv env st csv_out main); [reflexivity|].
  now rewrite save_tables_errors.
Qed.

Hypothesis directories_can_be_made :
  forall st path, makedirs env st path = None.

Lemma process_file_returns (st : RunState) (file : string * string) :
  exists st',
    process_file cfg env input_root output_root st file = Ok st'
    /\ (forall x, In x (errors (summary st)) -> In x (errors (summary st'))).
Proof.
  unfold process_file. destruct file as [folder filename].
  destruct (is_json filename); cbn [negb]; [|now exists st].
  rewrite directories_can_be_made.
  match goal with
  | |- context [try_file ?c ?e ?s ?a ?b ?d ?f] =>
      pose proof (try_file_errors s a b d f) as He;
      destruct (try_file c e s a b d f) as [st' [ex|]]
  end; cbn [fst] in He.
  - eexists. split; [reflexivity|]. intros x Hx. cbn.
    apply in_or_app. left. now rewrite He.
  - exists st'. split; [reflexivity|]. intros x Hx. now rewrite He.
Qed.

Lemma for_each_file_returns (files : list (string * string)) :
  forall st,
    exists st',
      for_each files (process_file cfg env input_root output_root) st = Ok st'
      /\ (forall x, In x (errors (summary st)) ->
                    In x (errors (summary st'))).
Proof.
  induction files as [|file files IH]; intros st; simpl.
  - now exists st.
  - destruct (process_file_returns st file) as (st1 & -> & H1). simpl.
    destruct (IH st1) as (st' & Hrun & H').
    exists st'. split; [exact Hrun|]. auto.
Qed.

(** C7, amended.  Provided the output directory of every file can be
    created, the run completes and reports its summary; it handles every
    file of the tree in turn, whatever happened to the files before it;
    and a file whose [try] block raises is recorded in the summary's
    errors with its path and the exception, the state being otherwise as
    the block left it. *)
Theorem file_failures_are_recorded :
  exists final,
    process_all_jsons cfg env input_root output_root
    = Ok (final, report (summary final))
    /\ forall before folder filename after,
        walk_files env input_root
        = (before ++ (folder, filename) :: after)%list ->
        exists st1 st2,
          for_each before (process_file cfg env input_root output_root)
                   initial = Ok st1
          /\ process_file cfg env input_root output_root st1
                          (folder, filename) = Ok st2
          /\ for_each after (process_file cfg env input_root output_root) st2
             = Ok final
          /\ forall st' e,
              is_json filename = true ->
              try_file cfg env st1 (path_join env folder filename)
                       (path_join env output_root
                                  (relpath env folder input_root))
                       (path_join env
                                  (path_join env output_root
                                             (relpath env folder input_root))
                                  (PyStr.replace ".json" "_cleaned.csv"
                                                 filename))
                       filename
              = (st', Some e) ->
              st2 = add_error st' (path_join env folder filename) e
              /\ In (path_join env folder filename, e)
                    (errors (summary final)).
Proof.
  destruct (for_each_file_returns (walk_files env input_root) initial)
    as (final & Hrun & _).
  exists final. split.
  - unfold process_all_jsons. now rewrite Hrun.
  - intros before folder filename after Hsplit.
    rewrite Hsplit, for_each_app in Hrun.
    destruct (for_each_file_returns before initial) as (st1 & H1 & _).
    rewrite H1 in Hrun. cbn [bind for_each] in Hrun.
    destruct (process_file_returns st1 (folder, filename)) as (st2 & H2 & _).
    rewrite H2 in Hrun. cbn [bind] in Hrun.
    destruct (for_each_file_returns after st2) as (final' & Hrun' & Hmono).
    rewrite Hrun' in Hrun. injection Hrun as <-.
    exists st1, st2. split; [exact H1|]. split; [exact H2|].
    split; [exact Hrun'|].
    intros st' e Hjson Htry.
    unfold process_file in H2. rewrite Hjson, directories_can_be_made in H2.
    cbn [negb] in H2. rewrite Htry in H2. injection H2 as <-.
    split; [reflexivity|]. apply Hmono.
    cbn. apply in_or_app. right. now left.
Qed.

End RunFacts.

Lemma file_failures_are_recorded_witness :
  exists final,
    process_all_jsons config one_bad_file "in" "out"
    = Ok (final, report (summary final))
    /\ errors (summary final)
       = [("in/bad.json", JSONDecodeError "Expecting value")]
    /\ report (summary final) = (2%nat, 2%nat, 0%nat, 1%nat).
Proof.
  destruct (file_failures_are_recorded config one_bad_file "in" "out"
                                       (fun _ _ => eq_refl))
    as (final & Hrun & _).
  exists final. split; [exact Hrun|].
  assert (E : process_all_jsons config one_bad_file "in" "out"
              = Ok (final, report (summary final))) by exact Hrun.
  vm_compute in E. injection E as <-. split; reflexivity.
Defined.

(** C7, as the claim has it, fails: [os.makedirs] is called outside the
    [try] block, so when the output directory of a file cannot be created
    the run ends in that exception and reports no summary. *)
Lemma unwritable_output_ends_run :
  process_all_jsons config read_only_output "in" "out"
  = Raise (OSError "Permission denied").
Proof. reflexivity. Qed.

(** ** The two files *)

(** C9, as the claim has it, fails: on this one-cell table
    [preprocess.py] lower-cases the label and trims the text,
    [preprocess11.py] does neither. *)
Lemma files_clean_differently :
  clean_and_standardize config padded_names
  = Ok (mk_df 1 [mk_column "name" DObject [VStr "x"]])
  /\ Preprocess11.clean_and_standardize padded_names
     = mk_df 1 [mk_column "Name" DObject [VStr " x "]]
  /\ clean_and_standardize config padded_names
     <> Ok (Preprocess11.clean_and_standardize padded_names).
Proof. repeat split; try reflexivity. discriminate. Qed.

Lemma In_keep {A} (mask : list bool) (l : list A) (x : A) :
  In x (keep mask l) -> In x l.
Proof.
  revert l. induction mask as [|b mask IH]; intros [|y l] H; simpl in H;
    try contradiction; try (destruct b; contradiction).
  destruct b.
  - destruct H as [H|H]; [now left | right; now apply IH].
  - right. now apply IH.
Qed.

Lemma filter_none {A} (p : A -> bool) (l : list A) :
  (forall x, In x l -> p x = false) -> filter p l = [].
Proof.
  induction l as [|x l IH]; intros H; simpl; [reflexivity|].
  rewrite (H x) by now left. apply IH. intros y Hy. apply H. now right.
Qed.

Lemma map_same {A} (f : A -> A) (l : list A) :
  (forall x, In x l -> f x = x) -> map f l = l.
Proof.
  induction l as [|x l IH]; intros H; simpl; [reflexivity|].
  rewrite (H x) by now left. f_equal. apply IH. intros y Hy. apply H.
  now right.
Qed.

Lemma distinct_labels_filter (f : string -> string) (p : column -> bool)
      (cols : list column) :
  NoDup (map (fun c => f (cname c)) cols) ->
  NoDup (map (fun c => f (cname c)) (filter p cols)).
Proof.
  induction cols as [|x cols IH]; simpl; intros H; [constructor|].
  inversion H as [|? ? Hx Hl]; subst.
  destruct (p x); simpl; [|now apply IH].
  constructor; [|now apply IH].
  intros Hin. apply Hx. apply in_map_iff in Hin.
  destruct Hin as (y & Hy & Hin). apply filter_In in Hin.
  apply in_map_iff. exists y. tauto.
Qed.

Lemma for_each_same {A S} (l : list A) (body : S -> A -> result S) (s : S) :
  (forall a, In a l -> body s a = Ok s) -> for_each l body s = Ok s.
Proof.
  induction l as [|a l IH]; intros H; simpl; [reflexivity|].
  rewrite (H a) by now left. simpl. apply IH. intros b Hb. apply H.
  now right.
Qed.

Lemma fold_left_same {A S} (l : list A) (body : S -> A -> S) (s : S) :
  (forall a, In a l -> body s a = s) -> fold_left body l s = s.
Proof.
  induction l as [|a l IH]; intros H; simpl; [reflexivity|].
  rewrite (H a) by now left. apply IH. intros b Hb. apply H. now right.
Qed.

(** What is left of the columns after the three steps the files share. *)
Lemma drop_duplicates_columns (df : DataFrame) (c : column) :
  In c (columns (drop_duplicates df)) ->
  exists c0, In c0 (columns df) /\ cname c = cname c0
             /\ cdtype c = cdtype c0
             /\ (forall v, In v (cvalues c) -> In v (cvalues c0)).
Proof.
  unfold drop_duplicates. destruct (df_empty df).
  - intros H. exists c. auto.
  - cbn [columns]. intros H. apply in_map_iff in H.
    destruct H as (c0 & <- & Hin). exists c0. cbn.
    repeat split; auto. intros v. apply In_keep.
Qed.

Lemma drop_duplicates_names (df : DataFrame) :
  names (drop_duplicates df) = names df.
Proof.
  unfold drop_duplicates, names. destruct (df_empty df); [reflexivity|].
  cbn [columns]. rewrite map_map. reflexivity.
Qed.

Lemma shared_steps_columns (df : DataFrame) (c : column) :
  Forall plain_column (columns df) ->
  In c (columns (shared_steps df)) ->
  plain_label (cname c)
  /\ (cdtype c = DObject -> forall v, In v (cvalues c) -> trimmed_text v).
Proof.
  intros Hplain H. unfold shared_steps, fillna in H. cbn [columns] in H.
  apply in_map_iff in H. destruct H as (c1 & <- & H1).
  unfold dropna_columns in H1. cbn [columns] in H1.
  apply filter_In in H1. destruct H1 as [H1 _].
  apply drop_duplicates_columns in H1.
  destruct H1 as (c0 & Hin0 & Hn & Hd & Hv).
  rewrite Forall_forall in Hplain. destruct (Hplain c0 Hin0) as [Hl Hcells].
  cbn [cname cdtype cvalues]. split; [now rewrite Hn|].
  intros Hobj v Hin. apply in_map_iff in Hin.
  destruct Hin as (v1 & <- & Hin1). unfold fill_empty.
  destruct (cdtype c0) eqn:Hd0.
  - destruct (Hcells v1 (Hv v1 Hin1)) as [Hna|Ht].
    + rewrite Hna. exists "". now split.
    + destruct Ht as (s & -> & Hs). cbn. exists s. now split.
  - exfalso.
    destruct (existsb isna (cvalues c1)) eqn:E; [|congruence].
    apply existsb_exists in E. destruct E as (x & Hx & Hna).
    rewrite (Hcells x (Hv x Hx)) in Hna. discriminate.
  - exfalso.
    destruct (existsb isna (cvalues c1)) eqn:E; [|congruence].
    apply existsb_exists in E. destruct E as (x & Hx & Hna).
    rewrite (Hcells x (Hv x Hx)) in Hna. discriminate.
  - exfalso.
    destruct (existsb isna (cvalues c1)) eqn:E; [|congruence].
    apply existsb_exists in E. destruct E as (x & Hx & Hna).
    rewrite (Hcells x (Hv x Hx)) in Hna. discriminate.
  - exfalso.
    destruct (existsb isna (cvalues c1)) eqn:E; [|congruence].
    apply existsb_exists in E. destruct E as (x & Hx & Hna).
    rewrite (Hcells x (Hv x Hx)) in Hna. discriminate.
Qed.

Lemma shared_steps_labels (f : string -> string) (df : DataFrame) :
  NoDup (map (fun c => f (cname c)) (columns df)) ->
  NoDup (map (fun c => f (cname c)) (columns (shared_steps df))).
Proof.
  intros H. unfold shared_steps, fillna, dropna_columns. cbn [columns].
  rewrite map_map. cbn [cname].
  apply distinct_labels_filter.
  rewrite <- (map_map cname f). fold (names (drop_duplicates df)).
  rewrite drop_duplicates_names. unfold names. now rewrite map_map.
Qed.

Lemma strip_column_plain (d : DataFrame) (col : string) :
  unique_column d col = true ->
  (forall c, In c (columns d) -> cname c = col ->
             cdtype c = DObject
             /\ forall v, In v (cvalues c) -> trimmed_text v) ->
  strip_column d col = Ok d.
Proof.
  intros Hu Hcol. unfold strip_column. rewrite Hu. f_equal.
  unfold update_column. destruct d as [n cols]. cbn [nrows columns] in *.
  f_equal. apply map_same. intros c Hin.
  destruct (String.eqb (cname c) col) eqn:E; [|reflexivity].
  apply String.eqb_eq in E. destruct (Hcol c Hin E) as [Hd Hv].
  destruct c as [cn cd cv]. cbn in *. subst cd. f_equal.
  apply map_same. intros v Hvin.
  destruct (Hv v Hvin) as (s & -> & Hs). cbn [py_str]. now rewrite Hs.
Qed.

Section TwoFiles.

Context {pandas : Pandas}.
Variable cfg : Config.

(** C9, amended.  The two [clean_and_standardize] agree on the tables on
    which the steps only [preprocess.py] has do nothing: with emoji
    removal off, on every table whose columns are plain and whose cleaned
    labels are distinct they return the same table. *)
Theorem files_agree_on_plain_tables (df : DataFrame) :
  REMOVE_EMOJIS cfg = false ->
  Forall plain_column (columns df) ->
  NoDup (map (fun c => clean_name (cname c)) (columns df)) ->
  clean_and_standardize cfg df = Ok (Preprocess11.clean_and_standardize df).
Proof.
  intros Hrem Hplain Hnd.
  pose proof (shared_steps_columns df) as Hcols.
  pose proof (shared_steps_labels clean_name df Hnd) as Hnd'.
  unfold clean_and_standardize, Preprocess11.clean_and_standardize.
  cbv zeta. rewrite Hrem.
  fold (shared_steps df). set (base := shared_steps df) in *.
  set (d1 := rename_columns clean_name base).
  assert (Hnames : names d1 = map (fun c => clean_name (cname c)) (columns base)).
  { unfold d1, names, rename_columns. cbn [columns]. now rewrite map_map. }
  assert (Hlabel : forall n, In n (names d1) ->
                             exists c, In c (columns base)
                                       /\ n = clean_name (cname c)).
  { intros n Hn. rewrite Hnames in Hn. apply in_map_iff in Hn.
    destruct Hn as (c & <- & Hc). now exists c. }
  assert (Hdates : filter (has_keyword date_keywords) (names d1) = []).
  { apply filter_none. intros n Hn. destruct (Hlabel n Hn) as (c & Hc & ->).
    now destruct (Hcols c Hplain Hc) as [(_ & H & _) _]. }
  rewrite Hdates. cbn [fold_left].
  assert (Hfeat : (if DATE_FEATURES_EXTRACTION cfg then d1 else d1) = d1)
    by (destruct (DATE_FEATURES_EXTRACTION cfg); reflexivity).
  rewrite Hfeat.
  assert (Hmetrics : filter (has_keyword metric_keywords) (names d1) = []).
  { apply filter_none. intros n Hn. destruct (Hlabel n Hn) as (c & Hc & ->).
    now destruct (Hcols c Hplain Hc) as [(_ & _ & _ & H & _) _]. }
  rewrite Hmetrics. cbn [fold_left].
  assert (Hmedia : remap_media_type d1 = Ok d1).
  { unfold remap_media_type.
    destruct (has_column d1 "media_type") eqn:E; [|reflexivity].
    exfalso. unfold has_column in E. apply existsb_exists in E.
    destruct E as (c & Hc & He). apply String.eqb_eq in He.
    assert (Hn : In "media_type" (names d1))
      by (rewrite <- He; unfold names; now apply in_map).
    destruct (Hlabel _ Hn) as (c' & Hc' & E').
    destruct (Hcols c' Hplain Hc') as [(_ & _ & _ & _ & H) _].
    now apply H. }
  rewrite Hmedia. cbn [bind].
  assert (Hstrip : for_each (object_columns d1) strip_column d1 = Ok d1).
  { apply for_each_same. intros col Hcol.
    unfold object_columns in Hcol. apply in_map_iff in Hcol.
    destruct Hcol as (c' & <- & Hc'). apply filter_In in Hc'.
    destruct Hc' as [Hin' Hobj'].
    assert (Hndn : NoDup (names d1)) by now rewrite Hnames.
    destruct (series_of_label d1 (cname c') Hndn) as [s Hs].
    { unfold names. now apply in_map. }
    apply series_ok in Hs. destruct Hs as [Hg Hu].
    apply strip_column_plain; [exact Hu|].
    intros c Hin Hn.
    assert (c = s) by (eapply unique_column_is; eauto).
    assert (c' = s) by (eapply unique_column_is; eauto).
    subst c c'.
    assert (Hd : cdtype s = DObject)
      by (destruct (cdtype s); try discriminate; reflexivity).
    split; [exact Hd|].
    unfold d1, rename_columns in Hin. cbn [columns] in Hin.
    apply in_map_iff in Hin. destruct Hin as (c0 & <- & Hc0).
    cbn [cdtype cvalues] in *.
    now apply (Hcols c0 Hplain Hc0). }
  rewrite Hstrip. f_equal.
  rewrite fold_left_same.
  - unfold d1, rename_columns. f_equal. apply map_ext_in.
    intros c Hc. destruct (Hcols c Hplain Hc) as [(H & _) _].
    now rewrite H.
  - intros n Hn. unfold Preprocess11.parse_date.
    unfold names in Hn. apply in_map_iff in Hn.
    destruct Hn as (c & <- & Hc).
    destruct (Hcols c Hplain Hc) as [(_ & _ & H & _) _].
    now rewrite H.
Qed.

End TwoFiles.

Lemma files_agree_on_plain_tables_witness :
  clean_and_standardize config plain_table
  = Ok (Preprocess11.clean_and_standardize plain_table).
Proof.
  apply (files_agree_on_plain_tables config plain_table).
  - reflexivity.
  - apply Forall_cons; [|apply Forall_cons; [|apply Forall_nil]].
    + split.
      * repeat split; try reflexivity. discriminate.
      * intros x [<-|[<-|[]]]; [right; exists "x"; now split | now left].
    + split.
      * repeat split; try reflexivity. discriminate.
      * intros x [<-|[<-|[]]]; reflexivity.
  - repeat constructor; simpl; intuition discriminate.
Defined.

(** ** The text of a digest *)

Lemma all_chars_app (p : ascii -> bool) (a b : string) :
  all_chars p (a ++ b) = all_chars p a && all_chars p b.
Proof.
  induction a as [|c a IH]; simpl; [reflexivity|].
  now rewrite IH, andb_assoc.
Qed.

Lemma all_chars_concat (p : ascii -> bool) (l : list string) :
  Forall (fun s => all_chars p s = true) l ->
  all_chars p (String.concat "" l) = true.
Proof.
  induction 1 as [|s l Hs _ IH]; [reflexivity|].
  destruct l as [|t l]; [exact Hs|].
  change (String.concat "" (s :: t :: l))
    with (s ++ "" ++ String.concat "" (t :: l)).
  rewrite all_chars_app, Hs. exact IH.
Qed.

Lemma le_bytes_are_bytes (n : nat) :
  forall x, Forall (fun b => 0 <= b < 256) (MD5.le_bytes n x).
Proof.
  induction n as [|n IH]; intros x; simpl; constructor.
  - apply Z.mod_pos_bound. lia.
  - apply IH.
Qed.

Lemma hex_digit_is_hex (n : Z) :
  0 <= n < 16 -> hex_char (PyStr.hex_digit n) = true.
Proof.
  intros H.
  assert (Hall : forallb (fun k => hex_char (PyStr.hex_digit (Z.of_nat k)))
                         (seq 0 16) = true) by reflexivity.
  rewrite forallb_forall in Hall.
  rewrite <- (Z2Nat.id n) by lia. apply Hall. apply in_seq. lia.
Qed.

Lemma hex_byte_is_hex (b : Z) :
  0 <= b < 256 -> all_chars hex_char (PyStr.hex_byte b) = true.
Proof.
  intros H. unfold PyStr.hex_byte. cbn [all_chars].
  rewrite !hex_digit_is_hex; [reflexivity| |].
  - apply Z.mod_pos_bound. lia.
  - split; [apply Z.div_pos; lia | apply Z.div_lt_upper_bound; lia].
Qed.

Lemma hexdigest_is_hex (s : string) :
  all_chars hex_char (MD5.hexdigest s) = true.
Proof.
  unfold MD5.hexdigest. apply all_chars_concat.
  apply Forall_map. unfold MD5.digest.
  eapply Forall_impl; [intros b; apply hex_byte_is_hex|].
  repeat (apply Forall_app; split); apply le_bytes_are_bytes.
Qed.

Lemma hex_char_is_plain (c : ascii) :
  hex_char c = true ->
  PyStr.isspace c = false
  /\ ((PyStr.code c <=? 31) || (PyStr.code c =? 127)) = false.
Proof.
  destruct c as [[|] [|] [|] [|] [|] [|] [|] [|]];
    vm_compute; intros H; (discriminate H || (split; reflexivity)).
Qed.

Lemma strip_hex (s : string) :
  all_chars hex_char s = true -> PyStr.strip s = s.
Proof.
  intros H. unfold PyStr.strip.
  assert (Hl : PyStr.lstrip s = s).
  { destruct s as [|c r]; [reflexivity|]. simpl in *.
    apply andb_true_iff in H. destruct H as [Hc _].
    now rewrite (proj1 (hex_char_is_plain c Hc)). }
  rewrite Hl. clear Hl.
  induction s as [|c r IH]; [reflexivity|]. simpl in *.
  apply andb_true_iff in H. destruct H as [Hc Hr].
  rewrite (IH Hr). destruct r; [|reflexivity].
  now rewrite (proj1 (hex_char_is_plain c Hc)).
Qed.

Lemma remove_controls_hex (s : string) :
  all_chars hex_char s = true -> remove_controls s = s.
Proof.
  induction s as [|c r IH]; [reflexivity|]. simpl. intros H.
  apply andb_true_iff in H. destruct H as [Hc Hr].
  rewrite (proj2 (hex_char_is_plain c Hc)). now rewrite IH.
Qed.

(** ** The generated column through the cleanup *)

Lemma digest_cell_text (raw : DataFrame) (v : value) :
  digest_cell raw v ->
  isna v = false
  /\ fill_empty v = v
  /\ remove_emojis_and_specials v = v
  /\ VStr (PyStr.strip (py_str v)) = v.
Proof.
  intros (row & _ & ->).
  pose proof (hexdigest_is_hex (key_str row)) as Hh.
  generalize dependent (MD5.hexdigest (key_str row)). intros h Hh.
  split; [reflexivity|]. split; [reflexivity|]. split.
  - cbn [remove_emojis_and_specials].
    now rewrite (remove_controls_hex _ Hh), (strip_hex _ Hh).
  - cbn [py_str]. now rewrite (strip_hex _ Hh).
Qed.

Lemma names_update_column (df : DataFrame) (col : string)
      (f : column -> dtype * list value) :
  names (update_column df col f) = names df.
Proof.
  unfold names, update_column. cbn [columns]. rewrite map_map.
  apply map_ext. intros c. now destruct (String.eqb (cname c) col).
Qed.

Lemma unique_column_by_names (df df' : DataFrame) (col : string) :
  names df' = names df -> unique_column df' col = unique_column df col.
Proof.
  intros H. unfold unique_column, count_name.
  assert (E : forall l,
             List.length (filter (fun c => String.eqb (cname c) col) l)
             = List.length (filter (fun n => String.eqb n col) (map cname l))).
  { induction l as [|c l IH]; simpl; [reflexivity|].
    destruct (String.eqb (cname c) col); simpl; now rewrite IH. }
  rewrite !E. unfold names in H. now rewrite H.
Qed.

Section Carried.

Variable raw : DataFrame.

(** Rebuilding the columns of a label keeps the generated column when the
    label is another one, or when the rebuilding keeps digests. *)
Lemma carries_update (df : DataFrame) (col : string)
      (f : column -> dtype * list value) :
  col <> "unique_id"
  \/ (forall c, digest_column raw c ->
                fst (f c) = DObject
                /\ forall v, In v (snd (f c)) -> digest_cell raw v) ->
  carries_ids raw df -> carries_ids raw (update_column df col f).
Proof.
  intros Hor (c & Hin & Hn & Hd).
  unfold update_column, carries_ids. cbn [columns].
  destruct (String.eqb (cname c) col) eqn:E.
  - exists (mk_column (cname c) (fst (f c)) (snd (f c))).
    split; [|split; [exact Hn|]].
    + apply in_map_iff. exists c. now rewrite E.
    + apply String.eqb_eq in E. destruct Hor as [Hne|Hf]; [congruence|].
      exact (Hf c Hd).
  - exists c. split; [|now split].
    apply in_map_iff. exists c. now rewrite E.
Qed.

Lemma carries_set_column (df : DataFrame) (name : string) (dt : dtype)
      (vs : list value) :
  name <> "unique_id" ->
  carries_ids raw df -> carries_ids raw (set_column df name dt vs).
Proof.
  intros Hne Hc. unfold set_column. destruct (has_column df name).
  - apply carries_update; [now left | exact Hc].
  - destruct Hc as (c & Hin & Hn & Hd). exists c. cbn [columns].
    split; [apply in_or_app; now left | now split].
Qed.

Lemma carries_fold {A} (step : DataFrame -> A -> DataFrame) (l : list A) :
  (forall df a, In a l -> carries_ids raw df -> carries_ids raw (step df a)) ->
  forall df, carries_ids raw df -> carries_ids raw (fold_left step l df).
Proof.
  induction l as [|a l IH]; intros Hstep df Hc; simpl; [exact Hc|].
  apply IH.
  - intros d b Hb. apply Hstep. now right.
  - apply Hstep; [now left | exact Hc].
Qed.

Lemma suffix_not_unique_id (col suffix : string) :
  match PyStr.rev suffix with
  | String x _ => negb (Ascii.eqb x "d")
  | EmptyString => false
  end = true ->
  col ++ suffix <> "unique_id".
Proof.
  intros Hs E. apply (f_equal PyStr.rev) in E. rewrite rev_app in E.
  destruct (PyStr.rev suffix) as [|x r]; [discriminate Hs|].
  cbn in E. injection E as -> _. discriminate Hs.
Qed.

Context {pandas : Pandas}.
Variable cfg : Config.

Lemma carries_strip_emojis (df : DataFrame) (c : string) :
  carries_ids raw df -> carries_ids raw (strip_emojis df c).
Proof.
  intros H. unfold strip_emojis. destruct (unique_column df c); [|exact H].
  apply carries_update; [|exact H]. right.
  intros s [Hd Hv]. cbn [fst snd]. split; [reflexivity|].
  intros v Hin. apply in_map_iff in Hin. destruct Hin as (v0 & <- & Hin0).
  destruct (digest_cell_text raw v0 (Hv v0 Hin0)) as (_ & _ & -> & _).
  now apply Hv.
Qed.

Lemma carries_parse_date (df : DataFrame) (col : string) :
  has_keyword date_keywords col = true ->
  carries_ids raw df -> carries_ids raw (parse_date df col).
Proof.
  intros Hk H. unfold parse_date.
  destruct (unique_column df col); [|exact H].
  destruct (get_column df col) as [s|]; [|exact H].
  destruct (to_datetime_utc (cdtype s) (cvalues s)); [|exact H].
  apply carries_update; [|exact H]. left. intros ->. discriminate Hk.
Qed.

Lemma carries_date_features (df : DataFrame) (col : string) :
  carries_ids raw df -> carries_ids raw (date_features df col).
Proof.
  intros H. unfold date_features.
  destruct (unique_column df col); [|exact H].
  destruct (get_column df col) as [s|]; [|exact H].
  destruct (dtype_eqb (cdtype s) DDatetime); [|exact H].
  unfold set_date_part.
  repeat (apply carries_set_column;
          [apply suffix_not_unique_id; reflexivity|]).
  exact H.
Qed.

Lemma carries_coerce_metric (df : DataFrame) (col : string) :
  has_keyword metric_keywords col = true ->
  carries_ids raw df -> carries_ids raw (coerce_metric df col).
Proof.
  intros Hk H. unfold coerce_metric.
  destruct (unique_column df col); [|exact H].
  destruct (get_column df col) as [s|]; [|exact H].
  destruct (to_numeric_int (cdtype s) (cvalues s)); [|exact H].
  apply carries_update; [|exact H]. left. intros ->. discriminate Hk.
Qed.

Lemma carries_remap_media_type (df df' : DataFrame) :
  remap_media_type df = Ok df' ->
  carries_ids raw df -> carries_ids raw df'.
Proof.
  unfold remap_media_type. destruct (has_column df "media_type").
  - destruct (unique_column df "media_type"); [|discriminate].
    intros E H. injection E as <-.
    apply carries_update; [left; discriminate | exact H].
  - intros E H. now injection E as <-.
Qed.

(** The trimming loop keeps the labels and the generated column, and
    returns only if each label it visits is carried by one column. *)
Lemma strip_loop (cols : list string) :
  forall df df',
    for_each cols strip_column df = Ok df' ->
    names df' = names df
    /\ (carries_ids raw df -> carries_ids raw df')
    /\ forall col, In col cols -> unique_column df col = true.
Proof.
  induction cols as [|col cols IH]; intros df df'; simpl.
  - intros E. injection E as <-. split; [reflexivity|]. split; [auto|].
    intros col [].
  - unfold strip_column at 1.
    destruct (unique_column df col) eqn:Hu; cbn [bind]; [|discriminate].
    intros E. apply IH in E. destruct E as (Hn & Hc & Hall).
    rewrite names_update_column in Hn. split; [exact Hn|]. split.
    + intros H. apply Hc. apply carries_update; [|exact H]. right.
      intros s [Hd Hv]. cbn [fst snd]. split; [reflexivity|].
      intros v Hin. apply in_map_iff in Hin.
      destruct Hin as (v0 & <- & Hin0).
      destruct (digest_cell_text raw v0 (Hv v0 Hin0)) as (_ & _ & _ & ->).
      now apply Hv.
    + intros c [<-|Hin]; [exact Hu|].
      rewrite <- (Hall c Hin). symmetry.
      apply unique_column_by_names. apply names_update_column.
Qed.

Lemma carries_ids_series (df : DataFrame) :
  carries_ids raw df -> unique_column df "unique_id" = true ->
  exists c, series df "unique_id" = Ok c /\ digest_column raw c.
Proof.
  intros (c & Hin & Hn & Hd) Hu. exists c. split; [|exact Hd].
  unfold series. destruct (get_column df "unique_id") as [s|] eqn:Hg.
  - rewrite Hu. f_equal. symmetry. eapply unique_column_is; eauto.
  - exfalso. unfold get_column in Hg.
    apply (find_none _ _ Hg) in Hin. rewrite Hn in Hin. discriminate Hin.
Qed.

(** After the steps that both files share the generated column is still
    there, provided the table has a row. *)
Lemma carries_shared_steps (df : DataFrame) :
  df_empty df = false ->
  (exists c, In c (columns df) /\ cname c = "unique_id"
             /\ digest_column raw c
             /\ List.length (cvalues c) = nrows df) ->
  carries_ids raw (shared_steps df).
Proof.
  intros Hne (c & Hin & Hn & [Hd Hv] & Hlen).
  unfold shared_steps, fillna, dropna_columns, drop_duplicates.
  rewrite Hne. cbn [columns nrows].
  unfold df_empty in Hne. apply orb_false_iff in Hne. destruct Hne as [Hrows _].
  apply Nat.eqb_neq in Hrows.
  set (mask := first_occurrences
                 match columns df with
                 | [_] => same_only_row
                 | _ => same_row
                 end [] (map (row_cells (columns df)) (seq 0 (nrows df)))).
  set (c1 := mk_column (cname c) (cdtype c) (keep mask (cvalues c))).
  assert (Hkept : forall v, In v (cvalues c1) -> digest_cell raw v).
  { intros v Hvin. apply Hv. now apply In_keep in Hvin. }
  assert (Hsome : cvalues c1 <> []).
  { unfold c1, mask. cbn [cvalues].
    destruct (nrows df) as [|n]; [contradiction|].
    destruct (cvalues c) as [|v vs]; [discriminate Hlen|].
    cbn. discriminate. }
  assert (Hin1 : In c1 (map (fun c => mk_column (cname c) (cdtype c)
                                                (keep mask (cvalues c)))
                            (columns df)))
    by (apply in_map_iff; exists c; now split).
  assert (Hn1 : cname c1 = "unique_id") by exact Hn.
  assert (Hd1 : cdtype c1 = DObject) by exact Hd.
  clearbody c1.
  destruct (cvalues c1) as [|v0 vs0] eqn:E; [contradiction|].
  assert (Hna : existsb isna (cvalues c1) = false).
  { destruct (existsb isna (cvalues c1)) eqn:Ex; [|reflexivity].
    apply existsb_exists in Ex. destruct Ex as (x & Hx & Hxna).
    rewrite E in Hx.
    destruct (digest_cell_text raw x (Hkept x Hx)) as (Hno & _). congruence. }
  exists (mk_column (cname c1)
                    (if existsb isna (cvalues c1) then DObject else cdtype c1)
                    (map fill_empty (cvalues c1))).
  split; [|split; [exact Hn1|split]].
  - apply in_map_iff. exists c1. split; [reflexivity|].
    apply filter_In. split; [exact Hin1|].
    cbn beta. apply negb_true_iff. rewrite E. cbn [forallb].
    destruct (digest_cell_text raw v0 (Hkept v0 (or_introl eq_refl)))
      as (-> & _).
    reflexivity.
  - cbn [cdtype]. now rewrite Hna.
  - cbn [cvalues]. intros v Hvin. apply in_map_iff in Hvin.
    destruct Hvin as (x & <- & Hx). rewrite E in Hx.
    destruct (digest_cell_text raw x (Hkept x Hx)) as (_ & -> & _).
    now apply Hkept.
Qed.

Lemma carries_rename (df : DataFrame) :
  carries_ids raw df -> carries_ids raw (rename_columns clean_name df).
Proof.
  intros (c & Hin & Hn & Hd).
  exists (mk_column (clean_name (cname c)) (cdtype c) (cvalues c)).
  split; [|split].
  - unfold rename_columns. cbn [columns]. apply in_map_iff. now exists c.
  - cbn [cname]. now rewrite Hn.
  - exact Hd.
Qed.

(** When the cleanup returns, the table it returns has the generated
    column, carried by one column only. *)
Lemma clean_keeps_ids (df cleaned : DataFrame) :
  carries_ids raw (shared_steps df) ->
  clean_and_standardize cfg df = Ok cleaned ->
  exists c, series cleaned "unique_id" = Ok c /\ digest_column raw c.
Proof.
  intros Hbase. unfold clean_and_standardize. cbv zeta.
  fold (shared_steps df).
  set (d1 := rename_columns clean_name (shared_steps df)).
  assert (H1 : carries_ids raw d1) by now apply carries_rename.
  set (d2 := if REMOVE_EMOJIS cfg
             then fold_left strip_emojis (object_columns d1) d1 else d1).
  assert (H2 : carries_ids raw d2).
  { unfold d2. destruct (REMOVE_EMOJIS cfg); [|exact H1].
    apply carries_fold; [|exact H1].
    intros d a _. apply carries_strip_emojis. }
  set (date_cols := filter (has_keyword date_keywords) (names d2)).
  set (d3 := fold_left parse_date date_cols d2).
  assert (H3 : carries_ids raw d3).
  { apply carries_fold; [|exact H2].
    intros d a Ha. apply carries_parse_date.
    now apply filter_In in Ha. }
  set (d4 := if DATE_FEATURES_EXTRACTION cfg
             then fold_left date_features date_cols d3 else d3).
  assert (H4 : carries_ids raw d4).
  { unfold d4. destruct (DATE_FEATURES_EXTRACTION cfg); [|exact H3].
    apply carries_fold; [|exact H3].
    intros d a _. apply carries_date_features. }
  set (d5 := fold_left coerce_metric
                       (filter (has_keyword metric_keywords) (names d4)) d4).
  assert (H5 : carries_ids raw d5).
  { apply carries_fold; [|exact H4].
    intros d a Ha. apply carries_coerce_metric.
    now apply filter_In in Ha. }
  destruct (remap_media_type d5) as [d6|e] eqn:Hmedia; cbn [bind];
    [|discriminate].
  pose proof (carries_remap_media_type _ _ Hmedia H5) as H6.
  intros Hloop. apply strip_loop in Hloop.
  destruct Hloop as (Hnames & Hcarry & Hunique).
  apply carries_ids_series; [now apply Hcarry|].
  rewrite (unique_column_by_names d6 cleaned "unique_id" Hnames).
  apply Hunique. destruct H6 as (c & Hin & Hn & [Hd _]).
  unfold object_columns. apply in_map_iff. exists c. split; [exact Hn|].
  apply filter_In. split; [exact Hin|]. now rewrite Hd.
Qed.

End Carried.

(** ** Identifiers are assigned before the cleanup *)

Section Identifiers.

Context {pandas : Pandas}.
Variable cfg : Config.

Lemma no_id_column_no_unique_id (df : DataFrame) :
  filter (PyStr.endswith "_id") (names df) = [] ->
  has_column df "unique_id" = false.
Proof.
  intros Hf. unfold has_column.
  destruct (existsb (fun c => String.eqb (cname c) "unique_id") (columns df))
    eqn:E; [|reflexivity].
  apply existsb_exists in E. destruct E as (c & Hin & Hc).
  apply String.eqb_eq in Hc.
  assert (H : In "unique_id" (filter (PyStr.endswith "_id") (names df))).
  { apply filter_In. split; [|reflexivity].
    rewrite <- Hc. unfold names. now apply in_map. }
  now rewrite Hf in H.
Qed.

Lemma with_unique_ids_carries (raw : DataFrame) :
  df_empty raw = false ->
  carries_ids raw (shared_steps (with_unique_ids raw)).
Proof.
  intros Hne. unfold df_empty in Hne. apply orb_false_iff in Hne.
  destruct Hne as [Hrows _].
  apply carries_shared_steps.
  - unfold df_empty, with_unique_ids. cbn [nrows columns]. rewrite Hrows.
    now destruct (columns raw).
  - eexists. split; [|split; [|split; [split|]]].
    + unfold with_unique_ids. cbn [columns]. apply in_or_app. right.
      now left.
    + reflexivity.
    + reflexivity.
    + cbn [cvalues]. intros v Hin. apply in_map_iff in Hin.
      destruct Hin as (row & <- & Hrow). now exists row.
    + cbn [cvalues nrows with_unique_ids]. unfold iterrows.
      now rewrite !length_map, length_seq.
Qed.

(** C3, amended.  Identifiers are assigned first, on the table as it is
    built from the records: when no label ends with ["_id"], each row of
    that table, duplicates included, gets the digest of all its cells,
    those of the columns the cleanup later drops as well, in a new last
    column; only then does [clean_and_standardize] remove duplicate rows
    and empty columns, and the extraction uses [unique_id] as key.  So
    whenever the file yields tables, the main table has one column
    [unique_id], and each of its cells is the digest of a whole row of the
    table built from the records. *)
Theorem identifiers_precede_cleanup (filename : string)
        (records : list (pydict value)) :
  GENERATE_UNIQUE_IDS cfg = true ->
  records <> [] ->
  df_empty (DataFrame_of_records records) = false ->
  filter (PyStr.endswith "_id") (names (DataFrame_of_records records)) = [] ->
  assign_ids cfg (DataFrame_of_records records)
  = (with_unique_ids (DataFrame_of_records records), ["unique_id"])
  /\ List.length (iterrows (DataFrame_of_records records))
     = List.length records
  /\ (forall row, In row (iterrows (DataFrame_of_records records)) ->
                  map fst row = names (DataFrame_of_records records))
  /\ process_records cfg filename records
     = match clean_and_standardize
               cfg (with_unique_ids (DataFrame_of_records records)) with
       | Raise e => Failed e
       | Ok cleaned =>
           match extract_one_to_many_tables
                   cleaned (splitext_root filename) "unique_id" with
           | (main, Ok aux_tables) => Tables main aux_tables
           | (_, Raise e) => Failed e
           end
       end
  /\ forall main aux_tables,
      process_records cfg filename records = Tables main aux_tables ->
      exists c, series main "unique_id" = Ok c
                /\ forall v, In v (cvalues c) ->
                             digest_cell (DataFrame_of_records records) v.
Proof.
  intros Hgen Hne Hnonempty Hnoid.
  set (raw := DataFrame_of_records records) in *.
  assert (Hassign : assign_ids cfg raw = (with_unique_ids raw, ["unique_id"])).
  { unfold assign_ids. rewrite Hnoid, Hgen. unfold set_column.
    rewrite (no_id_column_no_unique_id _ Hnoid).
    unfold with_unique_ids, create_unique_id, key_str. reflexivity. }
  assert (Hrun : process_records cfg filename records
                 = match clean_and_standardize cfg (with_unique_ids raw) with
                   | Raise e => Failed e
                   | Ok cleaned =>
                       match extract_one_to_many_tables
                               cleaned (splitext_root filename)
                               "unique_id" with
                       | (main, Ok aux_tables) => Tables main aux_tables
                       | (_, Raise e) => Failed e
                       end
                   end).
  { unfold process_records. destruct records as [|r0 rs]; [contradiction|].
    fold raw. rewrite Hnonempty, Hassign. reflexivity. }
  split; [exact Hassign|]. split; [|split; [|split; [exact Hrun|]]].
  - unfold iterrows. rewrite length_map, length_seq. reflexivity.
  - intros row Hin. unfold iterrows in Hin. apply in_map_iff in Hin.
    destruct Hin as (i & <- & _). rewrite map_map. reflexivity.
  - intros main aux_tables Hout. rewrite Hrun in Hout.
    destruct (clean_and_standardize cfg (with_unique_ids raw))
      as [cleaned|e] eqn:Hclean; [|discriminate].
    destruct (clean_keeps_ids raw cfg (with_unique_ids raw) cleaned
                              (with_unique_ids_carries raw Hnonempty) Hclean)
      as (c & Hs & _ & Hcells).
    exists c. split; [|exact Hcells].
    pose proof (extract_loop_frame (splitext_root filename) "unique_id"
                                   (names cleaned) cleaned []) as [_ Hframe].
    unfold extract_one_to_many_tables in Hout.
    destruct (extract_loop (splitext_root filename) "unique_id"
                           (names cleaned) cleaned [])
      as [df' [aux|e]]; [|discriminate].
    injection Hout as -> _. cbn [fst] in Hframe.
    exact (series_after _ _ _ _ _ _ Hframe Hs (or_intror eq_refl)).
Qed.

End Identifiers.

Lemma identifiers_precede_cleanup_witness :
  assign_ids config (DataFrame_of_records null_field_records)
  = (with_unique_ids (DataFrame_of_records null_field_records), ["unique_id"])
  /\ List.length (iterrows (DataFrame_of_records null_field_records))
     = List.length null_field_records
  /\ (forall row, In row (iterrows (DataFrame_of_records null_field_records)) ->
                  map fst row = names (DataFrame_of_records null_field_records))
  /\ process_records config "f.json" null_field_records
     = match clean_and_standardize
               config
               (with_unique_ids (DataFrame_of_records null_field_records)) with
       | Raise e => Failed e
       | Ok cleaned =>
           match extract_one_to_many_tables
                   cleaned (splitext_root "f.json") "unique_id" with
           | (main, Ok aux_tables) => Tables main aux_tables
           | (_, Raise e) => Failed e
           end
       end
  /\ forall main aux_tables,
      process_records config "f.json" null_field_records
      = Tables main aux_tables ->
      exists c, series main "unique_id" = Ok c
                /\ forall v, In v (cvalues c) ->
                             digest_cell
                               (DataFrame_of_records null_field_records) v.
Proof.
  apply (identifiers_precede_cleanup config "f.json" null_field_records).
  - reflexivity.
  - discriminate.
  - reflexivity.
  - reflexivity.
Defined.

(** * Further properties of the code *)

(** ** Induction over documents *)

Lemma json_nested_ind (P : json -> Prop) :
  P JNull -> (forall b, P (JBool b)) -> (forall z, P (JNum z)) ->
  (forall s, P (JStr s)) ->
  (forall l, Forall P l -> P (JArr l)) ->
  (forall kvs, Forall (fun kv => P (snd kv)) kvs -> P (JObj kvs)) ->
  forall x, P x.
Proof.
  intros Hnull Hbool Hnum Hstr Harr Hobj. fix IH 1. intros x.
  destruct x as [|b|z|s|l|kvs];
    [apply Hnull | apply Hbool | apply Hnum | apply Hstr | |].
  - apply Harr. induction l as [|a l IHl]; constructor; [apply IH | exact IHl].
  - apply Hobj. induction kvs as [|kv kvs IHl]; constructor;
      [apply IH | exact IHl].
Qed.

Lemma flatten_array (sep : string) (l : list json) (name : string)
      (out : pydict value) :
  forallb is_dict l = true ->
  flatten sep (JArr l) name out = flatten_each sep name l O out.
Proof.
  intros H. cbn [flatten]. rewrite H. generalize O. revert out.
  induction l as [|a l IH]; intros out n; [reflexivity|].
  cbn [flatten_each]. cbn [forallb] in H. apply andb_true_iff in H.
  now rewrite <- (IH (proj2 H)).
Qed.

Lemma flatten_each_app (sep name : string) (l1 l2 : list json) :
  forall idx out,
    flatten_each sep name (l1 ++ l2) idx out
    = flatten_each sep name l2 (idx + List.length l1)
                   (flatten_each sep name l1 idx out).
Proof.
  induction l1 as [|a l1 IH]; intros idx out; cbn [flatten_each app length].
  - now rewrite Nat.add_0_r.
  - rewrite IH. now rewrite Nat.add_succ_comm.
Qed.

(** Whatever [flatten] does to the dictionary is made of assignments. *)
Lemma flatten_by_assignments (R : pydict value -> pydict value -> Prop) :
  (forall d, R d d) ->
  (forall a b c, R a b -> R b c -> R a c) ->
  (forall d k v, R d (dict_set d k v)) ->
  forall sep x name out, R out (flatten sep x name out).
Proof.
  intros Hrefl Htrans Hset sep x.
  induction x as [|b|z|s|l IH|kvs IH] using json_nested_ind;
    intros name out; try apply Hset.
  - destruct (forallb is_dict l) eqn:E.
    + rewrite flatten_array by assumption. clear E. generalize O.
      revert out.
      induction IH as [|a l Ha _ IHl]; intros out n; cbn [flatten_each];
        [apply Hrefl|].
      eapply Htrans; [apply Ha | apply IHl].
    + cbn [flatten]. rewrite E. apply Hset.
  - rewrite flatten_object. revert out.
    induction IH as [|kv kvs Hkv _ IHl]; intros out; cbn [fold_left];
      [apply Hrefl|].
    eapply Htrans; [apply Hkv | apply IHl].
Qed.

Lemma dict_set_keys {A} (d : pydict A) (k : string) (v : A) :
  dict_keys (dict_set d k v)
  = if existsb (String.eqb k) (dict_keys d) then dict_keys d
    else (dict_keys d ++ [k])%list.
Proof.
  induction d as [|[k' v'] d IH]; simpl; [reflexivity|].
  rewrite (String.eqb_sym k k').
  destruct (String.eqb k' k) eqn:E; simpl; [reflexivity|].
  rewrite IH. now destruct (existsb (String.eqb k) (dict_keys d)).
Qed.

(** X1.  Flattening into a dictionary keeps what is there: the keys it
    had stay, in their order, new keys come after them, and no key
    appears twice. *)
Theorem flatten_keeps_keys (sep : string) (x : json) (name : string)
        (out : pydict value) :
  NoDup (dict_keys out) ->
  NoDup (dict_keys (flatten sep x name out))
  /\ exists added,
      dict_keys (flatten sep x name out) = (dict_keys out ++ added)%list.
Proof.
  apply (flatten_by_assignments
           (fun a b => NoDup (dict_keys a) ->
                       NoDup (dict_keys b)
                       /\ exists added,
                           dict_keys b = (dict_keys a ++ added)%list)).
  - intros d H. split; [exact H|]. exists []. now rewrite app_nil_r.
  - intros a b c Hab Hbc Ha. destruct (Hab Ha) as (Hb & l1 & E1).
    destruct (Hbc Hb) as (Hc & l2 & E2). split; [exact Hc|].
    exists (l1 ++ l2)%list. now rewrite E2, E1, app_assoc.
  - intros d k v Hd. rewrite dict_set_keys.
    destruct (existsb (String.eqb k) (dict_keys d)) eqn:E.
    + split; [exact Hd|]. exists []. now rewrite app_nil_r.
    + split; [|now exists [k]].
      apply NoDup_app; [exact Hd | repeat constructor; intros [] |].
      intros y Hy [<-|[]].
      assert (existsb (String.eqb k) (dict_keys d) = true)
        by (apply existsb_exists; exists k; split;
            [exact Hy | apply String.eqb_refl]).
      congruence.
Qed.

Lemma flatten_keeps_keys_witness :
  NoDup (dict_keys (flatten "_" (JObj [("b", JNum 2); ("a", JNum 3)]) "x_"
                            [("x_a", VInt 1)]))
  /\ exists added,
      dict_keys (flatten "_" (JObj [("b", JNum 2); ("a", JNum 3)]) "x_"
                         [("x_a", VInt 1)])
      = (dict_keys [("x_a", VInt 1)] ++ added)%list.
Proof.
  apply (flatten_keeps_keys "_" (JObj [("b", JNum 2); ("a", JNum 3)]) "x_"
                            [("x_a", VInt 1)]).
  repeat constructor. intros [].
Defined.

(** ** Documents without values *)

Lemma none_passes {A} (p : A -> bool) (l : list A) :
  existsb p l = false -> forall x, In x l -> p x = false.
Proof.
  intros H x Hx. destruct (p x) eqn:E; [|reflexivity].
  assert (existsb p l = true) by (apply existsb_exists; now exists x).
  congruence.
Qed.

Lemma flatten_without_leaf (sep : string) (x : json) :
  has_leaf x = false -> forall name out, flatten sep x name out = out.
Proof.
  induction x as [|b|z|s|l IH|kvs IH] using json_nested_ind;
    try discriminate; cbn [has_leaf]; intros H name out.
  - destruct (forallb is_dict l) eqn:E; [|discriminate].
    rewrite flatten_array by assumption.
    pose proof (none_passes _ _ H) as Hl. clear H E.
    generalize O. revert out.
    induction IH as [|a l Ha _ IHl]; intros out n; cbn [flatten_each];
      [reflexivity|].
    rewrite Ha by (apply Hl; now left).
    apply IHl. intros y Hy. apply Hl. now right.
  - rewrite flatten_object. pose proof (none_passes _ _ H) as Hl. clear H.
    revert out.
    induction IH as [|kv kvs Hkv _ IHl]; intros out; cbn [fold_left];
      [reflexivity|].
    rewrite Hkv by (apply (Hl kv); now left).
    apply IHl. intros y Hy. apply Hl. now right.
Qed.

Lemma flatten_stays_filled (sep : string) (x : json) (name : string)
      (out : pydict value) :
  out <> [] -> flatten sep x name out <> [].
Proof.
  apply (flatten_by_assignments (fun a b => a <> [] -> b <> [])); auto.
  intros d k v _. destruct d as [|[k' v'] d]; simpl; [discriminate|].
  destruct (String.eqb k' k); discriminate.
Qed.

Lemma dict_set_filled {A} (d : pydict A) (k : string) (v : A) :
  dict_set d k v <> [].
Proof.
  destruct d as [|[k' v'] d]; simpl; [discriminate|].
  destruct (String.eqb k' k); discriminate.
Qed.

Lemma flatten_with_leaf (sep : string) (x : json) :
  has_leaf x = true -> forall name out, flatten sep x name out <> [].
Proof.
  induction x as [|b|z|s|l IH|kvs IH] using json_nested_ind;
    cbn [has_leaf]; intros H name out; try apply dict_set_filled.
  - destruct (forallb is_dict l) eqn:E.
    + rewrite flatten_array by assumption.
      apply existsb_exists in H. destruct H as (a & Hin & Ha).
      apply in_split in Hin. destruct Hin as (l1 & l2 & ->).
      rewrite flatten_each_app. cbn [flatten_each].
      rewrite Forall_forall in IH.
      assert (Hfill : flatten sep a
                        (name ++ PyStr.of_nat (0 + List.length l1) ++ sep)
                        (flatten_each sep name l1 0 out) <> []).
      { apply IH; [|exact Ha]. apply in_or_app. right. now left. }
      clear IH E. revert Hfill.
      generalize (flatten sep a
                          (name ++ PyStr.of_nat (0 + List.length l1) ++ sep)
                          (flatten_each sep name l1 0 out)).
      generalize (S (0 + List.length l1)).
      induction l2 as [|b2 l2 IHl]; intros n d Hd; cbn [flatten_each];
        [exact Hd|].
      apply IHl. now apply flatten_stays_filled.
    + cbn [flatten]. rewrite E. apply dict_set_filled.
  - rewrite flatten_object.
    apply existsb_exists in H. destruct H as (kv & Hin & Hkv).
    apply in_split in Hin. destruct Hin as (l1 & l2 & ->).
    rewrite fold_left_app. cbn [fold_left].
    rewrite Forall_forall in IH.
    assert (Hfill : flatten sep (snd kv) (name ++ fst kv ++ sep)
                      (fold_left
                         (fun out kv0 =>
                            flatten sep (snd kv0) (name ++ fst kv0 ++ sep) out)
                         l1 out) <> []).
    { apply IH; [|exact Hkv]. apply in_or_app. right. now left. }
    clear IH. revert Hfill.
    generalize (flatten sep (snd kv) (name ++ fst kv ++ sep)
                  (fold_left
                     (fun out kv0 =>
                        flatten sep (snd kv0) (name ++ fst kv0 ++ sep) out)
                     l1 out)).
    induction l2 as [|b2 l2 IHl]; intros d Hd; cbn [fold_left]; [exact Hd|].
    apply IHl. now apply flatten_stays_filled.
Qed.

(** X2.  A record flattens to no key at all exactly when it holds no
    scalar and no list that is joined into text: empty objects and empty
    lists, however nested, are dropped without a trace. *)
Theorem flatten_empty_iff (y : json) (parent_key sep : string) :
  flatten_json y parent_key sep = [] <-> has_leaf y = false.
Proof.
  unfold flatten_json. split.
  - intros H. destruct (has_leaf y) eqn:E; [|reflexivity].
    now apply (flatten_with_leaf sep y E parent_key []) in H.
  - intros H. now apply flatten_without_leaf.
Qed.

(** ** The parent key *)

Lemma drop_last_after (p n : string) :
  n <> "" -> PyStr.drop_last (p ++ n) = p ++ PyStr.drop_last n.
Proof.
  intros Hn. induction p as [|c p IH]; [reflexivity|].
  change (String c p ++ n) with (String c (p ++ n)).
  cbn [PyStr.drop_last]. destruct (p ++ n) eqn:E.
  - destruct p; [contradiction | discriminate].
  - rewrite IH. reflexivity.
Qed.

Lemma eqb_after_prefix (p a b : string) :
  String.eqb (p ++ a) (p ++ b) = String.eqb a b.
Proof.
  induction p as [|c p IH]; [reflexivity|]. simpl.
  now rewrite Ascii.eqb_refl.
Qed.

Lemma dict_set_prefix {A} (p : string) (d : pydict A) (k : string) (v : A) :
  dict_set (prefix_keys p d) (p ++ k) v = prefix_keys p (dict_set d k v).
Proof.
  induction d as [|[k' v'] d IH]; simpl; [reflexivity|].
  rewrite eqb_after_prefix. destruct (String.eqb k' k); simpl;
    [reflexivity | now rewrite IH].
Qed.

Lemma flatten_prefix (sep p : string) (x : json) :
  forall n (out : pydict value),
    n <> "" ->
    flatten sep x (p ++ n) (prefix_keys p out)
    = prefix_keys p (flatten sep x n out).
Proof.
  assert (Hleaf : forall n (out : pydict value) v,
             n <> "" ->
             dict_set (prefix_keys p out) (PyStr.drop_last (p ++ n)) v
             = prefix_keys p (dict_set out (PyStr.drop_last n) v)).
  { intros n out v Hn. rewrite drop_last_after by assumption.
    apply dict_set_prefix. }
  assert (Hname : forall n a : string, n <> "" -> n ++ a <> "").
  { intros n a Hn. destruct n; [contradiction | discriminate]. }
  induction x as [|b|z|s|l IH|kvs IH] using json_nested_ind;
    intros n out Hn; try (cbn [flatten]; now apply Hleaf).
  - destruct (forallb is_dict l) eqn:E.
    + rewrite !flatten_array by assumption. clear E. generalize O.
      revert out.
      induction IH as [|a l Ha _ IHl]; intros out i; cbn [flatten_each];
        [reflexivity|].
      rewrite append_assoc, Ha by now apply Hname.
      apply IHl.
    + cbn [flatten]. rewrite E. now apply Hleaf.
  - rewrite !flatten_object. revert out.
    induction IH as [|kv kvs Hkv _ IHl]; intros out; cbn [fold_left];
      [reflexivity|].
    rewrite append_assoc, Hkv by now apply Hname.
    apply IHl.
Qed.

(** X3.  The parent key is a plain prefix of every key: flattening under
    [p] followed by a non-empty name gives the keys of flattening under
    that name, each with [p] in front, with the same values in the same
    order; for an object and a non-empty separator the name may be empty. *)
Theorem flatten_under_parent (y : json) (p parent_key sep : string) :
  parent_key <> "" \/ (is_dict y = true /\ sep <> "") ->
  flatten_json y (p ++ parent_key) sep
  = prefix_keys p (flatten_json y parent_key sep).
Proof.
  unfold flatten_json. intros [Hn|[Hy Hs]].
  - exact (flatten_prefix sep p y parent_key [] Hn).
  - destruct y as [| | | | |kvs]; try discriminate. clear Hy.
    rewrite !flatten_object.
    change (@nil (string * value)) with (prefix_keys p (@nil (string * value)))
      at 1.
    generalize (@nil (string * value)).
    induction kvs as [|kv kvs IH]; intros out; cbn [fold_left];
      [reflexivity|].
    rewrite append_assoc, flatten_prefix.
    + apply IH.
    + destruct parent_key; cbn; destruct (fst kv); cbn;
        try discriminate. destruct sep; [contradiction | discriminate].
Qed.

Lemma flatten_under_parent_witness :
  flatten_json (JObj [("a", JNum 1); ("b", JObj [("c", JStr "x")])])
               ("user_" ++ "") "_"
  = prefix_keys "user_"
      (flatten_json (JObj [("a", JNum 1); ("b", JObj [("c", JStr "x")])])
                    "" "_").
Proof.
  apply (flatten_under_parent
           (JObj [("a", JNum 1); ("b", JObj [("c", JStr "x")])])
           "user_" "" "_").
  right. split; [reflexivity | discriminate].
Defined.

(** X4.  Two paths that flatten to the same key collide: of a scalar
    under the key [a_b] and a later scalar under [a] then [b] only the
    later value is kept, at the place of the first. *)
Theorem flatten_last_write_wins (a b : string) (x y : json) :
  is_scalar x = true -> is_scalar y = true ->
  flatten_json (JObj [(a ++ "_" ++ b, x); (a, JObj [(b, y)])]) "" "_"
  = [(a ++ "_" ++ b, leaf y)].
Proof.
  intros Hx Hy. unfold flatten_json.
  rewrite flatten_object. cbn [fold_left fst snd].
  rewrite (flatten_scalar "_" x) by assumption.
  rewrite flatten_object. cbn [fold_left fst snd].
  rewrite (flatten_scalar "_" y) by assumption.
  change ("" ++ (a ++ "_" ++ b) ++ "_") with ((a ++ "_" ++ b) ++ "_").
  change (("" ++ a ++ "_") ++ b ++ "_") with ((a ++ "_") ++ b ++ "_").
  rewrite <- (append_assoc (a ++ "_") b "_").
  rewrite (append_assoc a "_" b).
  rewrite !drop_last_snoc. cbn [dict_set].
  now rewrite String.eqb_refl.
Qed.

Lemma flatten_last_write_wins_witness :
  flatten_json (JObj [("user" ++ "_" ++ "id", JNum 1);
                      ("user", JObj [("id", JStr "x")])]) "" "_"
  = [("user" ++ "_" ++ "id", leaf (JStr "x"))].
Proof.
  apply (flatten_last_write_wins "user" "id" (JNum 1) (JStr "x"));
    reflexivity.
Defined.

(** ** Where the records of a document are *)

Lemma first_list_key_app (a b : list string) (d : pydict json) :
  first_list_key (a ++ b) d
  = match first_list_key a d with
    | Some l => Some l
    | None => first_list_key b d
    end.
Proof.
  induction a as [|k a IH]; [reflexivity|]. cbn [app first_list_key].
  destruct (dict_get d k) as [[| | | |l|]|]; auto.
Qed.

Lemma first_list_key_none (keys : list string) (d : pydict json) :
  (forall k, In k keys -> no_list_under d k) ->
  first_list_key keys d = None.
Proof.
  induction keys as [|k keys IH]; intros H; [reflexivity|].
  cbn [first_list_key].
  pose proof (H k (or_introl eq_refl)) as Hk. unfold no_list_under in Hk.
  destruct (dict_get d k) as [[| | | |l|]|];
    try (apply IH; intros k' Hk'; apply H; now right).
  now elim (Hk l).
Qed.

(** X5.  The records of an object are the elements of the list under the
    first key of the fixed order [list, messages, media, ...] that holds
    a list; the order of the keys in the document plays no part, and a
    listed key that holds something else than a list is passed over. *)
Theorem records_under_first_key (kvs : list (string * json))
        (before after : list string) (k : string) (l : list json) :
  try_keys = (before ++ k :: after)%list ->
  (forall k', In k' before -> no_list_under kvs k') ->
  dict_get kvs k = Some (JArr l) ->
  flat_records (JObj kvs) = map (fun record => flatten_json record "" "_") l.
Proof.
  intros Hkeys Hbefore Hk. unfold flat_records, flat_records_with.
  rewrite Hkeys, first_list_key_app, (first_list_key_none _ _ Hbefore).
  cbn [first_list_key]. now rewrite Hk.
Qed.

Lemma records_under_first_key_witness :
  flat_records (JObj [("media", JArr [JObj [("id", JNum 1)]]);
                      ("messages", JArr [JObj [("id", JNum 2)];
                                         JObj [("id", JNum 3)]]);
                      ("list", JStr "none")])
  = map (fun record => flatten_json record "" "_")
        [JObj [("id", JNum 2)]; JObj [("id", JNum 3)]].
Proof.
  apply (records_under_first_key _ ["list"]
           ["media"; "connections"; "string_list_data"; "profile_changes";
            "followers"; "following"; "ads"; "ads_information"; "items"]
           "messages").
  - reflexivity.
  - intros k' [<-|[]] l. discriminate.
  - reflexivity.
Defined.

(** X6.  A document that is not a list, and as an object holds no list
    under any of the keys tried, is one record; a bare scalar gives the
    record whose only key is the empty text. *)
Theorem document_without_list (data : json) :
  match data with
  | JObj kvs => forall k, In k try_keys -> no_list_under kvs k
  | JArr _ => False
  | _ => True
  end ->
  flat_records data = [flatten_json data "" "_"]
  /\ (is_scalar data = true -> flat_records data = [[("", leaf data)]]).
Proof.
  intros H. unfold flat_records, flat_records_with.
  destruct data as [|b|z|s|l|kvs]; try contradiction;
    try (split; [reflexivity | intros _; reflexivity]).
  rewrite (first_list_key_none _ _ H).
  split; [reflexivity | discriminate].
Qed.

Lemma document_without_list_witness :
  flat_records (JObj [("name", JStr "x"); ("list", JNum 3)])
  = [flatten_json (JObj [("name", JStr "x"); ("list", JNum 3)]) "" "_"]
  /\ (is_scalar (JObj [("name", JStr "x"); ("list", JNum 3)]) = true ->
      flat_records (JObj [("name", JStr "x"); ("list", JNum 3)])
      = [[("", leaf (JObj [("name", JStr "x"); ("list", JNum 3)]))]]).
Proof.
  apply (document_without_list (JObj [("name", JStr "x"); ("list", JNum 3)])).
  intros k Hk l. cbn in Hk.
  repeat (destruct Hk as [<-|Hk]; [discriminate|]). destruct Hk.
Defined.

(** X7.  The two files find the same records in every document but one
    kind: an object that holds a list under none of the eight keys both
    try and under one of [ads], [ads_information], [items].  There
    [preprocess.py] takes the elements of that list and
    [preprocess11.py] the whole object as its one record. *)
Theorem files_locate_same_records (data : json) :
  Preprocess11.flat_records data = flat_records data
  \/ exists kvs l,
      data = JObj kvs
      /\ first_list_key Preprocess11.try_keys kvs = None
      /\ first_list_key later_keys kvs = Some l
      /\ Preprocess11.flat_records data = [flatten_json data "" "_"]
      /\ flat_records data = map (fun record => flatten_json record "" "_") l.
Proof.
  unfold Preprocess11.flat_records, flat_records, flat_records_with.
  destruct data as [|b|z|s|l|kvs]; try (now left).
  change try_keys with (Preprocess11.try_keys ++ later_keys)%list.
  rewrite first_list_key_app.
  destruct (first_list_key Preprocess11.try_keys kvs) as [l|] eqn:E1;
    [now left|].
  destruct (first_list_key later_keys kvs) as [l|] eqn:E2; [|now left].
  right. exists kvs, l. repeat split; assumption || reflexivity.
Qed.

(** ** Identifiers *)

Lemma length_of_append (a b : string) :
  String.length (a ++ b) = (String.length a + String.length b)%nat.
Proof.
  induction a as [|c a IH]; simpl; [reflexivity | now rewrite IH].
Qed.

Lemma le_bytes_count (n : nat) :
  forall x, List.length (MD5.le_bytes n x) = n.
Proof.
  induction n as [|n IH]; intros x; simpl; [reflexivity | now rewrite IH].
Qed.

Lemma hex_bytes_length (l : list Z) :
  String.length (String.concat "" (map PyStr.hex_byte l))
  = (2 * List.length l)%nat.
Proof.
  induction l as [|b l IH]; [reflexivity|].
  destruct l as [|b' l]; [reflexivity|].
  change (String.concat "" (map PyStr.hex_byte (b :: b' :: l)))
    with (PyStr.hex_byte b
          ++ "" ++ String.concat "" (map PyStr.hex_byte (b' :: l))).
  rewrite length_of_append. cbn [append]. rewrite IH.
  cbn [PyStr.hex_byte String.length List.length]. lia.
Qed.

(** X8.  Whatever the row and the keys, for a row whose labels are
    distinct when keys are given, the identifier is a text of thirty-two
    characters, each a digit or a letter from [a] to [f]. *)
Theorem create_unique_id_shape (row : list (string * value))
        (keys : list string) :
  keys = [] \/ NoDup (dict_keys row) ->
  String.length (create_unique_id row keys) = 32%nat
  /\ all_chars hex_char (create_unique_id row keys) = true.
Proof.
  intros _. unfold create_unique_id. split; [|apply hexdigest_is_hex].
  unfold MD5.hexdigest. rewrite hex_bytes_length. unfold MD5.digest.
  now rewrite !length_app, !le_bytes_count.
Qed.

Lemma create_unique_id_shape_witness :
  String.length (create_unique_id [("a", VInt 1); ("b", VStr "x")] ["b"])
  = 32%nat
  /\ all_chars hex_char
               (create_unique_id [("a", VInt 1); ("b", VStr "x")] ["b"])
     = true.
Proof.
  apply (create_unique_id_shape [("a", VInt 1); ("b", VStr "x")] ["b"]).
  right. repeat constructor; cbn; intuition discriminate.
Defined.

Lemma key_cells_skip (row : list (string * value)) (k : string) :
  absent_or_missing row k ->
  match dict_get row k with
  | Some v => if isna v then [] else [py_str v]
  | None => []
  end = [].
Proof.
  unfold absent_or_missing. destruct (dict_get row k) as [v|];
    [intros ->|]; reflexivity.
Qed.

(** X9.  With keys given and a row whose labels are distinct, a key the
    row lacks and a key under which it holds a missing value are
    skipped, separator and all: as long as another key is given, the
    identifier is the one of the remaining keys. *)
Theorem absent_keys_are_skipped (row : list (string * value))
        (keys1 keys2 : list string) (k : string) :
  NoDup (dict_keys row) ->
  (keys1 ++ keys2)%list <> [] ->
  absent_or_missing row k ->
  create_unique_id row (keys1 ++ k :: keys2)
  = create_unique_id row (keys1 ++ keys2).
Proof.
  intros _ Hne Hk. unfold create_unique_id.
  destruct (keys1 ++ keys2)%list as [|k0 r0] eqn:E; [contradiction|].
  rewrite <- E. clear E Hne.
  destruct (keys1 ++ k :: keys2)%list as [|k1 r1] eqn:E1;
    [now destruct keys1|].
  rewrite <- E1. clear E1.
  rewrite !flat_map_app. cbn [flat_map].
  now rewrite (key_cells_skip row k Hk).
Qed.

Lemma absent_keys_are_skipped_witness :
  create_unique_id [("a", VInt 1); ("b", VNaN)] (["a"] ++ "b" :: ["c"])
  = create_unique_id [("a", VInt 1); ("b", VNaN)] (["a"] ++ ["c"]).
Proof.
  apply (absent_keys_are_skipped [("a", VInt 1); ("b", VNaN)] ["a"] ["c"] "b").
  - repeat constructor; cbn; intuition discriminate.
  - discriminate.
  - reflexivity.
Defined.

(** X10.  Rows with distinct labels that hold none of the keys given all
    get one identifier, the digest of the empty text. *)
Theorem identifier_without_key_cells (row : list (string * value))
        (keys : list string) :
  NoDup (dict_keys row) ->
  keys <> [] ->
  (forall k, In k keys -> absent_or_missing row k) ->
  create_unique_id row keys = "d41d8cd98f00b204e9800998ecf8427e".
Proof.
  intros _ Hne H. unfold create_unique_id.
  destruct keys as [|k0 keys]; [contradiction|].
  assert (E : flat_map (fun k => match dict_get row k with
                                 | Some v => if isna v then [] else [py_str v]
                                 | None => []
                                 end) (k0 :: keys) = []).
  { clear Hne. induction (k0 :: keys) as [|k l IH]; [reflexivity|].
    cbn [flat_map]. rewrite (key_cells_skip row k (H k (or_introl eq_refl))).
    apply IH. intros k' Hk'. apply H. now right. }
  rewrite E. vm_compute. reflexivity.
Qed.

Lemma identifier_without_key_cells_witness :
  create_unique_id [("name", VStr "x"); ("post_id", VNaN)]
                   ["post_id"; "user_id"]
  = "d41d8cd98f00b204e9800998ecf8427e".
Proof.
  apply (identifier_without_key_cells [("name", VStr "x"); ("post_id", VNaN)]
                                      ["post_id"; "user_id"]).
  - repeat constructor; cbn; intuition discriminate.
  - discriminate.
  - intros k [<-|[<-|[]]]; reflexivity.
Defined.

(** ** Files without values *)

Lemma all_keys_of_empty_records (records : list (pydict value)) :
  Forall (fun record => record = []) records -> all_keys records = [].
Proof.
  intros H. unfold all_keys. generalize (@nil string) as acc.
  induction H as [|r records Hr _ IH]; intros acc; [reflexivity|].
  cbn [fold_left]. rewrite Hr. cbn [dict_keys map fold_left]. apply IH.
Qed.

Section Valueless.

Context {pandas : Pandas}.
Variable cfg : Config.
Variable env : Env.

Lemma empty_records_outcome (filename : string)
      (records : list (pydict value)) :
  Forall (fun record => record = []) records ->
  process_records cfg filename records = Empty.
Proof.
  intros H. unfold process_records. destruct records as [|r rs];
    [reflexivity|].
  unfold df_empty, DataFrame_of_records. cbn [columns].
  rewrite (all_keys_of_empty_records _ H). cbn [map].
  now rewrite orb_true_r.
Qed.

(** X11.  A file that can be read and whose records hold nothing, or that
    has no record at all, is entered among the empty files; nothing is
    written for it and no error is recorded. *)
Theorem valueless_file_is_empty (st : RunState)
        (json_path out_dir csv_out filename : string) (data : json) :
  load_json env st json_path = Ok data ->
  Forall (fun record => record = []) (flat_records data) ->
  try_file cfg env st json_path out_dir csv_out filename
  = (add_empty st json_path, None).
Proof.
  intros Hload H. unfold try_file, json_file_to_flat_records.
  rewrite Hload. cbn [bind].
  now rewrite (empty_records_outcome filename _ H).
Qed.

(** X12.  [preprocess11.py] does not look whether the table is empty: for
    a file whose records, at least one, hold nothing, it writes a table
    with as many rows and no column. *)
Theorem preprocess11_writes_empty_table (st : RunState)
        (json_path csv_out : string) (data : json) :
  load_json env st json_path = Ok data ->
  Preprocess11.flat_records data <> [] ->
  Forall (fun record => record = []) (Preprocess11.flat_records data) ->
  to_csv env st csv_out
         (mk_df (List.length (Preprocess11.flat_records data)) []) = None ->
  Preprocess11Run.try_file env st json_path csv_out
  = (add_processed st csv_out
                   (mk_df (List.length (Preprocess11.flat_records data)) []),
     None).
Proof.
  intros Hload Hne H Hcsv. unfold Preprocess11Run.try_file.
  rewrite Hload.
  destruct (Preprocess11.flat_records data) as [|r rs] eqn:E;
    [contradiction|].
  assert (Hclean : Preprocess11.clean_and_standardize
                     (DataFrame_of_records (r :: rs))
                   = mk_df (List.length (r :: rs)) []).
  { unfold Preprocess11.clean_and_standardize, DataFrame_of_records.
    rewrite (all_keys_of_empty_records _ H). reflexivity. }
  rewrite Hclean, Hcsv. reflexivity.
Qed.

End Valueless.

Lemma valueless_file_is_empty_witness :
  try_file config valueless_file initial "in/a.json" "out" "out/a_cleaned.csv"
           "a.json"
  = (add_empty initial "in/a.json", None).
Proof.
  apply (valueless_file_is_empty config valueless_file initial "in/a.json"
                                 "out" "out/a_cleaned.csv" "a.json"
                                 (JArr [JObj []; JObj []])).
  - reflexivity.
  - repeat constructor.
Defined.

Lemma preprocess11_writes_empty_table_witness :
  Preprocess11Run.try_file valueless_file initial "in/a.json"
                           "out/a_cleaned.csv"
  = (add_processed
       initial "out/a_cleaned.csv"
       (mk_df (List.length
                 (Preprocess11.flat_records (JArr [JObj []; JObj []]))) []),
     None).
Proof.
  apply (preprocess11_writes_empty_table valueless_file initial "in/a.json"
                                         "out/a_cleaned.csv"
                                         (JArr [JObj []; JObj []])).
  - reflexivity.
  - discriminate.
  - repeat constructor.
  - reflexivity.
Defined.

(** ** Trimming and cleaning text *)

Lemma lstrip_head (s : string) :
  match PyStr.lstrip s with
  | EmptyString => True
  | String c _ => PyStr.isspace c = false
  end.
Proof.
  induction s as [|c r IH]; [exact I|]. cbn [PyStr.lstrip].
  destruct (PyStr.isspace c) eqn:E; [exact IH | exact E].
Qed.

Lemma rstrip_keeps_head (c : ascii) (r : string) :
  PyStr.isspace c = false ->
  PyStr.rstrip (String c r) = String c (PyStr.rstrip r).
Proof.
  intros H. cbn [PyStr.rstrip]. rewrite H. now destruct (PyStr.rstrip r).
Qed.

Lemma rstrip_twice (s : string) :
  PyStr.rstrip (PyStr.rstrip s) = PyStr.rstrip s.
Proof.
  induction s as [|c r IH]; [reflexivity|]. cbn [PyStr.rstrip].
  destruct (PyStr.rstrip r) as [|c' r'] eqn:E.
  - destruct (PyStr.isspace c) eqn:Ec; [reflexivity|].
    cbn [PyStr.rstrip]. now rewrite Ec.
  - cbn [PyStr.rstrip] in *. now rewrite IH.
Qed.

Lemma lstrip_of_strip (s : string) :
  PyStr.lstrip (PyStr.strip s) = PyStr.strip s.
Proof.
  unfold PyStr.strip. pose proof (lstrip_head s) as H.
  destruct (PyStr.lstrip s) as [|c r]; [reflexivity|].
  rewrite rstrip_keeps_head by assumption. cbn [PyStr.lstrip].
  now rewrite H.
Qed.

Lemma strip_twice (s : string) :
  PyStr.strip (PyStr.strip s) = PyStr.strip s.
Proof.
  unfold PyStr.strip at 1. rewrite lstrip_of_strip.
  unfold PyStr.strip. apply rstrip_twice.
Qed.

Lemma all_chars_lstrip (p : ascii -> bool) (s : string) :
  all_chars p s = true -> all_chars p (PyStr.lstrip s) = true.
Proof.
  induction s as [|c r IH]; [reflexivity|]. intros H.
  cbn [PyStr.lstrip]. destruct (PyStr.isspace c); [|exact H].
  cbn [all_chars] in H. apply andb_true_iff in H. now apply IH.
Qed.

Lemma all_chars_rstrip (p : ascii -> bool) (s : string) :
  all_chars p s = true -> all_chars p (PyStr.rstrip s) = true.
Proof.
  induction s as [|c r IH]; [reflexivity|]. intros H.
  cbn [all_chars] in H. apply andb_true_iff in H. destruct H as [Hc Hr].
  cbn [PyStr.rstrip]. specialize (IH Hr).
  destruct (PyStr.rstrip r) as [|c' r'].
  - destruct (PyStr.isspace c); [reflexivity|]. cbn [all_chars].
    now rewrite Hc.
  - cbn [all_chars] in *. now rewrite Hc, IH.
Qed.

Lemma remove_controls_clean (s : string) :
  all_chars (fun c => negb (is_control c)) (remove_controls s) = true.
Proof.
  induction s as [|c r IH]; [reflexivity|]. cbn [remove_controls].
  fold (is_control c). destruct (is_control c) eqn:E; [exact IH|].
  cbn [all_chars]. now rewrite E, IH.
Qed.

Lemma remove_controls_same (s : string) :
  all_chars (fun c => negb (is_control c)) s = true -> remove_controls s = s.
Proof.
  induction s as [|c r IH]; [reflexivity|]. intros H.
  cbn [all_chars] in H. apply andb_true_iff in H. destruct H as [Hc Hr].
  cbn [remove_controls]. fold (is_control c).
  apply negb_true_iff in Hc. rewrite Hc. now rewrite IH.
Qed.

(** X13.  Text comes out of [remove_emojis_and_specials] without control
    character and without white space at either end, and a second pass
    changes nothing more; what is not text comes back as it is. *)
Theorem remove_emojis_and_specials_settles (text : value) :
  remove_emojis_and_specials (remove_emojis_and_specials text)
  = remove_emojis_and_specials text
  /\ (is_str text = false -> remove_emojis_and_specials text = text)
  /\ forall s,
      remove_emojis_and_specials text = VStr s ->
      all_chars (fun c => negb (is_control c)) s = true
      /\ PyStr.strip s = s.
Proof.
  assert (Hclean : forall s,
             all_chars (fun c => negb (is_control c))
                       (PyStr.strip (remove_controls s)) = true).
  { intros s. unfold PyStr.strip.
    apply all_chars_rstrip, all_chars_lstrip, remove_controls_clean. }
  destruct text as [| | |b|z|z|s|ns]; cbn [remove_emojis_and_specials];
    try (split; [reflexivity | split; [reflexivity | discriminate]]).
  split; [|split; [discriminate|]].
  - now rewrite (remove_controls_same _ (Hclean s)), strip_twice.
  - intros t [= <-]. split; [apply Hclean | apply strip_twice].
Qed.

(** ** Labels *)

Lemma replace_one_char (a b : ascii) (s : string) :
  PyStr.replace (String a "") (String b "") s
  = map_chars (fun c => if Ascii.eqb a c then b else c) s.
Proof.
  unfold PyStr.replace. induction s as [|c r IH]; [reflexivity|].
  cbn [PyStr.replace_from PyStr.startswith String.length Nat.sub map_chars].
  destruct (Ascii.eqb a c); cbn [andb]; [|now rewrite IH].
  destruct r; cbn [append]; now rewrite IH.
Qed.

Lemma lower_by_char (s : string) :
  PyStr.lower s = map_chars PyStr.lower_char s.
Proof. induction s as [|c r IH]; simpl; [reflexivity | now rewrite IH]. Qed.

Lemma map_chars_twice (f g : ascii -> ascii) (s : string) :
  map_chars f (map_chars g s) = map_chars (fun c => f (g c)) s.
Proof. induction s as [|c r IH]; simpl; [reflexivity | now rewrite IH]. Qed.

Lemma map_chars_fixed (p : ascii -> bool) (f : ascii -> ascii) (s : string) :
  (forall c, p c = true -> f c = c) ->
  all_chars p s = true -> map_chars f s = s.
Proof.
  intros Hf. induction s as [|c r IH]; [reflexivity|]. intros H.
  cbn [all_chars] in H. apply andb_true_iff in H. destruct H as [Hc Hr].
  cbn [map_chars]. now rewrite (Hf c Hc), IH.
Qed.

Lemma map_chars_all (p : ascii -> bool) (f : ascii -> ascii) (s : string) :
  (forall c, p (f c) = true) -> all_chars p (map_chars f s) = true.
Proof.
  intros Hf. induction s as [|c r IH]; [reflexivity|].
  cbn [map_chars all_chars]. now rewrite Hf, IH.
Qed.

Lemma clean_name11_by_char (s : string) :
  Preprocess11.clean_name s = map_chars label11_of (PyStr.strip s).
Proof.
  unfold Preprocess11.clean_name. rewrite !replace_one_char.
  now rewrite !map_chars_twice.
Qed.

Lemma clean_name_by_char (s : string) :
  clean_name s = map_chars label_of (PyStr.strip s).
Proof.
  change (clean_name s) with (PyStr.lower (Preprocess11.clean_name s)).
  now rewrite clean_name11_by_char, lower_by_char, map_chars_twice.
Qed.

Lemma lstrip_fixed_map (g : ascii -> ascii) (u : string) :
  (forall c, PyStr.isspace c = false -> PyStr.isspace (g c) = false) ->
  PyStr.lstrip u = u ->
  PyStr.lstrip (map_chars g u) = map_chars g u.
Proof.
  intros Hg Hu. pose proof (lstrip_head u) as H. rewrite Hu in H.
  destruct u as [|c r]; [reflexivity|]. cbn [map_chars PyStr.lstrip].
  now rewrite (Hg c H).
Qed.

Lemma rstrip_fixed_map (g : ascii -> ascii) (u : string) :
  (forall c, PyStr.isspace c = false -> PyStr.isspace (g c) = false) ->
  PyStr.rstrip u = u ->
  PyStr.rstrip (map_chars g u) = map_chars g u.
Proof.
  intros Hg. induction u as [|c r IH]; [reflexivity|]. intros Hu.
  cbn [PyStr.rstrip] in Hu. cbn [map_chars PyStr.rstrip].
  destruct (PyStr.rstrip r) as [|c' r'] eqn:E.
  - destruct (PyStr.isspace c) eqn:Ec; [discriminate|].
    injection Hu as <-. cbn [map_chars PyStr.rstrip]. now rewrite (Hg c Ec).
  - injection Hu as Hr. rewrite IH by assumption.
    rewrite <- Hr. reflexivity.
Qed.

Lemma strip_fixed_map (g : ascii -> ascii) (s : string) :
  (forall c, PyStr.isspace c = false -> PyStr.isspace (g c) = false) ->
  PyStr.strip (map_chars g (PyStr.strip s)) = map_chars g (PyStr.strip s).
Proof.
  intros Hg. unfold PyStr.strip at 1.
  rewrite (lstrip_fixed_map g _ Hg (lstrip_of_strip s)).
  apply (rstrip_fixed_map g _ Hg). unfold PyStr.strip. apply rstrip_twice.
Qed.

Lemma label_of_is_label (c : ascii) : label_char (label_of c) = true.
Proof.
  destruct c as [[|] [|] [|] [|] [|] [|] [|] [|]]; vm_compute; reflexivity.
Qed.

Lemma label_of_fixed (c : ascii) : label_char c = true -> label_of c = c.
Proof.
  destruct c as [[|] [|] [|] [|] [|] [|] [|] [|]]; vm_compute; intros H;
    first [reflexivity | discriminate H].
Qed.

Lemma label_of_not_space (c : ascii) :
  PyStr.isspace c = false -> PyStr.isspace (label_of c) = false.
Proof.
  destruct c as [[|] [|] [|] [|] [|] [|] [|] [|]]; vm_compute; intros H;
    first [reflexivity | discriminate H].
Qed.

Lemma label11_of_not_space (c : ascii) :
  PyStr.isspace c = false -> PyStr.isspace (label11_of c) = false.
Proof.
  destruct c as [[|] [|] [|] [|] [|] [|] [|] [|]]; vm_compute; intros H;
    first [reflexivity | discriminate H].
Qed.

Lemma label_of_after_label11 (c : ascii) : label_of (label11_of c) = label_of c.
Proof.
  destruct c as [[|] [|] [|] [|] [|] [|] [|] [|]]; vm_compute; reflexivity.
Qed.

Lemma label11_of_twice (c : ascii) : label11_of (label11_of c) = label11_of c.
Proof.
  destruct c as [[|] [|] [|] [|] [|] [|] [|] [|]]; vm_compute; reflexivity.
Qed.

(** X14.  A label cleaned by [preprocess.py] has no space, dot, hyphen or
    capital letter left, and cleaning it again gives the same label. *)
Theorem clean_name_settles (c : string) :
  all_chars label_char (clean_name c) = true
  /\ clean_name (clean_name c) = clean_name c.
Proof.
  assert (Hall : all_chars label_char (clean_name c) = true).
  { rewrite clean_name_by_char. apply map_chars_all, label_of_is_label. }
  split; [exact Hall|].
  rewrite (clean_name_by_char (clean_name c)).
  rewrite (clean_name_by_char c) at 1.
  rewrite (strip_fixed_map label_of c label_of_not_space).
  rewrite <- clean_name_by_char.
  exact (map_chars_fixed label_char label_of _ label_of_fixed Hall).
Qed.

(** X15.  The label cleanups of the two files differ by the lower-casing
    only: the label of [preprocess.py] is the lower-cased label of
    [preprocess11.py], cleaning a label of [preprocess11.py] with
    [preprocess.py] gives what [preprocess.py] gives at once, and the
    cleanup of [preprocess11.py] too changes nothing when repeated. *)
Theorem labels_of_the_two_files (c : string) :
  clean_name c = PyStr.lower (Preprocess11.clean_name c)
  /\ clean_name (Preprocess11.clean_name c) = clean_name c
  /\ Preprocess11.clean_name (Preprocess11.clean_name c)
     = Preprocess11.clean_name c.
Proof.
  split; [reflexivity|]. split.
  - rewrite (clean_name_by_char (Preprocess11.clean_name c)).
    rewrite clean_name11_by_char.
    rewrite (strip_fixed_map label11_of c label11_of_not_space).
    rewrite map_chars_twice, clean_name_by_char.
    generalize (PyStr.strip c). intros s.
    induction s as [|a r IH]; [reflexivity|]. cbn [map_chars].
    now rewrite label_of_after_label11, IH.
  - rewrite (clean_name11_by_char (Preprocess11.clean_name c)).
    rewrite clean_name11_by_char.
    rewrite (strip_fixed_map label11_of c label11_of_not_space).
    rewrite map_chars_twice.
    generalize (PyStr.strip c). intros s.
    induction s as [|a r IH]; [reflexivity|]. cbn [map_chars].
    now rewrite label11_of_twice, IH.
Qed.

(** ** The table [clean_and_standardize] returns *)

Lemma stripped_twice (c : column) : stripped (stripped c) = stripped c.
Proof.
  unfold stripped. cbn [cname cvalues]. f_equal. rewrite map_map.
  apply map_ext. intros v. cbn [py_str]. now rewrite strip_twice.
Qed.

Lemma Forall2_source {A B} (R : A -> B -> Prop) (l : list A) (l' : list B)
      (y : B) :
  Forall2 R l l' -> In y l' -> exists x, In x l /\ R x y.
Proof.
  induction 1 as [|a b l l' Hab _ IH]; intros Hin; [destruct Hin|].
  destruct Hin as [<-|Hin].
  - exists a. split; [now left | exact Hab].
  - destruct (IH Hin) as (x & Hx & Hr). exists x. split; [now right | exact Hr].
Qed.

Lemma nrows_fold {A} (step : DataFrame -> A -> DataFrame) (l : list A) :
  (forall df a, nrows (step df a) = nrows df) ->
  forall df, nrows (fold_left step l df) = nrows df.
Proof.
  intros Hstep. induction l as [|a l IH]; intros df; [reflexivity|].
  cbn [fold_left]. now rewrite IH, Hstep.
Qed.

Lemma nrows_set_column (df : DataFrame) (n : string) (dt : dtype)
      (vs : list value) :
  nrows (set_column df n dt vs) = nrows df.
Proof. unfold set_column. now destruct (has_column df n). Qed.

Lemma set_column_not_empty (df : DataFrame) (n : string) (dt : dtype)
      (vs : list value) :
  df_empty df = false -> df_empty (set_column df n dt vs) = false.
Proof.
  unfold df_empty. rewrite nrows_set_column. intros H.
  apply orb_false_iff in H. destruct H as [-> Hc]. cbn [orb].
  unfold set_column, update_column.
  destruct (has_column df n); cbn [columns]; destruct (columns df);
    (discriminate Hc || reflexivity).
Qed.

Lemma first_occurrences_count (same : list value -> list value -> bool)
      (rows : list (list value)) :
  forall seen,
    (List.length (filter (fun b => b) (first_occurrences same seen rows))
     <= List.length rows)%nat.
Proof.
  induction rows as [|r rows IH]; intros seen; [apply Nat.le_refl|].
  cbn [first_occurrences]. destruct (existsb (same r) seen);
    cbn [filter List.length].
  - apply Nat.le_trans with (List.length rows); [apply IH | apply Nat.le_succ_diag_r].
  - apply le_n_S, IH.
Qed.

Lemma drop_duplicates_rows (df : DataFrame) :
  (nrows (drop_duplicates df) <= nrows df)%nat
  /\ (df_empty df = false -> (1 <= nrows (drop_duplicates df))%nat).
Proof.
  unfold drop_duplicates. destruct (df_empty df) eqn:E.
  - split; [apply Nat.le_refl | discriminate].
  - cbn [nrows]. split.
    + eapply Nat.le_trans; [apply first_occurrences_count|].
      now rewrite length_map, length_seq.
    + intros _. unfold df_empty in E. apply orb_false_iff in E.
      destruct E as [E _]. apply Nat.eqb_neq in E.
      destruct (nrows df) as [|n]; [contradiction|].
      cbn [seq map first_occurrences existsb filter List.length].
      apply le_n_S, Nat.le_0_l.
Qed.

Section Cleaned.

Context {pandas : Pandas}.
Variable cfg : Config.

Lemma strip_loop_result (cols : list string) :
  forall df df',
    for_each cols strip_column df = Ok df' ->
    nrows df' = nrows df
    /\ names df' = names df
    /\ (forall col, In col cols -> unique_column df col = true)
    /\ Forall2 (fun c c' =>
                  c' = if existsb (String.eqb (cname c)) cols
                       then stripped c else c)
               (columns df) (columns df').
Proof.
  induction cols as [|col rest IH]; intros df df' H.
  - injection H as <-. repeat split; [intros col []|].
    now apply Forall2_same.
  - cbn [for_each] in H.
    destruct (strip_column df col) as [d1|e] eqn:Hs; [|discriminate H].
    cbn [bind] in H. unfold strip_column in Hs.
    destruct (unique_column df col) eqn:Hu; [|discriminate Hs].
    injection Hs as Hs.
    assert (Hnames : names d1 = names df)
      by (rewrite <- Hs; apply names_update_column).
    destruct (IH d1 df' H) as (Hn & Hnm & Hun & HF).
    split; [now rewrite Hn, <- Hs|]. split; [now rewrite Hnm|]. split.
    + intros c [<-|Hc]; [exact Hu|].
      rewrite <- (unique_column_by_names df d1 c Hnames). now apply Hun.
    + eapply (Forall2_compose
                (fun c c1 => c1 = if String.eqb (cname c) col
                                  then stripped c else c));
        [| |exact HF].
      * intros x y z -> ->. cbn [existsb].
        rewrite (String.eqb_sym (cname x) col).
        destruct (String.eqb col (cname x)); cbn [orb].
        -- cbn [stripped cname].
           destruct (existsb (String.eqb (cname x)) rest);
             [apply stripped_twice | reflexivity].
        -- reflexivity.
      * rewrite <- Hs. unfold update_column. cbn [columns].
        apply Forall2_map_in. intros x _.
        now destruct (String.eqb (cname x) col).
Qed.

Lemma nrows_cleaned (df df' : DataFrame) :
  clean_and_standardize cfg df = Ok df' ->
  nrows df' = nrows (drop_duplicates df).
Proof.
  unfold clean_and_standardize. cbv zeta.
  match goal with
  | |- bind (remap_media_type ?d) _ = _ -> _ =>
      assert (Hd : nrows d = nrows (drop_duplicates df)); [|set (d0 := d) in *]
  end.
  { rewrite nrows_fold.
    2: { intros d a. unfold coerce_metric.
         destruct (unique_column d a); [|reflexivity].
         destruct (get_column d a) as [s|]; [|reflexivity].
         now destruct (to_numeric_int (cdtype s) (cvalues s)). }
    assert (Hdates : forall l d,
               nrows (if DATE_FEATURES_EXTRACTION cfg
                      then fold_left date_features l d else d) = nrows d).
    { intros l d. destruct (DATE_FEATURES_EXTRACTION cfg); [|reflexivity].
      apply nrows_fold. intros d' a. unfold date_features.
      destruct (unique_column d' a); [|reflexivity].
      destruct (get_column d' a) as [s|]; [|reflexivity].
      destruct (dtype_eqb (cdtype s) DDatetime); [|reflexivity].
      unfold set_date_part. now rewrite !nrows_set_column. }
    rewrite Hdates. rewrite nrows_fold.
    2: { intros d a. unfold parse_date.
         destruct (unique_column d a); [|reflexivity].
         destruct (get_column d a) as [s|]; [|reflexivity].
         now destruct (to_datetime_utc (cdtype s) (cvalues s)). }
    destruct (REMOVE_EMOJIS cfg); [|reflexivity].
    rewrite nrows_fold; [reflexivity|].
    intros d a. unfold strip_emojis. now destruct (unique_column d a). }
  intros H. unfold remap_media_type in H.
  assert (Hmedia : exists d1, nrows d1 = nrows d0
                              /\ for_each (object_columns d1) strip_column d1
                                 = Ok df').
  { destruct (has_column d0 "media_type").
    - destruct (unique_column d0 "media_type"); [|discriminate H].
      cbn [bind] in H. eexists. split; [|exact H]. reflexivity.
    - cbn [bind] in H. now exists d0. }
  destruct Hmedia as (d1 & Hn1 & Hloop).
  destruct (strip_loop_result _ _ _ Hloop) as (Hn & _).
  now rewrite Hn, Hn1.
Qed.

Lemma cleaned_object_column (df df' : DataFrame) (c : column) :
  clean_and_standardize cfg df = Ok df' ->
  In c (columns df') ->
  cdtype c = DObject ->
  unique_column df' (cname c) = true
  /\ forall v, In v (cvalues c) -> trimmed_text v.
Proof.
  unfold clean_and_standardize. cbv zeta.
  destruct (remap_media_type _) as [d1|e]; [|discriminate].
  cbn [bind]. intros Hloop Hin Hobj.
  destruct (strip_loop_result _ _ _ Hloop) as (_ & Hnm & Hun & HF).
  destruct (Forall2_source _ _ _ _ HF Hin) as (c0 & Hin0 & Hc).
  assert (Hname : cname c = cname c0).
  { rewrite Hc. now destruct (existsb _ _). }
  assert (Hlisted : existsb (String.eqb (cname c0)) (object_columns d1) = true).
  { destruct (existsb (String.eqb (cname c0)) (object_columns d1)) eqn:E;
      [reflexivity|].
    subst c. pose proof (none_passes _ _ E (cname c0)) as Hno.
    rewrite String.eqb_refl in Hno. symmetry. apply Hno.
    unfold object_columns. apply in_map. apply filter_In. split;
      [exact Hin0 | now rewrite Hobj]. }
  rewrite Hlisted in Hc. split.
  - rewrite (unique_column_by_names d1 df' (cname c) Hnm), Hname.
    apply Hun. apply existsb_exists in Hlisted.
    destruct Hlisted as (n & Hn & E). apply String.eqb_eq in E. now subst n.
  - intros v Hv. subst c. cbn [stripped cvalues] in Hv.
    apply in_map_iff in Hv. destruct Hv as (v0 & <- & _).
    eexists. split; [reflexivity | apply strip_twice].
Qed.

(** X16.  In the table [clean_and_standardize] returns, an object column
    holds nothing but text without white space at either end, and its
    label is the label of no other column. *)
Theorem cleaned_text_is_trimmed (df df' : DataFrame) (c : column) :
  clean_and_standardize cfg df = Ok df' ->
  In c (columns df') ->
  cdtype c = DObject ->
  unique_column df' (cname c) = true
  /\ forall v, In v (cvalues c) -> trimmed_text v.
Proof. exact (cleaned_object_column df df' c). Qed.

(** X17.  The main table of a file has at least one row and at most one
    per record: rows are only ever dropped as duplicates, never added,
    and never all of them. *)
Theorem rows_of_main_table (filename : string)
        (records : list (pydict value)) (main : DataFrame)
        (aux_tables : pydict DataFrame) :
  process_records cfg filename records = Tables main aux_tables ->
  (1 <= nrows main <= List.length records)%nat.
Proof.
  unfold process_records. destruct records as [|r rs]; [discriminate|].
  set (raw := DataFrame_of_records (r :: rs)).
  assert (Hraw : nrows raw = List.length (r :: rs)) by reflexivity.
  destruct (df_empty raw) eqn:Hempty; [discriminate|].
  destruct (assign_ids cfg raw) as [df1 ids] eqn:Hassign.
  assert (H1 : nrows df1 = nrows raw /\ df_empty df1 = false).
  { unfold assign_ids in Hassign.
    destruct (filter (PyStr.endswith "_id") (names raw));
      [destruct (GENERATE_UNIQUE_IDS cfg)|];
      injection Hassign as <- _; try (split; [reflexivity | exact Hempty]).
    rewrite nrows_set_column. split; [reflexivity|].
    now apply set_column_not_empty. }
  destruct H1 as [Hn1 He1].
  destruct (clean_and_standardize cfg df1) as [df2|e] eqn:Hclean;
    [|discriminate].
  pose proof (nrows_cleaned _ _ Hclean) as Hn2.
  pose proof (drop_duplicates_rows df1) as [Hle Hge]. specialize (Hge He1).
  intros H.
  assert (Hmain : nrows main = nrows df2).
  { destruct ids as [|key_col ids'].
    - now injection H as <- _.
    - pose proof (extract_loop_frame (splitext_root filename) key_col
                                     (names df2) df2 []) as [Hn _].
      unfold extract_one_to_many_tables in H.
      destruct (extract_loop (splitext_root filename) key_col (names df2)
                             df2 []) as [df' [aux|e]]; [|discriminate].
      injection H as <- _. exact Hn. }
  rewrite Hmain, Hn2. rewrite <- Hraw, <- Hn1. split; assumption.
Qed.

End Cleaned.

Lemma cleaned_text_is_trimmed_witness :
  unique_column
    (mk_df 1 [mk_column "name" DObject [VStr "x"]]) "name" = true
  /\ forall v, In v [VStr "x"] -> trimmed_text v.
Proof.
  apply (cleaned_text_is_trimmed
           config
           (mk_df 2 [mk_column " Name" DObject [VStr " x "; VStr " x "]])
           (mk_df 1 [mk_column "name" DObject [VStr "x"]])
           (mk_column "name" DObject [VStr "x"])).
  - reflexivity.
  - now left.
  - reflexivity.
Defined.

Lemma rows_of_main_table_witness :
  (1 <= nrows posts_main <= List.length (flat_records posts_json))%nat.
Proof.
  apply (rows_of_main_table config "posts.json" (flat_records posts_json)
                            posts_main
                            [("posts_hashtags_table", posts_hashtags_table)]).
  vm_compute. reflexivity.
Defined.

(** ** The layout of a link table *)

Lemma item_is_not_index (col : string) : col ++ "_item" <> "index".
Proof.
  intros E. apply (f_equal PyStr.rev) in E. rewrite rev_app in E.
  discriminate E.
Qed.

Lemma link_record_entries (key_name col : string) (main_id : value)
      (item : string) (i : nat) :
  key_name <> col ++ "_item" -> key_name <> "index" ->
  link_record key_name col main_id item i
  = [(key_name, main_id); (col ++ "_item", VStr item);
     ("index", VInt (Z.of_nat i))].
Proof.
  intros H1 H2. unfold link_record, dict_of.
  cbn [fold_left fst snd dict_set].
  apply String.eqb_neq in H1, H2. rewrite H1. cbn [dict_set].
  rewrite H2.
  now rewrite (proj2 (String.eqb_neq _ _) (item_is_not_index col)).
Qed.

Lemma item_records_rows (key_name col : string) (main_id : value)
      (items : list string) :
  forall i0,
  exists rows,
    item_records key_name col main_id items i0
    = map (fun r => link_record key_name col (fst (fst r)) (snd (fst r))
                                (snd r)) rows
    /\ Forall (fun r => fst (fst r) = main_id /\ snd (fst r) <> "") rows.
Proof.
  induction items as [|item items IH]; intros i0.
  - now exists [].
  - cbn [item_records]. destruct (IH (S i0)) as (rows & E & Hrows).
    destruct item as [|c item].
    + now exists rows.
    + exists ((main_id, String c item, i0) :: rows). split.
      * cbn [map fst snd]. now rewrite E.
      * constructor; [split; [reflexivity | discriminate] | exact Hrows].
Qed.

Lemma column_records_rows (key_name col : string)
      (cells : list (value * value)) :
  exists rows,
    flat_map (row_records key_name col) cells
    = map (fun r => link_record key_name col (fst (fst r)) (snd (fst r))
                                (snd r)) rows
    /\ Forall (fun r => isna (fst (fst r)) = false /\ snd (fst r) <> "") rows.
Proof.
  induction cells as [|[main_id v] cells (rows & E & Hrows)].
  - now exists [].
  - cbn [flat_map]. rewrite E. unfold row_records.
    destruct (isna main_id) eqn:Hid; cbn [orb]; [now exists rows|].
    destruct (isna v); [now exists rows|].
    destruct v as [| | |b|z|z|s|ns]; try (now exists rows).
    destruct (item_records_rows key_name col main_id
                                (map PyStr.strip (PyStr.split "," s)) O)
      as (rows1 & E1 & Hrows1).
    exists (rows1 ++ rows)%list. split.
    + now rewrite E1, map_app.
    + apply Forall_app. split; [|exact Hrows].
      eapply Forall_impl; [|exact Hrows1].
      intros r [-> Hr]. now split.
Qed.

Lemma all_keys_settled (records : list (pydict value)) :
  forall acc,
    (forall r k, In r records -> In k (dict_keys r) ->
                 existsb (String.eqb k) acc = true) ->
    fold_left
      (fun acc record =>
         fold_left
           (fun acc k =>
              if existsb (String.eqb k) acc then acc else (acc ++ [k])%list)
           (dict_keys record) acc)
      records acc = acc.
Proof.
  induction records as [|r records IH]; intros acc H; [reflexivity|].
  cbn [fold_left].
  assert (E : fold_left
                (fun acc k =>
                   if existsb (String.eqb k) acc then acc
                   else (acc ++ [k])%list)
                (dict_keys r) acc = acc).
  { apply fold_left_same. intros k Hk.
    now rewrite (H r k (or_introl eq_refl) Hk). }
  rewrite E. apply IH. intros r' k Hr'. apply H. now right.
Qed.

Lemma infer_text_column (l : list string) :
  infer_column (map VStr l) = (DObject, map VStr l).
Proof. now destruct l. Qed.

Lemma infer_int_column (l : list Z) :
  l <> [] -> infer_column (map VInt l) = (DInt, map VInt l).
Proof.
  intros H. unfold infer_column.
  assert (E : forallb is_int (map VInt l) = true)
    by (clear H; induction l; [reflexivity | exact IHl]).
  rewrite E. now destruct l.
Qed.

Lemma link_records_table (key_name col : string)
      (rows : list (value * string * nat)) :
  key_name <> col ++ "_item" -> key_name <> "index" -> rows <> [] ->
  DataFrame_of_records
    (map (fun r => link_record key_name col (fst (fst r)) (snd (fst r))
                               (snd r)) rows)
  = link_table key_name col rows.
Proof.
  intros H1 H2 Hne.
  pose proof (proj2 (String.eqb_neq _ _) H1) as E1.
  pose proof (proj2 (String.eqb_neq _ _) H2) as E2.
  pose proof (proj2 (String.eqb_neq _ _) (item_is_not_index col)) as E3.
  assert (Hrec : forall r : value * string * nat,
             link_record key_name col (fst (fst r)) (snd (fst r)) (snd r)
             = [(key_name, fst (fst r)); (col ++ "_item", VStr (snd (fst r)));
                ("index", VInt (Z.of_nat (snd r)))])
    by (intros r; now apply link_record_entries).
  assert (Hkeys : all_keys
                    (map (fun r => link_record key_name col (fst (fst r))
                                               (snd (fst r)) (snd r)) rows)
                  = [key_name; col ++ "_item"; "index"]).
  { destruct rows as [|r0 rows]; [contradiction|].
    unfold all_keys. cbn [map fold_left]. rewrite Hrec.
    cbn [dict_keys map fst fold_left existsb app orb].
    rewrite (String.eqb_sym (col ++ "_item") key_name), E1.
    cbn [orb app existsb].
    rewrite (String.eqb_sym "index" key_name), E2.
    rewrite (String.eqb_sym "index" (col ++ "_item")), E3. cbn [orb app].
    apply all_keys_settled. intros r k Hr Hk.
    apply in_map_iff in Hr. destruct Hr as (r1 & <- & _).
    rewrite Hrec in Hk. cbn [dict_keys map fst existsb] in *.
    destruct Hk as [<-|[<-|[<-|[]]]]; rewrite String.eqb_refl;
      now rewrite ?orb_true_r. }
  unfold DataFrame_of_records, link_table. rewrite Hkeys, length_map.
  cbn [map]. rewrite !map_map.
  assert (Hk1 : map (fun r => match dict_get
                                      (link_record key_name col (fst (fst r))
                                                   (snd (fst r)) (snd r))
                                      key_name with
                              | Some v => v
                              | None => VNaN
                              end) rows
                = map (fun r => fst (fst r)) rows).
  { apply map_ext. intros r. rewrite Hrec. cbn [dict_get].
    now rewrite String.eqb_refl. }
  assert (Hk2 : map (fun r => match dict_get
                                      (link_record key_name col (fst (fst r))
                                                   (snd (fst r)) (snd r))
                                      (col ++ "_item") with
                              | Some v => v
                              | None => VNaN
                              end) rows
                = map VStr (map (fun r => snd (fst r)) rows)).
  { rewrite map_map. apply map_ext. intros r. rewrite Hrec. cbn [dict_get].
    now rewrite E1, String.eqb_refl. }
  assert (Hk3 : map (fun r => match dict_get
                                      (link_record key_name col (fst (fst r))
                                                   (snd (fst r)) (snd r))
                                      "index" with
                              | Some v => v
                              | None => VNaN
                              end) rows
                = map VInt (map (fun r => Z.of_nat (snd r)) rows)).
  { rewrite map_map. apply map_ext. intros r. rewrite Hrec. cbn [dict_get].
    now rewrite E2, E3. }
  rewrite Hk1, Hk2, Hk3, infer_text_column, infer_int_column.
  - cbn [fst snd]. now rewrite !map_map.
  - destruct rows; [contradiction | discriminate].
Qed.

Lemma extract_column_shapes (original_prefix key_name col : string)
      (df df' : DataFrame) (tables tables' : pydict DataFrame) :
  (forall c, key_name <> c ++ "_item") -> key_name <> "index" ->
  Forall (shaped_link_table original_prefix key_name) tables ->
  extract_column original_prefix key_name (df, tables) col = Ok (df', tables') ->
  Forall (shaped_link_table original_prefix key_name) tables'.
Proof.
  intros H1 H2 Ht. unfold extract_column.
  destruct (series df col) as [s|e]; cbn [bind]; [|discriminate].
  destruct (dtype_eqb (cdtype s) DObject);
    [|intros H; injection H as <- <-; exact Ht].
  destruct (str_accessor_ok (cvalues s)); cbn [negb]; [|discriminate].
  destruct (existsb has_comma (cvalues s));
    [|intros H; injection H as <- <-; exact Ht].
  unfold column_records.
  destruct (series df key_name) as [k|e]; cbn [bind]; [|discriminate].
  destruct (String.eqb key_name col);
    [intros H; injection H as <- <-; exact Ht|].
  destruct (column_records_rows key_name col (combine (cvalues k) (cvalues s)))
    as (rows & E & Hrows).
  rewrite E. destruct rows as [|r0 rows];
    [intros H; injection H as <- <-; exact Ht|].
  cbn [map]. intros H. injection H as <- <-.
  apply Forall_dict_set; [exact Ht|].
  exists col, (r0 :: rows). split; [discriminate|]. split; [reflexivity|].
  split; [|exact Hrows]. cbn [snd].
  now rewrite <- (link_records_table key_name col (r0 :: rows) (H1 col) H2).
Qed.

Lemma extract_loop_shapes (original_prefix key_name : string)
      (cols : list string) :
  (forall c, key_name <> c ++ "_item") -> key_name <> "index" ->
  forall df (tables tables' : pydict DataFrame),
    Forall (shaped_link_table original_prefix key_name) tables ->
    snd (extract_loop original_prefix key_name cols df tables) = Ok tables' ->
    Forall (shaped_link_table original_prefix key_name) tables'.
Proof.
  intros H1 H2. induction cols as [|col cols IH]; intros df tables tables' Ht.
  - cbn [extract_loop snd]. now intros [= <-].
  - cbn [extract_loop].
    destruct (extract_column original_prefix key_name (df, tables) col)
      as [[df1 t1]|e] eqn:Hstep; [|discriminate].
    apply IH. exact (extract_column_shapes _ _ _ _ _ _ _ H1 H2 Ht Hstep).
Qed.

(** X18.  Every link table the extraction returns has at least one row
    and exactly three columns, in this order: the key column, the column
    of the items, which holds non-empty text only, and the integer
    column [index]; no row has a missing key. *)
Theorem link_tables_have_shape (df : DataFrame)
        (original_prefix key_name : string) (tables : pydict DataFrame) :
  (forall c, key_name <> c ++ "_item") -> key_name <> "index" ->
  snd (extract_one_to_many_tables df original_prefix key_name) = Ok tables ->
  Forall (shaped_link_table original_prefix key_name) tables.
Proof.
  intros H1 H2 H.
  exact (extract_loop_shapes original_prefix key_name (names df) H1 H2 df []
                             tables (Forall_nil _) H).
Qed.

Lemma link_tables_have_shape_witness :
  Forall (shaped_link_table "posts" "post_id")
         [("posts_tags_table",
           DataFrame_of_records
             [link_record "post_id" "tags" (VInt 7) "x" 0;
              link_record "post_id" "tags" (VInt 8) "a" 0;
              link_record "post_id" "tags" (VInt 8) "b" 1;
              link_record "post_id" "tags" (VInt 8) "c" 2])].
Proof.
  apply (link_tables_have_shape tagged_posts "posts" "post_id").
  - intros c. apply id_suffix_not_item. reflexivity.
  - discriminate.
  - reflexivity.
Defined.

(** ** Tables the extraction leaves alone *)

Lemma series_of_column (df : DataFrame) (c : column) :
  NoDup (names df) -> In c (columns df) -> series df (cname c) = Ok c.
Proof.
  intros Hnd Hin.
  destruct (series_of_label df (cname c) Hnd (in_map cname _ _ Hin))
    as (s & Hs).
  rewrite Hs. f_equal. symmetry.
  destruct (series_ok _ _ _ Hs) as [Hg Hu].
  now apply (unique_column_is df (cname c) s c Hu Hg).
Qed.

Lemma series_of_missing (df : DataFrame) (key_name : string) :
  has_column df key_name = false -> series df key_name = Raise (KeyError key_name).
Proof.
  intros H. unfold series, get_column.
  destruct (find (fun c => String.eqb (cname c) key_name) (columns df))
    as [s|] eqn:E; [|reflexivity].
  apply find_some in E. unfold has_column in H.
  now rewrite (none_passes _ _ H s (proj1 E)) in E.
Qed.

Section Untouched.

Variable df : DataFrame.
Variables original_prefix key_name : string.
Hypothesis Haccepted : accepted_table df.

Lemma extract_plain_column (tables : pydict DataFrame) (c : column) :
  In c (columns df) -> comma_column c = false ->
  extract_column original_prefix key_name (df, tables) (cname c)
  = Ok (df, tables).
Proof.
  intros Hin Hc. destruct Haccepted as [Hnd Hstr]. unfold extract_column.
  rewrite (series_of_column df c Hnd Hin). cbn [bind].
  unfold comma_column in Hc.
  destruct (dtype_eqb (cdtype c) DObject) eqn:Hd; [|reflexivity].
  rewrite Hstr; [|exact Hin | now destruct (cdtype c)].
  cbn [negb] . cbn [andb] in Hc. now rewrite Hc.
Qed.

Lemma extract_loop_plain (cs : list column) :
  (forall c, In c cs -> In c (columns df)) ->
  existsb comma_column cs = false ->
  forall tables : pydict DataFrame,
    extract_loop original_prefix key_name (map cname cs) df tables
    = (df, Ok tables).
Proof.
  induction cs as [|c cs IH]; intros Hin Hc tables; [reflexivity|].
  cbn [existsb] in Hc. apply orb_false_iff in Hc. destruct Hc as [Hc Hcs].
  cbn [map extract_loop].
  rewrite (extract_plain_column tables c (Hin c (or_introl eq_refl)) Hc).
  apply IH; [|exact Hcs]. intros c' Hc'. apply Hin. now right.
Qed.

(** X19.  On a table without repeated label whose object columns [.str]
    accepts, and where no object column holds a comma, the extraction
    returns no table and leaves the table as it is, whatever the key
    column, present or not. *)
Theorem extraction_without_commas :
  existsb comma_column (columns df) = false ->
  extract_one_to_many_tables df original_prefix key_name = (df, Ok []).
Proof.
  intros Hc. unfold extract_one_to_many_tables, names.
  now apply extract_loop_plain.
Qed.

Lemma extract_loop_keyless (cs : list column) :
  has_column df key_name = false ->
  (forall c, In c cs -> In c (columns df)) ->
  existsb comma_column cs = true ->
  forall tables : pydict DataFrame,
    extract_loop original_prefix key_name (map cname cs) df tables
    = (df, Raise (KeyError key_name)).
Proof.
  intros Hkey. induction cs as [|c cs IH]; intros Hin Hc tables;
    [discriminate|].
  cbn [map extract_loop].
  destruct (comma_column c) eqn:Ec.
  - destruct Haccepted as [Hnd Hstr]. unfold extract_column.
    rewrite (series_of_column df c Hnd (Hin c (or_introl eq_refl))).
    cbn [bind]. unfold comma_column in Ec. apply andb_true_iff in Ec.
    destruct Ec as [Hd Hcomma]. rewrite Hd.
    rewrite Hstr; [|now apply Hin; left | now destruct (cdtype c)].
    cbn [negb]. rewrite Hcomma. unfold column_records.
    now rewrite (series_of_missing df key_name Hkey).
  - rewrite (extract_plain_column tables c (Hin c (or_introl eq_refl)) Ec).
    apply IH; [intros c' Hc'; apply Hin; now right|].
    cbn [existsb] in Hc. now rewrite Ec in Hc.
Qed.

(** X20.  On a table without repeated label whose object columns [.str]
    accepts, when no column carries the key label, the extraction fails
    with the [KeyError] of that label as soon as an object column holds
    a comma, and the table is then as it was given. *)
Theorem extraction_without_key_column :
  has_column df key_name = false ->
  existsb comma_column (columns df) = true ->
  extract_one_to_many_tables df original_prefix key_name
  = (df, Raise (KeyError key_name)).
Proof.
  intros Hkey Hc. unfold extract_one_to_many_tables, names.
  now apply extract_loop_keyless.
Qed.

End Untouched.

Lemma extraction_without_commas_witness :
  extract_one_to_many_tables posts_main "posts" "unique_id"
  = (posts_main, Ok []).
Proof.
  apply (extraction_without_commas posts_main "posts" "unique_id").
  - split.
    + repeat constructor; cbn; intuition discriminate.
    + intros c [<-|[<-|[<-|[<-|[]]]]] Hd;
        first [reflexivity | discriminate Hd].
  - reflexivity.
Defined.

Lemma extraction_without_key_column_witness :
  extract_one_to_many_tables tagged_posts "posts" "id"
  = (tagged_posts, Raise (KeyError "id")).
Proof.
  apply (extraction_without_key_column tagged_posts "posts" "id").
  - split.
    + repeat constructor; cbn; intuition discriminate.
    + intros c [<-|[<-|[<-|[]]]] Hd; first [reflexivity | discriminate Hd].
  - reflexivity.
  - reflexivity.
Defined.

(** ** What the summary of a run holds *)

Lemma grows_refl (st : RunState) : grows st st.
Proof. repeat split; auto. Qed.

Lemma grows_trans (a b c : RunState) : grows a b -> grows b c -> grows a c.
Proof.
  intros (H1 & H2 & H3) (K1 & K2 & K3). repeat split; auto.
Qed.

Lemma grows_add_processed (st : RunState) (p : string) (df : DataFrame) :
  grows st (add_processed st p df).
Proof.
  repeat split; cbn; auto. intros x Hx. apply in_or_app. now left.
Qed.

Lemma grows_add_table (st : RunState) (p : string) (df : DataFrame) :
  grows st (add_table st p df).
Proof. repeat split; cbn; auto. Qed.

Lemma grows_add_empty (st : RunState) (p : string) :
  grows st (add_empty st p).
Proof.
  repeat split; cbn; auto. intros x Hx. apply in_or_app. now left.
Qed.

Lemma grows_add_error (st : RunState) (p : string) (e : exn) :
  grows st (add_error st p e).
Proof.
  repeat split; cbn; auto. intros x Hx. apply in_or_app. now left.
Qed.

Lemma recorded_add_processed (st : RunState) (p : string) (df : DataFrame) :
  written_is_recorded st -> written_is_recorded (add_processed st p df).
Proof.
  intros [Hlen Hin]. split; cbn.
  - rewrite !length_app, Hlen. cbn. lia.
  - intros q. rewrite map_app, !in_app_iff, Hin. cbn. tauto.
Qed.

Lemma recorded_add_table (st : RunState) (p : string) (df : DataFrame) :
  written_is_recorded st -> written_is_recorded (add_table st p df).
Proof.
  intros [Hlen Hin]. split; cbn.
  - rewrite !length_app, Hlen. cbn. lia.
  - intros q. rewrite map_app, !in_app_iff, Hin. cbn. tauto.
Qed.

Lemma keys_after_sets {A} (ws : list (string * A)) :
  forall (out : pydict A) (p : string),
    In p (dict_keys (fold_left (fun d kv => dict_set d (fst kv) (snd kv))
                               ws out))
    <-> In p (dict_keys out) \/ In p (map fst ws).
Proof.
  induction ws as [|[k v] ws IH]; intros out p;
    cbn [fold_left map fst snd In].
  - tauto.
  - rewrite IH, dict_set_keys.
    destruct (existsb (String.eqb k) (dict_keys out)) eqn:E.
    + apply existsb_exists in E. destruct E as (k' & Hk' & E).
      apply String.eqb_eq in E. subst k'.
      cbn [In]. intuition (subst; auto).
    + rewrite in_app_iff. cbn [In]. tauto.
Qed.

Lemma keys_distinct_after_sets {A} (ws : list (string * A)) :
  forall out : pydict A,
    NoDup (dict_keys out) ->
    NoDup (dict_keys (fold_left (fun d kv => dict_set d (fst kv) (snd kv))
                                ws out)).
Proof.
  induction ws as [|[k v] ws IH]; intros out Hout; [exact Hout|].
  cbn [fold_left fst snd]. apply IH. rewrite dict_set_keys.
  destruct (existsb (String.eqb k) (dict_keys out)) eqn:E; [exact Hout|].
  apply NoDup_app; [exact Hout | repeat constructor; intros [] |].
  intros y Hy [<-|[]].
  pose proof (none_passes _ _ E k Hy) as Hk.
  now rewrite String.eqb_refl in Hk.
Qed.

Lemma entries_after_sets {A} (ws : list (string * A)) :
  forall out : pydict A,
    (List.length (fold_left (fun d kv => dict_set d (fst kv) (snd kv)) ws out)
     <= List.length out + List.length ws)%nat.
Proof.
  induction ws as [|[k v] ws IH]; intros out; cbn [fold_left fst snd].
  - cbn. now rewrite Nat.add_0_r.
  - specialize (IH (dict_set out k v)).
    assert (H : (List.length (dict_keys (dict_set out k v))
                 <= S (List.length (dict_keys out)))%nat).
    { rewrite dict_set_keys.
      destruct (existsb (String.eqb k) (dict_keys out));
        [|rewrite length_app]; cbn [List.length]; lia. }
    unfold dict_keys in H. rewrite !length_map in H.
    cbn [List.length]. lia.
Qed.

Section Summaries.

Context {pandas : Pandas}.
Variable cfg : Config.
Variable env : Env.
Variables input_root output_root : string.

Lemma save_tables_keeps (P : RunState -> Prop) (out_dir : string)
      (aux : pydict DataFrame) :
  (forall st p df, P st -> P (add_table st p df)) ->
  forall st, P st -> P (fst (save_tables env out_dir aux st)).
Proof.
  intros Hstep. induction aux as [|[tbl_name tbl_df] aux IH]; intros st Hst;
    cbn [save_tables]; [exact Hst|].
  destruct (to_csv env st _ tbl_df); [exact Hst|].
  apply IH. now apply Hstep.
Qed.

Lemma try_file_keeps (P : RunState -> Prop) (st : RunState)
      (json_path out_dir csv_out filename : string) :
  (forall st p df, P st -> P (add_table st p df)) ->
  (forall st p df, P st -> P (add_processed st p df)) ->
  (forall st p, P st -> P (add_empty st p)) ->
  P st ->
  P (fst (try_file cfg env st json_path out_dir csv_out filename)).
Proof.
  intros Ht Hp He Hst. unfold try_file.
  destruct (json_file_to_flat_records env st json_path) as [records|e];
    [|exact Hst].
  destruct (process_records cfg filename records) as [|main aux|e];
    [now apply He | | exact Hst].
  destruct (to_csv env st csv_out main); [exact Hst|].
  apply save_tables_keeps; [exact Ht | now apply Hp].
Qed.

Lemma process_file_keeps (P : RunState -> Prop) (st st' : RunState)
      (file : string * string) :
  (forall st p df, P st -> P (add_table st p df)) ->
  (forall st p df, P st -> P (add_processed st p df)) ->
  (forall st p, P st -> P (add_empty st p)) ->
  (forall st p e, P st -> P (add_error st p e)) ->
  P st ->
  process_file cfg env input_root output_root st file = Ok st' ->
  P st'.
Proof.
  intros Ht Hp He Herr Hst. unfold process_file.
  destruct file as [folder filename].
  destruct (is_json filename); cbn [negb]; [|now intros [= <-]].
  destruct (makedirs env st _); [discriminate|].
  match goal with
  | |- context [try_file ?c ?e ?s ?a ?b ?d ?f] =>
      pose proof (try_file_keeps P s a b d f Ht Hp He Hst) as Hk;
      destruct (try_file c e s a b d f) as [st1 [ex|]]
  end; cbn [fst] in Hk; intros [= <-]; [now apply Herr | exact Hk].
Qed.

Lemma run_keeps (P : RunState -> Prop) (files : list (string * string)) :
  (forall st p df, P st -> P (add_table st p df)) ->
  (forall st p df, P st -> P (add_processed st p df)) ->
  (forall st p, P st -> P (add_empty st p)) ->
  (forall st p e, P st -> P (add_error st p e)) ->
  forall st st',
    P st ->
    for_each files (process_file cfg env input_root output_root) st = Ok st' ->
    P st'.
Proof.
  intros Ht Hp He Herr. induction files as [|file files IH]; intros st st' Hst.
  - now intros [= <-].
  - cbn [for_each].
    destruct (process_file cfg env input_root output_root st file)
      as [st1|e] eqn:Hstep; [|discriminate].
    cbn [bind]. apply IH.
    exact (process_file_keeps P st st1 file Ht Hp He Herr Hst Hstep).
Qed.

Lemma run_grows (files : list (string * string)) (st st' : RunState) :
  for_each files (process_file cfg env input_root output_root) st = Ok st' ->
  grows st st'.
Proof.
  apply (run_keeps (grows st)).
  - intros s p df H. exact (grows_trans _ _ _ H (grows_add_table s p df)).
  - intros s p df H. exact (grows_trans _ _ _ H (grows_add_processed s p df)).
  - intros s p H. exact (grows_trans _ _ _ H (grows_add_empty s p)).
  - intros s p e H. exact (grows_trans _ _ _ H (grows_add_error s p e)).
  - apply grows_refl.
Qed.

Lemma try_file_accounts (st : RunState)
      (json_path out_dir csv_out filename : string) :
  snd (try_file cfg env st json_path out_dir csv_out filename) = None ->
  In csv_out
     (processed_files
        (summary (fst (try_file cfg env st json_path out_dir csv_out
                                filename))))
  \/ In json_path
        (empty_files
           (summary (fst (try_file cfg env st json_path out_dir csv_out
                                   filename)))).
Proof.
  unfold try_file.
  destruct (json_file_to_flat_records env st json_path) as [records|e];
    [|discriminate].
  destruct (process_records cfg filename records) as [|main aux|e];
    [| |discriminate].
  - intros _. right. cbn. apply in_or_app. right. now left.
  - destruct (to_csv env st csv_out main); [discriminate|].
    intros _. left.
    apply (save_tables_keeps
             (fun s => In csv_out (processed_files (summary s)))).
    + intros s p df H. exact H.
    + cbn. apply in_or_app. right. now left.
Qed.

Lemma process_file_accounts (st st' : RunState) (folder filename : string) :
  is_json filename = true ->
  process_file cfg env input_root output_root st (folder, filename) = Ok st' ->
  accounted env input_root output_root st' (folder, filename).
Proof.
  intros Hj. unfold process_file, accounted. rewrite Hj. cbn [negb fst snd].
  destruct (makedirs env st _); [discriminate|].
  match goal with
  | |- context [try_file ?c ?e ?s ?a ?b ?d ?f] =>
      pose proof (try_file_accounts s a b d f) as Hk;
      destruct (try_file c e s a b d f) as [st1 [ex|]]
  end; cbn [fst snd] in Hk; intros [= <-].
  - right. right. exists ex. cbn. apply in_or_app. right. now left.
  - destruct (Hk eq_refl) as [H|H]; [now left | right; now left].
Qed.

Lemma accounted_grows (st st' : RunState) (file : string * string) :
  grows st st' ->
  accounted env input_root output_root st file ->
  accounted env input_root output_root st' file.
Proof.
  intros (H1 & H2 & H3) [H|[H|(e & H)]].
  - left. now apply H1.
  - right. left. now apply H2.
  - right. right. exists e. now apply H3.
Qed.

(** X21.  When the run completes, its summary accounts for every JSON
    file of the tree: the cleaned table of the file is among the
    processed files, or the file is among the empty files, or it is
    among the errors. *)
Theorem every_json_file_is_accounted (final : RunState)
        (counts : nat * nat * nat * nat) (file : string * string) :
  process_all_jsons cfg env input_root output_root = Ok (final, counts) ->
  In file (walk_files env input_root) ->
  is_json (snd file) = true ->
  accounted env input_root output_root final file.
Proof.
  unfold process_all_jsons.
  destruct (for_each (walk_files env input_root)
                     (process_file cfg env input_root output_root) initial)
    as [st|e] eqn:Hrun; [|discriminate].
  cbn [bind]. intros [= -> _]. revert Hrun.
  generalize initial. generalize (walk_files env input_root).
  intros files. induction files as [|f files IH]; intros st0 Hrun Hin Hj;
    [destruct Hin|].
  pose proof run_grows as Hgrows.
  cbn [for_each] in Hrun.
  destruct (process_file cfg env input_root output_root st0 f) as [st1|e]
    eqn:Hstep; [|discriminate].
  cbn [bind] in Hrun. destruct Hin as [->|Hin].
  - apply (accounted_grows st1 final); [exact (Hgrows files _ _ Hrun)|].
    destruct file as [folder filename].
    exact (process_file_accounts st0 st1 folder filename Hj Hstep).
  - exact (IH st1 Hrun Hin Hj).
Qed.

Lemma writes_are_recorded (final : RunState)
      (counts : nat * nat * nat * nat) :
  process_all_jsons cfg env input_root output_root = Ok (final, counts) ->
  written_is_recorded final.
Proof.
  unfold process_all_jsons.
  destruct (for_each (walk_files env input_root)
                     (process_file cfg env input_root output_root) initial)
    as [st|e] eqn:Hrun; [|discriminate].
  cbn [bind]. intros [= -> _].
  apply (run_keeps written_is_recorded (walk_files env input_root)
                   recorded_add_table recorded_add_processed
                   (fun s p H => H) (fun s p e H => H) initial final);
    [|exact Hrun].
  split; [reflexivity|]. intros p. cbn. tauto.
Qed.

(** X22.  When the run completes, the paths of the files its writes have
    left are exactly the paths its summary lists, under the processed
    files or under the tables created.  A path is one file however
    often it is listed, a later write replacing the earlier file, so
    the files are at most as many as the entries listed. *)
Theorem written_files_are_listed (final : RunState)
        (counts : nat * nat * nat * nat) :
  process_all_jsons cfg env input_root output_root = Ok (final, counts) ->
  (forall p, In p (dict_keys (written_files final))
             <-> In p (processed_files (summary final))
                 \/ In p (tables_created (summary final)))
  /\ NoDup (dict_keys (written_files final))
  /\ (List.length (written_files final)
      <= List.length (processed_files (summary final))
         + List.length (tables_created (summary final)))%nat.
Proof.
  intros Hrun. destruct (writes_are_recorded final counts Hrun) as [Hlen Hin].
  unfold written_files, dict_of. split; [|split].
  - intros p. rewrite <- Hin, keys_after_sets. cbn. tauto.
  - apply keys_distinct_after_sets. constructor.
  - rewrite <- Hlen. apply (entries_after_sets (written final) []).
Qed.

(** X23.  Files whose name does not end in [.json], in whatever letter
    case, play no part in the run: it goes as on the tree without them,
    and where the tree has no JSON file it ends with an empty summary,
    whatever the operating system would answer to any other call. *)
Theorem other_files_play_no_part :
  process_all_jsons cfg env input_root output_root
  = (st <- for_each (filter (fun file => is_json (snd file))
                            (walk_files env input_root))
                    (process_file cfg env input_root output_root) initial ;;
     Ok (st, report (summary st)))
  /\ (filter (fun file => is_json (snd file)) (walk_files env input_root) = []
      -> process_all_jsons cfg env input_root output_root
         = Ok (initial, (O, O, O, O))).
Proof.
  assert (H : forall files st,
             for_each files (process_file cfg env input_root output_root) st
             = for_each (filter (fun file => is_json (snd file)) files)
                        (process_file cfg env input_root output_root) st).
  { induction files as [|[folder filename] files IH]; intros st;
      [reflexivity|].
    cbn [filter snd]. destruct (is_json filename) eqn:Hj.
    - cbn [for_each].
      destruct (process_file cfg env input_root output_root st
                             (folder, filename)); cbn [bind];
        [apply IH | reflexivity].
    - cbn [for_each]. unfold process_file at 1. rewrite Hj. cbn [negb bind].
      apply IH. }
  unfold process_all_jsons. rewrite H. split; [reflexivity|].
  now intros ->.
Qed.

End Summaries.

Lemma every_json_file_is_accounted_witness :
  accounted one_bad_file "in" "out" one_bad_file_final ("in", "bad.json").
Proof.
  apply (every_json_file_is_accounted config one_bad_file "in" "out"
                                      one_bad_file_final (2, 2, 0, 1)%nat
                                      ("in", "bad.json")).
  - vm_compute. reflexivity.
  - right. now left.
  - reflexivity.
Defined.

(** Two files of one folder whose link tables get the same name: the
    summary lists four entries and three files are left. *)
Lemma one_path_listed_twice :
  process_all_jsons config shared_table_path "in" "out"
  = Ok (shared_table_path_final, (2, 2, 0, 0)%nat)
  /\ tables_created (summary shared_table_path_final)
     = ["out/in/a_b_c_table.csv"; "out/in/a_b_c_table.csv"]
  /\ dict_keys (written_files shared_table_path_final)
     = ["out/in/a_cleaned.csv"; "out/in/a_b_c_table.csv";
        "out/in/a_b_cleaned.csv"].
Proof. repeat split; vm_compute; reflexivity. Qed.

Lemma written_files_are_listed_witness :
  (forall p, In p (dict_keys (written_files shared_table_path_final))
             <-> In p (processed_files (summary shared_table_path_final))
                 \/ In p (tables_created (summary shared_table_path_final)))
  /\ NoDup (dict_keys (written_files shared_table_path_final))
  /\ (List.length (written_files shared_table_path_final)
      <= List.length (processed_files (summary shared_table_path_final))
         + List.length (tables_created (summary shared_table_path_final)))%nat.
Proof.
  apply (written_files_are_listed config shared_table_path "in" "out"
                                  shared_table_path_final (2, 2, 0, 0)%nat).
  vm_compute. reflexivity.
Defined.

(** ** The names of the files written *)

Lemma lower_app (a b : string) :
  PyStr.lower (a ++ b) = PyStr.lower a ++ PyStr.lower b.
Proof. induction a as [|c a IH]; simpl; [reflexivity | now rewrite IH]. Qed.

Lemma replace_absent (old new s : string) :
  PyStr.contains old s = false -> PyStr.replace old new s = s.
Proof.
  unfold PyStr.replace. induction s as [|c r IH]; intros H; [reflexivity|].
  cbn [PyStr.contains] in H. apply orb_false_iff in H. destruct H as [H1 H2].
  cbn [PyStr.replace_from]. rewrite H1. now rewrite IH.
Qed.

Lemma dot_free_head (c : ascii) (r : string) :
  PyStr.contains "." (String c r) = false ->
  Ascii.eqb "." c = false /\ PyStr.contains "." r = false.
Proof.
  cbn [PyStr.contains PyStr.startswith]. intros H.
  apply orb_false_iff in H. destruct H as [H1 H2]. split; [|exact H2].
  now rewrite andb_true_r in H1.
Qed.

Lemma replace_extension (stem : string) :
  PyStr.contains "." stem = false ->
  PyStr.replace ".json" "_cleaned.csv" (stem ++ ".json")
  = stem ++ "_cleaned.csv".
Proof.
  unfold PyStr.replace. induction stem as [|c r IH]; intros H;
    [reflexivity|].
  apply dot_free_head in H. destruct H as [Hc Hr].
  change (String c r ++ ".json") with (String c (r ++ ".json")).
  cbn [PyStr.replace_from PyStr.startswith]. rewrite Hc. cbn [andb].
  now rewrite IH.
Qed.

Lemma before_extension (stem : string) :
  before_last_dot (stem ++ ".json") = Some stem.
Proof.
  induction stem as [|c r IH]; [reflexivity|].
  change (String c r ++ ".json") with (String c (r ++ ".json")).
  cbn [before_last_dot]. now rewrite IH.
Qed.

(** X24.  For a file named [stem.json], with a non-empty stem that has no
    dot, the file is taken for a JSON file, its cleaned table is written
    as [stem_cleaned.csv], and [stem] is the prefix of the names of its
    link tables. *)
Theorem names_of_a_plain_json_file (stem : string) :
  stem <> "" ->
  PyStr.contains "." stem = false ->
  is_json (stem ++ ".json") = true
  /\ PyStr.replace ".json" "_cleaned.csv" (stem ++ ".json")
     = stem ++ "_cleaned.csv"
  /\ splitext_root (stem ++ ".json") = stem.
Proof.
  intros Hne Hdot. split; [|split].
  - unfold is_json, PyStr.endswith. rewrite lower_app, rev_app. reflexivity.
  - now apply replace_extension.
  - unfold splitext_root. rewrite before_extension.
    destruct stem as [|c r]; [contradiction|].
    apply dot_free_head in Hdot. destruct Hdot as [Hc _].
    cbn [only_dots]. rewrite Ascii.eqb_sym in Hc. now rewrite Hc.
Qed.

Lemma names_of_a_plain_json_file_witness :
  is_json ("posts" ++ ".json") = true
  /\ PyStr.replace ".json" "_cleaned.csv" ("posts" ++ ".json")
     = "posts" ++ "_cleaned.csv"
  /\ splitext_root ("posts" ++ ".json") = "posts".
Proof.
  apply (names_of_a_plain_json_file "posts"); [discriminate | reflexivity].
Defined.

Section OtherCase.

Context {pandas : Pandas}.
Variable cfg : Config.
Variable env : Env.

(** X25.  A name that ends in [.json] in another letter case, such as
    [A.JSON], is processed, but the replacement of [.json] finds nothing
    in it: the cleaned table is written into the output directory under
    the very name of the JSON file. *)
Theorem other_case_keeps_the_name (input_root output_root : string)
        (st : RunState) (folder filename : string) :
  is_json filename = true ->
  PyStr.contains ".json" filename = false ->
  makedirs env st (path_join env output_root
                             (relpath env folder input_root)) = None ->
  process_file cfg env input_root output_root st (folder, filename)
  = match try_file cfg env st (path_join env folder filename)
                   (path_join env output_root (relpath env folder input_root))
                   (path_join env
                              (path_join env output_root
                                         (relpath env folder input_root))
                              filename)
                   filename with
    | (st', None) => Ok st'
    | (st', Some e) => Ok (add_error st' (path_join env folder filename) e)
    end.
Proof.
  intros Hj Hc Hm. unfold process_file. rewrite Hj, Hm. cbn [negb].
  now rewrite (replace_absent ".json" "_cleaned.csv" filename Hc).
Qed.

End OtherCase.

Lemma other_case_keeps_the_name_witness :
  process_file config one_bad_file "in" "out" initial ("in", "A.JSON")
  = match try_file config one_bad_file initial
                   (path_join one_bad_file "in" "A.JSON")
                   (path_join one_bad_file "out"
                              (relpath one_bad_file "in" "in"))
                   (path_join one_bad_file
                              (path_join one_bad_file "out"
                                         (relpath one_bad_file "in" "in"))
                              "A.JSON")
                   "A.JSON" with
    | (st', None) => Ok st'
    | (st', Some e) =>
        Ok (add_error st' (path_join one_bad_file "in" "A.JSON") e)
    end.
Proof.
  apply (other_case_keeps_the_name config one_bad_file "in" "out" initial
                                   "in" "A.JSON"); reflexivity.
Defined.

(** ** Extracting again *)

Lemma frame_names (key_name : string) (done : list string)
      (l0 l : list column) :
  Forall2 (kept_or_cleared key_name done) l0 l -> map cname l = map cname l0.
Proof.
  induction 1 as [|c0 c l0 l Hc _ IH]; [reflexivity|]. cbn [map].
  now rewrite IH, (kept_or_cleared_name _ _ _ _ Hc).
Qed.

Lemma text_cell_accepted (vs : list value) (t : string) :
  In (VStr t) vs -> str_accessor_ok vs = true.
Proof.
  intros Hin. unfold str_accessor_ok.
  assert (Hf : In (VStr t) (filter (fun v => negb (isna v)) vs))
    by (apply filter_In; now split).
  destruct (filter (fun v => negb (isna v)) vs) as [|x xs]; [reflexivity|].
  assert (Hno : forall p : value -> bool,
             p (VStr t) = false -> forallb p (x :: xs) = false).
  { intros p Hp. destruct (forallb p (x :: xs)) eqn:E; [|reflexivity].
    rewrite forallb_forall in E. now rewrite (E _ Hf) in Hp. }
  now rewrite !Hno.
Qed.

Lemma comma_cell (vs : list value) :
  existsb has_comma vs = true -> exists s, In (VStr s) vs.
Proof.
  intros H. apply existsb_exists in H. destruct H as (v & Hin & Hv).
  destruct v as [| | |b|z|z|s|ns]; cbn in Hv; try discriminate Hv.
  now exists s.
Qed.

Section Again.

Variable df : DataFrame.
Variables original_prefix key_name : string.
Variable kcol : column.
Hypothesis Haccepted : accepted_table df.
Hypothesis Hkey : series df key_name = Ok kcol.

Lemma extract_barren_column (tables : pydict DataFrame) (c : column) :
  In c (columns df) -> barren key_name kcol c = true ->
  extract_column original_prefix key_name (df, tables) (cname c)
  = Ok (df, tables).
Proof.
  intros Hin Hb. destruct (comma_column c) eqn:Ec.
  2: { now apply extract_plain_column. }
  destruct Haccepted as [Hnd Hstr]. unfold extract_column.
  rewrite (series_of_column df c Hnd Hin). cbn [bind].
  unfold comma_column in Ec. apply andb_true_iff in Ec.
  destruct Ec as [Hd Hcomma]. rewrite Hd.
  rewrite Hstr; [|exact Hin | now destruct (cdtype c)].
  cbn [negb]. rewrite Hcomma. unfold column_records. rewrite Hkey.
  cbn [bind]. unfold barren, comma_column in Hb.
  rewrite Hd, Hcomma in Hb. cbn [andb negb orb] in Hb.
  destruct (String.eqb key_name (cname c)); [reflexivity|].
  cbn [orb] in Hb.
  now destruct (flat_map (row_records key_name (cname c))
                         (combine (cvalues kcol) (cvalues c))).
Qed.

Lemma extract_loop_barren (cs : list column) :
  (forall c, In c cs -> In c (columns df)) ->
  forallb (barren key_name kcol) cs = true ->
  forall tables : pydict DataFrame,
    extract_loop original_prefix key_name (map cname cs) df tables
    = (df, Ok tables).
Proof.
  induction cs as [|c cs IH]; intros Hin Hb tables; [reflexivity|].
  cbn [forallb] in Hb. apply andb_true_iff in Hb. destruct Hb as [Hc Hcs].
  cbn [map extract_loop].
  rewrite (extract_barren_column tables c (Hin c (or_introl eq_refl)) Hc).
  apply IH; [|exact Hcs]. intros c' Hc'. apply Hin. now right.
Qed.

(** X26.  An object column with commas from which no row yields an item,
    because only blanks stand between its commas or because the rows
    that hold text have no key, gives no table and keeps its text: on a
    table without repeated label whose object columns [.str] accepts,
    which has the key column, and where every column is of that kind, or
    has no comma, or is the key column, the extraction returns nothing
    and changes nothing. *)
Theorem extraction_takes_nothing :
  forallb (barren key_name kcol) (columns df) = true ->
  extract_one_to_many_tables df original_prefix key_name = (df, Ok []).
Proof.
  intros Hb. unfold extract_one_to_many_tables, names.
  apply extract_loop_barren; [auto | exact Hb].
Qed.

End Again.

Lemma extraction_takes_nothing_witness :
  extract_one_to_many_tables blank_lists "posts" "post_id"
  = (blank_lists, Ok []).
Proof.
  apply (extraction_takes_nothing
           blank_lists "posts" "post_id"
           (mk_column "post_id" DInt [VInt 7; VInt 8])).
  - split.
    + repeat constructor; cbn; intuition discriminate.
    + intros c [<-|[<-|[]]] Hd; first [reflexivity | discriminate Hd].
  - reflexivity.
  - reflexivity.
Defined.

(** X27.  The extraction settles in one pass: on a table without repeated
    label whose object columns [.str] accepts and which has the key
    column, it succeeds, and run again on the table it left, with the
    same key, it returns no table and changes nothing more. *)
Theorem extraction_settles (df : DataFrame)
        (original_prefix key_name : string) (kcol : column) :
  accepted_table df ->
  series df key_name = Ok kcol ->
  exists df' tables,
    extract_one_to_many_tables df original_prefix key_name = (df', Ok tables)
    /\ extract_one_to_many_tables df' original_prefix key_name = (df', Ok []).
Proof.
  intros [Hnd Hstr] Hkey.
  destruct (extract_loop_runs original_prefix key_name df kcol Hnd Hstr Hkey
                              (names df) [] df [] eq_refl
                              (Forall2_same _ _ (fun x => or_introl eq_refl)))
    as (df' & tables & Hrun & _ & Hdone).
  exists df', tables. split; [exact Hrun|].
  pose proof (extract_loop_frame original_prefix key_name (names df) df [])
    as [_ Hframe].
  unfold extract_one_to_many_tables in *. rewrite Hrun in Hframe.
  cbn [fst] in Hframe.
  assert (Hnames : names df' = names df) by exact (frame_names _ _ _ _ Hframe).
  assert (Hkey' : series df' key_name = Ok kcol)
    by exact (series_after _ _ _ _ _ _ Hframe Hkey (or_intror eq_refl)).
  assert (Hacc : accepted_table df').
  { split; [now rewrite Hnames|]. intros c Hin Hobj.
    destruct (Forall2_source _ _ _ _ Hframe Hin) as (c0 & Hin0 & [->|Hcl]).
    - now apply Hstr.
    - destruct Hcl as (_ & _ & _ & Hcomma & ->). cbn [cleared cvalues].
      destruct (comma_cell _ Hcomma) as (s & Hs).
      apply (text_cell_accepted _ "").
      change (VStr "") with (clear_text (VStr s)). now apply in_map. }
  unfold names.
  apply (extract_loop_barren df' original_prefix key_name kcol Hacc Hkey'
                             (columns df') (fun c H => H)).
  apply forallb_forall. intros c Hin.
  assert (Hcleared : forall c0, c = cleared c0 ->
                                barren key_name kcol c = true).
  { intros c0 ->. unfold barren, comma_column. cbn [cleared cvalues cdtype].
    now rewrite cleared_has_no_comma, andb_false_r. }
  destruct (Forall2_source _ _ _ _ Hframe Hin) as (c0 & Hin0 & [->|Hcl]).
  2: { destruct Hcl as (_ & _ & _ & _ & Hc). now apply (Hcleared c0). }
  destruct (barren key_name kcol c0) eqn:Hb; [reflexivity|].
  unfold barren, comma_column in Hb.
  apply orb_false_iff in Hb. destruct Hb as [Hb Hrec].
  apply orb_false_iff in Hb. destruct Hb as [Hcomma Hne].
  apply negb_false_iff, andb_true_iff in Hcomma.
  destruct Hcomma as [Hd Hcomma].
  assert (Hobj : cdtype c0 = DObject) by now destruct (cdtype c0).
  apply String.eqb_neq in Hne.
  assert (Hs0 : series df (cname c0) = Ok c0)
    by now apply series_of_column.
  destruct (Hdone (cname c0) c0 (in_map cname _ _ Hin0) Hs0 Hobj Hcomma
                  (fun E => Hne (eq_sym E)))
    as [_ Hs'].
  { intros E. now rewrite E in Hrec. }
  assert (Hs1 : series df' (cname c0) = Ok c0).
  { apply (series_of_column df' c0); [now rewrite Hnames | exact Hin]. }
  rewrite Hs1 in Hs'. injection Hs' as Hs'.
  exact (Hcleared c0 Hs').
Qed.

Lemma extraction_settles_witness :
  exists df' tables,
    extract_one_to_many_tables tagged_posts "posts" "post_id"
    = (df', Ok tables)
    /\ extract_one_to_many_tables df' "posts" "post_id" = (df', Ok []).
Proof.
  apply (extraction_settles tagged_posts "posts" "post_id"
                            (mk_column "post_id" DInt [VInt 7; VInt 8])).
  - split.
    + repeat constructor; cbn; intuition discriminate.
    + intros c [<-|[<-|[<-|[]]]] Hd; first [reflexivity | discriminate Hd].
  - reflexivity.
Defined.

(** ** The labels of the cleaned table *)

Lemma clean_name_is_label (c : string) :
  all_chars label_char (clean_name c) = true.
Proof. rewrite clean_name_by_char. apply map_chars_all, label_of_is_label. Qed.

Lemma labels_fold {A} (step : DataFrame -> A -> DataFrame) (l : list A) :
  (forall d a, In a l -> clean_labels d -> clean_labels (step d a)) ->
  forall d, clean_labels d -> clean_labels (fold_left step l d).
Proof.
  induction l as [|a l IH]; intros Hstep d Hd; [exact Hd|].
  cbn [fold_left]. apply IH.
  - intros d' b Hb. apply Hstep. now right.
  - apply Hstep; [now left | exact Hd].
Qed.

Lemma labels_update_column (d : DataFrame) (col : string)
      (f : column -> dtype * list value) :
  clean_labels d -> clean_labels (update_column d col f).
Proof. unfold clean_labels. now rewrite names_update_column. Qed.

Lemma labels_set_column (d : DataFrame) (n : string) (dt : dtype)
      (vs : list value) :
  all_chars label_char n = true ->
  clean_labels d -> clean_labels (set_column d n dt vs).
Proof.
  intros Hn Hd. unfold set_column. destruct (has_column d n).
  - now apply labels_update_column.
  - unfold clean_labels, names in *. cbn [columns]. rewrite map_app.
    apply Forall_app. split; [exact Hd|]. now constructor.
Qed.

Section Labels.

Context {pandas : Pandas}.
Variable cfg : Config.

Lemma labels_date_features (d : DataFrame) (col : string) :
  all_chars label_char col = true ->
  clean_labels d -> clean_labels (date_features d col).
Proof.
  intros Hcol Hd. unfold date_features.
  destruct (unique_column d col); [|exact Hd].
  destruct (get_column d col) as [s|]; [|exact Hd].
  destruct (dtype_eqb (cdtype s) DDatetime); [|exact Hd].
  unfold set_date_part.
  repeat (apply labels_set_column;
          [rewrite all_chars_app, Hcol; reflexivity|]).
  exact Hd.
Qed.

Lemma cleaned_labels (df df' : DataFrame) :
  clean_and_standardize cfg df = Ok df' -> clean_labels df'.
Proof.
  unfold clean_and_standardize. cbv zeta.
  set (d0 := rename_columns clean_name
               (fillna (dropna_columns (drop_duplicates df)))).
  assert (H0 : clean_labels d0).
  { unfold clean_labels, d0, rename_columns, names. cbn [columns].
    rewrite map_map. cbn [cname]. apply Forall_map, Forall_forall.
    intros c _. apply clean_name_is_label. }
  set (d1 := if REMOVE_EMOJIS cfg
             then fold_left strip_emojis (object_columns d0) d0 else d0).
  assert (H1 : clean_labels d1).
  { unfold d1. destruct (REMOVE_EMOJIS cfg); [|exact H0].
    apply labels_fold; [|exact H0]. intros d a _ Hd. unfold strip_emojis.
    destruct (unique_column d a); [now apply labels_update_column | exact Hd]. }
  set (date_cols := filter (has_keyword date_keywords) (names d1)).
  assert (Hdates : Forall (fun n => all_chars label_char n = true) date_cols).
  { apply Forall_forall. intros n Hn. apply filter_In in Hn.
    unfold clean_labels in H1. rewrite Forall_forall in H1.
    now apply H1. }
  set (d2 := fold_left parse_date date_cols d1).
  assert (H2 : clean_labels d2).
  { apply labels_fold; [|exact H1]. intros d a _ Hd. unfold parse_date.
    destruct (unique_column d a); [|exact Hd].
    destruct (get_column d a) as [s|]; [|exact Hd].
    destruct (to_datetime_utc (cdtype s) (cvalues s)); [|exact Hd].
    now apply labels_update_column. }
  set (d3 := if DATE_FEATURES_EXTRACTION cfg
             then fold_left date_features date_cols d2 else d2).
  assert (H3 : clean_labels d3).
  { unfold d3. destruct (DATE_FEATURES_EXTRACTION cfg); [|exact H2].
    apply labels_fold; [|exact H2]. intros d a Ha Hd.
    apply labels_date_features; [|exact Hd].
    rewrite Forall_forall in Hdates. now apply Hdates. }
  set (d4 := fold_left coerce_metric
                       (filter (has_keyword metric_keywords) (names d3)) d3).
  assert (H4 : clean_labels d4).
  { apply labels_fold; [|exact H3]. intros d a _ Hd. unfold coerce_metric.
    destruct (unique_column d a); [|exact Hd].
    destruct (get_column d a) as [s|]; [|exact Hd].
    destruct (to_numeric_int (cdtype s) (cvalues s)); [|exact Hd].
    now apply labels_update_column. }
  unfold remap_media_type.
  assert (Hloop : forall d5, clean_labels d5 ->
                             for_each (object_columns d5) strip_column d5
                             = Ok df' -> clean_labels df').
  { intros d5 H5 Hrun.
    destruct (strip_loop_result _ _ _ Hrun) as (_ & Hnm & _).
    unfold clean_labels. now rewrite Hnm. }
  destruct (has_column d4 "media_type").
  - destruct (unique_column d4 "media_type"); [|discriminate].
    cbn [bind]. apply Hloop. now apply labels_update_column.
  - cbn [bind]. now apply Hloop.
Qed.

(** X28.  Every label of the table [clean_and_standardize] returns, the
    labels of the date parts it adds included, is free of spaces, dots,
    hyphens and capital letters. *)
Theorem cleaned_table_has_clean_labels (df df' : DataFrame) (n : string) :
  clean_and_standardize cfg df = Ok df' ->
  In n (names df') ->
  all_chars label_char n = true.
Proof.
  intros H Hn. pose proof (cleaned_labels df df' H) as Hl.
  unfold clean_labels in Hl. rewrite Forall_forall in Hl. now apply Hl.
Qed.

(** X29.  The key column is chosen among the labels as the records have
    them, before the cleanup renames the columns.  When the first label
    that ends in [_id] has a space, a dot, a hyphen or a capital letter,
    the cleaned table has no column of that name any more: provided its
    labels are distinct, the file fails with the [KeyError] of that
    label as soon as an object column of the cleaned table holds a
    comma, and otherwise yields the cleaned table and no link table. *)
Theorem key_label_lost_in_cleanup (filename : string)
        (records : list (pydict value)) (key_col : string)
        (others : list string) (cleaned : DataFrame) :
  df_empty (DataFrame_of_records records) = false ->
  filter (PyStr.endswith "_id") (names (DataFrame_of_records records))
  = key_col :: others ->
  all_chars label_char key_col = false ->
  clean_and_standardize cfg (DataFrame_of_records records) = Ok cleaned ->
  NoDup (names cleaned) ->
  process_records cfg filename records
  = if existsb comma_column (columns cleaned)
    then Failed (KeyError key_col)
    else Tables cleaned [].
Proof.
  intros Hne Hids Hkey Hclean Hnd. unfold process_records.
  destruct records as [|r rs]; [discriminate Hne|].
  rewrite Hne. unfold assign_ids. rewrite Hids, Hclean.
  assert (Hmissing : has_column cleaned key_col = false).
  { unfold has_column.
    destruct (existsb (fun c => String.eqb (cname c) key_col)
                      (columns cleaned)) eqn:E; [|reflexivity].
    apply existsb_exists in E. destruct E as (c & Hin & Hc).
    apply String.eqb_eq in Hc.
    pose proof (cleaned_labels _ _ Hclean) as Hl. unfold clean_labels in Hl.
    rewrite Forall_forall in Hl.
    rewrite (Hl key_col) in Hkey; [discriminate|].
    rewrite <- Hc. now apply in_map. }
  assert (Hacc : accepted_table cleaned).
  { split; [exact Hnd|]. intros c Hin Hobj.
    destruct (cleaned_object_column cfg _ _ c Hclean Hin Hobj) as [_ Htext].
    destruct (cvalues c) as [|v vs] eqn:E; [reflexivity|].
    destruct (Htext v (or_introl eq_refl)) as (s & -> & _).
    apply (text_cell_accepted _ s). now left. }
  unfold extract_one_to_many_tables, names.
  destruct (existsb comma_column (columns cleaned)) eqn:Hc.
  - now rewrite (extract_loop_keyless cleaned (splitext_root filename) key_col
                                      Hacc (columns cleaned) Hmissing
                                      (fun c H => H) Hc []).
  - now rewrite (extract_loop_plain cleaned (splitext_root filename) key_col
                                    Hacc (columns cleaned) (fun c H => H)
                                    Hc []).
Qed.

End Labels.

Lemma cleaned_table_has_clean_labels_witness :
  all_chars label_char "post_time_year" = true.
Proof.
  apply (cleaned_table_has_clean_labels
           config
           (mk_df 1 [mk_column "Post-Time" DInt [VInt 0]])
           (mk_df 1 [mk_column "post_time" DDatetime [VTime 0];
                     mk_column "post_time_year" DInt [VInt 1970];
                     mk_column "post_time_month" DInt [VInt 1];
                     mk_column "post_time_day" DInt [VInt 1];
                     mk_column "post_time_weekday" DInt [VInt 3];
                     mk_column "post_time_hour" DInt [VInt 0]])).
  - vm_compute. reflexivity.
  - right. now left.
Defined.

Lemma key_label_lost_in_cleanup_witness :
  process_records config "posts.json" capital_key_records
  = if existsb comma_column
               (columns (mk_df 1 [mk_column "post_id" DInt [VInt 1];
                                  mk_column "tags" DObject [VStr "a, b"]]))
    then Failed (KeyError "Post_id")
    else Tables (mk_df 1 [mk_column "post_id" DInt [VInt 1];
                          mk_column "tags" DObject [VStr "a, b"]]) [].
Proof.
  apply (key_label_lost_in_cleanup config "posts.json" capital_key_records
                                   "Post_id" []).
  - reflexivity.
  - reflexivity.
  - reflexivity.
  - reflexivity.
  - repeat constructor; cbn; intuition discriminate.
Defined.

(** ** Further instances *)

Lemma remove_emojis_and_specials_settles_witness :
  all_chars (fun c => negb (is_control c)) "a b" = true
  /\ PyStr.strip "a b" = "a b".
Proof.
  apply (proj2 (proj2 (remove_emojis_and_specials_settles
                         (VStr (String (PyStr.chr 9) " a b ")))) "a b").
  reflexivity.
Defined.

Lemma other_files_play_no_part_witness :
  process_all_jsons config no_json_files "in" "out"
  = Ok (initial, (O, O, O, O)).
Proof.
  apply (proj2 (other_files_play_no_part config no_json_files "in" "out")).
  reflexivity.
Defined.

(** ** A file that is processed and fails *)

Section Halfway.

Context {pandas : Pandas}.
Variable cfg : Config.
Variable env : Env.
Variables input_root output_root : string.

(** X30.  The cleaned table is written and entered among the processed
    files before the link tables are saved.  When saving a link table
    then fails, the file is entered among the errors as well: it counts
    both as processed and as an error, and its cleaned table stays
    written. *)
Theorem file_both_processed_and_failed (st : RunState)
        (folder filename : string) (data : json) (main : DataFrame)
        (aux_tables : pydict DataFrame) (e : exn) :
  let json_path := path_join env folder filename in
  let out_dir := path_join env output_root (relpath env folder input_root) in
  let csv_out :=
    path_join env out_dir (PyStr.replace ".json" "_cleaned.csv" filename) in
  is_json filename = true ->
  makedirs env st out_dir = None ->
  load_json env st json_path = Ok data ->
  process_records cfg filename (flat_records data) = Tables main aux_tables ->
  to_csv env st csv_out main = None ->
  snd (save_tables env out_dir aux_tables (add_processed st csv_out main))
  = Some e ->
  exists st',
    process_file cfg env input_root output_root st (folder, filename) = Ok st'
    /\ In csv_out (processed_files (summary st'))
    /\ In (json_path, e) (errors (summary st'))
    /\ In (csv_out, main) (written st').
Proof.
  intros json_path out_dir csv_out Hj Hm Hload Hrec Hcsv Hsave.
  unfold process_file. rewrite Hj. cbn [negb].
  fold json_path out_dir. rewrite Hm. fold csv_out.
  unfold try_file, json_file_to_flat_records. rewrite Hload. cbn [bind].
  rewrite Hrec, Hcsv.
  assert (Hkeep : In csv_out
                     (processed_files
                        (summary
                           (fst (save_tables env out_dir aux_tables
                                             (add_processed st csv_out main)))))
                  /\ In (csv_out, main)
                        (written
                           (fst (save_tables env out_dir aux_tables
                                             (add_processed st csv_out main))))).
  { apply (save_tables_keeps
             env (fun s => In csv_out (processed_files (summary s))
                           /\ In (csv_out, main) (written s))).
    - intros s p df [H1 H2]. split; [exact H1|]. cbn. apply in_or_app.
      now left.
    - split; cbn; apply in_or_app; right; now left. }
  destruct (save_tables env out_dir aux_tables (add_processed st csv_out main))
    as [st1 r] eqn:Hrun.
  cbn [snd] in Hsave. subst r. cbn [fst] in Hkeep.
  destruct Hkeep as [Hp Hw].
  eexists. split; [reflexivity|]. split; [exact Hp|].
  split; [|exact Hw]. cbn. apply in_or_app. right. now left.
Qed.

End Halfway.

Lemma file_both_processed_and_failed_witness :
  exists st',
    process_file config link_tables_unwritable "in" "out" initial
                 ("in", "posts.json") = Ok st'
    /\ In "out/in/posts_cleaned.csv" (processed_files (summary st'))
    /\ In ("in/posts.json", OSError "No space left on device")
          (errors (summary st'))
    /\ In ("out/in/posts_cleaned.csv", posts_main) (written st').
Proof.
  apply (file_both_processed_and_failed
           config link_tables_unwritable "in" "out" initial "in" "posts.json"
           posts_json posts_main
           [("posts_hashtags_table", posts_hashtags_table)]
           (OSError "No space left on device")).
  - reflexivity.
  - reflexivity.
  - reflexivity.
  - vm_compute. reflexivity.
  - reflexivity.
  - reflexivity.
Defined.

(** * Lists of scalars inside a document *)

Lemma assignments_object (sep : string) (kvs : list (string * json))
      (name : string) :
  assignments sep (JObj kvs) name
  = flat_map (fun kv => assignments sep (snd kv) (name ++ fst kv ++ sep)) kvs.
Proof.
  cbn [assignments]. induction kvs as [|[a v] kvs IH]; [reflexivity|].
  cbn [flat_map fst snd]. now rewrite IH.
Qed.

Lemma assignments_array (sep : string) (l : list json) (name : string) :
  forallb is_dict l = true ->
  assignments sep (JArr l) name = assignments_each sep name l O.
Proof.
  intros H. cbn [assignments]. rewrite H. clear H. generalize O.
  induction l as [|a l IH]; intros n; [reflexivity|].
  cbn [assignments_each]. now rewrite IH.
Qed.

(** [flatten] is its assignments, made one after the other. *)
Lemma flatten_assignments (sep : string) (x : json) :
  forall name out,
    flatten sep x name out
    = fold_left (fun d kv => dict_set d (fst kv) (snd kv))
                (assignments sep x name) out.
Proof.
  induction x as [|b|z|s|l IH|kvs IH] using json_nested_ind;
    intros name out; try reflexivity.
  - destruct (forallb is_dict l) eqn:E.
    + rewrite flatten_array, assignments_array by assumption. clear E.
      generalize O. revert out.
      induction IH as [|a l Ha _ IHl]; intros out n; [reflexivity|].
      cbn [flatten_each assignments_each]. rewrite fold_left_app, <- Ha.
      apply IHl.
    + cbn [flatten assignments]. now rewrite E.
  - rewrite flatten_object, assignments_object. revert out.
    induction IH as [|kv kvs Hkv _ IHl]; intros out; [reflexivity|].
    cbn [fold_left flat_map]. rewrite fold_left_app, <- Hkv. apply IHl.
Qed.

Lemma in_assignments_each (sep name : string) (l : list json) (v : json)
      (w : string * value) :
  forall i idx,
    nth_error l i = Some v ->
    In w (assignments sep v (name ++ PyStr.of_nat (idx + i) ++ sep)) ->
    In w (assignments_each sep name l idx).
Proof.
  induction l as [|a l IH]; intros [|i] idx Hnth Hin; try discriminate Hnth;
    cbn [assignments_each]; apply in_or_app.
  - injection Hnth as ->. rewrite Nat.add_0_r in Hin. now left.
  - right. apply (IH i (S idx) Hnth). now rewrite Nat.add_succ_comm.
Qed.

(** What is assigned for a value met in the document is assigned for
    the document. *)
Lemma at_path_assignments (sep : string) (y : json) (path : list string)
      (x : json) :
  at_path y path x ->
  forall name w,
    In w (assignments sep x (name ++ name_of_path sep path)) ->
    In w (assignments sep y name).
Proof.
  induction 1 as [y|kvs a v path x Hin _ IH|l i v path x Hall Hnth _ IH];
    intros name w Hw.
  - cbn [name_of_path] in Hw. now rewrite append_empty_r in Hw.
  - rewrite assignments_object. apply in_flat_map. exists (a, v).
    split; [exact Hin|]. cbn [fst snd]. apply IH.
    cbn [name_of_path] in Hw. now rewrite !append_assoc in *.
  - rewrite assignments_array by assumption.
    apply (in_assignments_each sep name l v w i O Hnth). cbn [Nat.add].
    apply IH. cbn [name_of_path] in Hw. now rewrite !append_assoc in *.
Qed.

Lemma key_of_path (c : ascii) (path : list string) :
  PyStr.drop_last (name_of_path (String c "") path)
  = PyStr.join (String c "") path.
Proof.
  induction path as [|a path IH]; [reflexivity|].
  cbn [name_of_path]. destruct path as [|b path].
  - cbn [name_of_path PyStr.join]. rewrite append_empty_r.
    apply drop_last_snoc.
  - rewrite drop_last_after.
    + rewrite IH.
      change (PyStr.join (String c "") (a :: b :: path))
        with (a ++ String c "" ++ PyStr.join (String c "") (b :: path)).
      now rewrite append_assoc.
    + cbn [name_of_path]. destruct b; discriminate.
Qed.

Lemma last_assignment_wins (ws : list (string * value)) (k : string)
      (v : value) :
  In (k, v) ws ->
  (forall v', In (k, v') ws -> v' = v) ->
  forall out,
    dict_get (fold_left (fun d kv => dict_set d (fst kv) (snd kv)) ws out) k
    = Some v.
Proof.
  induction ws as [|[k' v'] ws IH] using rev_ind; intros Hin Hall out;
    [destruct Hin|].
  rewrite fold_left_app. cbn [fold_left fst snd].
  destruct (String.eqb k' k) eqn:E.
  - apply String.eqb_eq in E. subst k'.
    rewrite (Hall v') by (apply in_or_app; right; now left).
    apply dict_get_set_same.
  - apply String.eqb_neq in E. rewrite dict_get_set_other by exact E.
    apply IH.
    + apply in_app_or in Hin. destruct Hin as [Hin|[Hin|[]]]; [exact Hin|].
      injection Hin as -> _. now elim E.
    + intros v0 H0. apply Hall. apply in_or_app. now left.
Qed.

Lemma entry_of_key (d : pydict value) (k : string) (v : value) :
  NoDup (dict_keys d) ->
  dict_get d k = Some v ->
  exists before after,
    d = (before ++ (k, v) :: after)%list
    /\ ~ In k (dict_keys before) /\ ~ In k (dict_keys after).
Proof.
  induction d as [|[k' v'] d IH]; intros Hnd Hget; [discriminate Hget|].
  cbn [dict_keys map fst] in Hnd. inversion Hnd as [|? ? Hfresh Hrest]; subst.
  cbn [dict_get] in Hget. destruct (String.eqb k' k) eqn:E.
  - apply String.eqb_eq in E. subst k'. injection Hget as ->.
    exists [], d. split; [reflexivity|]. split; [intros []|exact Hfresh].
  - destruct (IH Hrest Hget) as (before & after & -> & Hb & Ha).
    exists ((k', v') :: before), after. split; [reflexivity|].
    split; [|exact Ha]. cbn [dict_keys map fst]. intros [H|H].
    + subst k'. now rewrite String.eqb_refl in E.
    + now apply Hb.
Qed.

(** C4, as the claim has it, fails: the list [[1, 2]] is at the key path
    [a], [b], which gives the key [a_b], and the scalar under the key
    [a_b] of the document, flattened after it, takes its place; the
    result holds 5 under [a_b] and the joined text nowhere. *)
Lemma later_scalar_replaces_list :
  at_path colliding_document ["a"; "b"] (JArr [JNum 1; JNum 2])
  /\ PyStr.join "_" ["a"; "b"] = "a_b"
  /\ flatten_json colliding_document "" "_" = [("a_b", VInt 5)]
  /\ dict_get (flatten_json colliding_document "" "_") "a_b"
     <> Some (VStr (PyStr.join ", " (map json_str [JNum 1; JNum 2]))).
Proof.
  split; [|split; [reflexivity | split; [reflexivity | discriminate]]].
  apply (at_member _ "a" (JObj [("b", JArr [JNum 1; JNum 2])]));
    [now left|].
  apply (at_member _ "b" (JArr [JNum 1; JNum 2])); [now left|].
  apply at_here.
Qed.

(** C4, amended.  Take a non-empty list none of whose elements is an
    object, met in the document at a key path: the keys of the objects
    and the positions in the lists of objects gone through.  [flatten]
    assigns the [str] of its elements joined by [", "] to the key made
    of the path joined by the separator.  Provided whatever else the
    document assigns to that key is the same text, as when nothing else
    flattens to it, the result has exactly one entry under that key and
    it holds the joined text. *)
Theorem scalar_list_at_path (c : ascii) (y : json) (path : list string)
        (xs : list json) :
  at_path y path (JArr xs) ->
  xs <> [] ->
  Forall (fun x => is_dict x = false) xs ->
  (forall v,
      In (PyStr.join (String c "") path, v) (assignments (String c "") y "") ->
      v = VStr (PyStr.join ", " (map json_str xs))) ->
  exists before after,
    flatten_json y "" (String c "")
    = (before
       ++ (PyStr.join (String c "") path,
           VStr (PyStr.join ", " (map json_str xs))) :: after)%list
    /\ ~ In (PyStr.join (String c "") path) (dict_keys before)
    /\ ~ In (PyStr.join (String c "") path) (dict_keys after).
Proof.
  intros Hat Hne Hall Honly.
  pose proof (not_all_dicts xs Hne Hall) as Hno.
  assert (Hin : In (PyStr.join (String c "") path,
                    VStr (PyStr.join ", " (map json_str xs)))
                   (assignments (String c "") y "")).
  { apply (at_path_assignments _ _ _ _ Hat "").
    cbn [append assignments]. rewrite Hno, key_of_path. now left. }
  apply entry_of_key.
  - unfold flatten_json. rewrite flatten_assignments.
    apply keys_distinct_after_sets. constructor.
  - unfold flatten_json. rewrite flatten_assignments.
    now apply last_assignment_wins.
Qed.

Lemma scalar_list_at_path_witness :
  exists before after,
    flatten_json nested_lists_document "" "_"
    = (before
       ++ (PyStr.join "_" ["posts"; PyStr.of_nat 1; "tags"],
           VStr (PyStr.join ", " (map json_str [JNum 1; JStr "b"; JNull])))
       :: after)%list
    /\ ~ In (PyStr.join "_" ["posts"; PyStr.of_nat 1; "tags"])
            (dict_keys before)
    /\ ~ In (PyStr.join "_" ["posts"; PyStr.of_nat 1; "tags"])
            (dict_keys after).
Proof.
  apply (scalar_list_at_path "_" nested_lists_document
                             ["posts"; PyStr.of_nat 1; "tags"]
                             [JNum 1; JStr "b"; JNull]).
  - apply (at_member _ "posts"
             (JArr [JObj [("tags", JArr [JStr "u"; JStr "v"])];
                    JObj [("tags", JArr [JNum 1; JStr "b"; JNull])]]));
      [right; now left|].
    apply (at_index _ 1 (JObj [("tags", JArr [JNum 1; JStr "b"; JNull])]));
      [reflexivity | reflexivity |].
    apply (at_member _ "tags" (JArr [JNum 1; JStr "b"; JNull])); [now left|].
    apply at_here.
  - discriminate.
  - repeat constructor.
  - intros v Hin. vm_compute in Hin.
    destruct Hin as [Hin|[Hin|[Hin|[]]]]; try discriminate Hin.
    now injection Hin as <-.
Defined.

(** * The link rows of one table row *)






